(** * ZabMetrics: the WAF traffic collector [waf_sender.go]

    A shallow embedding of the collection pipeline of [waf_sender.go]
    (device-id resolution, the persisted poll window, the Zabbix sender
    line encoder, the [run] orchestration and [main]), followed by the
    properties of the specification that were checked against it
    (Part II) and by further properties of the code (Part III).

    Conventions.
    - Go [string]s are Rocq [string]s (byte sequences), Go [int]/[int64]
      are [Z] (the code never gets near the 64-bit bounds), [float64] is
      the kernel's binary64 [float].
    - A [time.Time] is an instant in Unix nanoseconds together with its
      [*time.Location]; the rule of the machine's local zone is a
      parameter [tz : Z -> Z] (Unix seconds to offset in seconds).
    - Everything the program does to the outside world (clock readings,
      HTTP requests, the state file, the sender process) goes through a
      state monad over [World]; the outside world answers through [Env].
    - [log.Printf] output is not modelled. *)

From Stdlib Require Import ZArith Lia String Ascii List Bool.
From Stdlib Require Import Floats.PrimFloat.
From stdpp Require Import base option gmap strings list.

Local Open Scope string_scope.
Local Open Scope list_scope.
Local Open Scope Z_scope.

(* ================================================================== *)
(** * Part I. Definitions *)
(* ================================================================== *)

(** ** Go's [strings] and [fmt] primitives used by the collector *)

(** [isDigit(s, i)] of package [time], and the byte test behind it. *)
Definition is_digit (c : ascii) : bool :=
  (Nat.leb 48 (nat_of_ascii c)) && (Nat.leb (nat_of_ascii c) 57).

Definition digit_val (c : ascii) : Z := Z.of_nat (nat_of_ascii c) - 48.

Definition digit_char (d : Z) : ascii := ascii_of_nat (Z.to_nat (48 + d)).

(** [strings.HasPrefix]. *)
Fixpoint HasPrefix (s p : string) : bool :=
  match p, s with
  | EmptyString, _ => true
  | String c p', String d s' => if Ascii.eqb c d then HasPrefix s' p' else false
  | String _ _, EmptyString => false
  end.

(** [strings.Contains]. *)
Fixpoint Contains (s sub : string) : bool :=
  HasPrefix s sub ||
  match s with
  | EmptyString => false
  | String _ s' => Contains s' sub
  end.

(** [strings.ReplaceAll s old new] for a non-empty [old]: non-overlapping
    occurrences, leftmost first.  [skip] counts the bytes of an occurrence
    that was just replaced and still has to be dropped. *)
Fixpoint replace_from (old new s : string) (skip : nat) : string :=
  match s with
  | EmptyString => EmptyString
  | String c s' =>
      match skip with
      | S k => replace_from old new s' k
      | O =>
          if HasPrefix s old
          then new +:+ replace_from old new s' (Nat.pred (String.length old))
          else String c (replace_from old new s' O)
      end
  end.

Definition ReplaceAll (s old new : string) : string := replace_from old new s O.

(** Decimal digits of a non-negative integer, most significant first. *)
Fixpoint utoa_fuel (fuel : nat) (n : Z) (acc : string) : string :=
  match fuel with
  | O => acc
  | S k =>
      let acc' := String (digit_char (n mod 10)) acc in
      if n <? 10 then acc' else utoa_fuel k (n / 10) acc'
  end.

Definition utoa (n : Z) : string := utoa_fuel (S (Z.to_nat (Z.log2 n))) n "".

(** [fmt.Sprintf("%d", n)], which is also ["%v"] of an [int] or [int64]. *)
Definition itoa (n : Z) : string :=
  if n <? 0 then "-" +:+ utoa (- n) else utoa n.

Fixpoint zeros (k : nat) : string :=
  match k with O => "" | S k' => String "0" (zeros k') end.

(** [appendInt(b, x, width)] of package [time]: sign, zero padding up to
    [width] digits, digits. *)
Definition appendInt (x : Z) (width : nat) : string :=
  let u := Z.abs x in
  let ds := utoa u in
  (if x <? 0 then "-" else "") +:+ zeros (width - String.length ds) +:+ ds.

(** ** Go's [time] package: instants, locations, the calendar *)

Inductive Location :=
| UTC
| Local
| FixedZone (offset : Z).

Record Time := mkTime { unixNano : Z; loc : Location }.

Definition Duration := Z.
Definition Second : Duration := 1000000000.
Definition Minute : Duration := 60 * Second.
Definition Hour : Duration := 60 * Minute.

(** [t.Unix()], [t.UnixMilli()], [t.Nanosecond()]. *)
Definition Unix (t : Time) : Z := unixNano t / 1000000000.
Definition UnixMilli (t : Time) : Z := unixNano t / 1000000.
Definition Nanosecond (t : Time) : Z := unixNano t mod 1000000000.

(** [t.Add(d)], [t.Sub(u)], [t.Before(u)]: arithmetic on the instant; the
    location is kept. *)
Definition Add (t : Time) (d : Duration) : Time := mkTime (unixNano t + d) (loc t).
Definition Sub (t u : Time) : Duration := unixNano t - unixNano u.
Definition Before (t u : Time) : bool := unixNano t <? unixNano u.

(** Offset east of UTC, in seconds, that a location has at an instant. *)
Definition zone_offset (tz : Z -> Z) (l : Location) (sec : Z) : Z :=
  match l with
  | UTC => 0
  | Local => tz sec
  | FixedZone off => off
  end.

Definition isLeap (y : Z) : bool :=
  (y mod 4 =? 0) && (negb (y mod 100 =? 0) || (y mod 400 =? 0)).

(** [daysIn(m, year)]. *)
Definition daysIn (m y : Z) : Z :=
  if m =? 2 then (if isLeap y then 29 else 28)
  else if (m =? 4) || (m =? 6) || (m =? 9) || (m =? 11) then 30
  else 31.

(** [daysBefore[m-1]]: days of a non-leap year before month [m]. *)
Definition daysBefore (m : Z) : Z :=
  match m with
  | 1 => 0 | 2 => 31 | 3 => 59 | 4 => 90 | 5 => 120 | 6 => 151
  | 7 => 181 | 8 => 212 | 9 => 243 | 10 => 273 | 11 => 304 | 12 => 334
  | _ => 365
  end.

(** Days from 0000-01-01 to [y]-01-01 in the proleptic Gregorian calendar
    (year 0 is a leap year). *)
Definition days_before_year (y : Z) : Z :=
  365 * y + (y + 3) / 4 - (y + 99) / 100 + (y + 399) / 400.

(** Days from 1970-01-01 to the civil date, as [time.Date] counts them
    for a month in 1..12. *)
Definition days_from_civil (y m d : Z) : Z :=
  days_before_year y + daysBefore m
  + (if isLeap y && (3 <=? m) then 1 else 0) + (d - 1) - 719528.

(** The year of a day counted from 0000-01-01: the estimate from the
    mean length of a year is off by one at most. *)
Definition year_of_day (D : Z) : Z :=
  let y := 400 * D / 146097 in
  if days_before_year (y + 1) <=? D then y + 1
  else if days_before_year y <=? D then y
  else y - 1.

(** The month of a day of the year (counted from 0). *)
Definition month_of_yday (leap : bool) (yday : Z) : Z :=
  let l := if leap then 1 else 0 in
  if yday <? 31 then 1
  else if yday <? 59 + l then 2
  else if yday <? 90 + l then 3
  else if yday <? 120 + l then 4
  else if yday <? 151 + l then 5
  else if yday <? 181 + l then 6
  else if yday <? 212 + l then 7
  else if yday <? 243 + l then 8
  else if yday <? 273 + l then 9
  else if yday <? 304 + l then 10
  else if yday <? 334 + l then 11
  else 12.

(** The civil date of a day number (days since 1970-01-01), as
    [Time.Date] reports it: the year that holds the day, the month that
    holds the day of that year, the day of that month. *)
Definition civil_from_days (z : Z) : Z * Z * Z :=
  let D := z + 719528 in
  let y := year_of_day D in
  let yday := D - days_before_year y in
  let m := month_of_yday (isLeap y) yday in
  let d := yday - daysBefore m - (if isLeap y && (3 <=? m) then 1 else 0) + 1 in
  (y, m, d).

(** The broken-down wall clock of a time in its own location. *)
Record Civil := mkCivil {
  c_year : Z; c_month : Z; c_day : Z;
  c_hour : Z; c_min : Z; c_sec : Z; c_nsec : Z;
  c_offset : Z
}.

Definition civil_of (tz : Z -> Z) (t : Time) : Civil :=
  let sec := Unix t in
  let off := zone_offset tz (loc t) sec in
  let abs := sec + off in
  let '(y, m, d) := civil_from_days (abs / 86400) in
  let sod := abs mod 86400 in
  mkCivil y m d (sod / 3600) (sod mod 3600 / 60) (sod mod 60) (Nanosecond t) off.

(** [time.Date(y, m, d, h, mi, s, ns, UTC)] for fields already in range. *)
Definition date_utc (y m d h mi s ns : Z) : Z :=
  ((days_from_civil y m d * 86400 + h * 3600 + mi * 60 + s) * 1000000000) + ns.

(** ** Go's [time] package: layouts, [Format] and [Parse]

    A layout is kept as the sequence of chunks that [nextStdChunk] cuts
    it into: literal text and the standard elements.  Only the elements
    that occur in the four layouts of [getLastRunTime] and in
    [saveLastRunTime] are modelled. *)

Inductive Chunk :=
| Lit (s : string)
| stdLongYear                  (* 2006 *)
| stdZeroMonth                 (* 01 *)
| stdZeroDay                   (* 02 *)
| stdHour                      (* 15 *)
| stdZeroMinute                (* 04 *)
| stdZeroSecond                (* 05 *)
| stdFracSecond9 (digits : nat) (* .999999: up to [digits] places, trimmed *)
| stdISO8601ColonTZ.           (* Z07:00 *)

(** [time.RFC3339], that is 2006-01-02T15:04:05Z07:00. *)
Definition RFC3339 : list Chunk :=
  [stdLongYear; Lit "-"; stdZeroMonth; Lit "-"; stdZeroDay; Lit "T";
   stdHour; Lit ":"; stdZeroMinute; Lit ":"; stdZeroSecond; stdISO8601ColonTZ].

(** 2006-01-02T15:04:05.999999 *)
Definition layoutISOMicro : list Chunk :=
  [stdLongYear; Lit "-"; stdZeroMonth; Lit "-"; stdZeroDay; Lit "T";
   stdHour; Lit ":"; stdZeroMinute; Lit ":"; stdZeroSecond; stdFracSecond9 6].

(** 2006-01-02T15:04:05 *)
Definition layoutISO : list Chunk :=
  [stdLongYear; Lit "-"; stdZeroMonth; Lit "-"; stdZeroDay; Lit "T";
   stdHour; Lit ":"; stdZeroMinute; Lit ":"; stdZeroSecond].

(** 2006-01-02 15:04:05 *)
Definition layoutDateTime : list Chunk :=
  [stdLongYear; Lit "-"; stdZeroMonth; Lit "-"; stdZeroDay; Lit " ";
   stdHour; Lit ":"; stdZeroMinute; Lit ":"; stdZeroSecond].

Fixpoint take_str (n : nat) (s : string) : string :=
  match n, s with
  | S k, String c s' => String c (take_str k s')
  | _, _ => EmptyString
  end.

Fixpoint drop_str (n : nat) (s : string) : string :=
  match n, s with
  | S k, String _ s' => drop_str k s'
  | _, _ => s
  end.

(** Drops the trailing [0] bytes of a digit string. *)
Fixpoint trim_zeros (s : string) : string :=
  match s with
  | EmptyString => EmptyString
  | String c s' =>
      match trim_zeros s' with
      | EmptyString => if Ascii.eqb c "0" then EmptyString else String c EmptyString
      | r => String c r
      end
  end.

(** [appendNano] for a [stdFracSecond9] element of [n] digits: nothing
    when the trimmed fraction is empty, else the period and the digits. *)
Definition appendNano (nanosec : Z) (n : nat) : string :=
  if Nat.eqb n 0 || (nanosec =? 0) then EmptyString
  else
    match trim_zeros (take_str n (appendInt nanosec 9)) with
    | EmptyString => EmptyString
    | ds => String "." ds
    end.

(** The zone element Z07:00 of [Time.Format]. *)
Definition format_zone (offset : Z) : string :=
  if offset =? 0 then "Z"
  else
    let zone := Z.quot offset 60 in
    (if zone <? 0 then "-" else "+")
    +:+ appendInt (Z.abs zone / 60) 2 +:+ ":" +:+ appendInt (Z.abs zone mod 60) 2.

Definition format_chunk (c : Civil) (k : Chunk) : string :=
  match k with
  | Lit s => s
  | stdLongYear => appendInt (c_year c) 4
  | stdZeroMonth => appendInt (c_month c) 2
  | stdZeroDay => appendInt (c_day c) 2
  | stdHour => appendInt (c_hour c) 2
  | stdZeroMinute => appendInt (c_min c) 2
  | stdZeroSecond => appendInt (c_sec c) 2
  | stdFracSecond9 n => appendNano (c_nsec c) n
  | stdISO8601ColonTZ => format_zone (c_offset c)
  end.

Fixpoint format_chunks (c : Civil) (layout : list Chunk) : string :=
  match layout with
  | [] => EmptyString
  | k :: rest => format_chunk c k +:+ format_chunks c rest
  end.

(** [t.Format(layout)]. *)
Definition Format (tz : Z -> Z) (t : Time) (layout : list Chunk) : string :=
  format_chunks (civil_of tz t) layout.

(** *** Parsing *)

Definition isDigit (s : string) (i : nat) : bool :=
  match String.get i s with
  | Some c => is_digit c
  | None => false
  end.

Definition commaOrPeriod (c : ascii) : bool :=
  Ascii.eqb c "." || Ascii.eqb c ",".

Fixpoint cutspace (s : string) : string :=
  match s with
  | String " " s' => cutspace s'
  | _ => s
  end.

(** [skip(value, prefix)]: a space of the layout stands for a run of
    spaces of the value (or its end), any other byte for itself.  [fuel]
    bounds the bytes of [prefix] still to be read. *)
Fixpoint skip_fuel (fuel : nat) (value prefix : string) : option string :=
  match prefix with
  | EmptyString => Some value
  | String p prefix' =>
      match fuel with
      | O => None
      | S fuel' =>
          if Ascii.eqb p " " then
            match value with
            | String v _ =>
                if Ascii.eqb v " " then skip_fuel fuel' (cutspace value) (cutspace prefix)
                else None
            | EmptyString => skip_fuel fuel' (cutspace value) (cutspace prefix)
            end
          else
            match value with
            | String v value' =>
                if Ascii.eqb v p then skip_fuel fuel' value' prefix' else None
            | EmptyString => None
            end
      end
  end.

Definition skip (value prefix : string) : option string :=
  skip_fuel (String.length prefix) value prefix.

(** [getnum(s, fixed)]: one or two digits; exactly two when [fixed]. *)
Definition getnum (s : string) (fixed : bool) : option (Z * string) :=
  match s with
  | String a s1 =>
      if is_digit a then
        match s1 with
        | String b s2 =>
            if is_digit b then Some (digit_val a * 10 + digit_val b, s2)
            else if fixed then None else Some (digit_val a, s1)
        | EmptyString => if fixed then None else Some (digit_val a, s1)
        end
      else None
  | EmptyString => None
  end.

(** [leadingInt]: the value of the leading digits and what follows them
    (the overflow error cannot be met with the at most nine digits the
    parser hands over). *)
Fixpoint leadingInt (acc : Z) (s : string) : Z * string :=
  match s with
  | String c s' => if is_digit c then leadingInt (acc * 10 + digit_val c) s' else (acc, s)
  | EmptyString => (acc, s)
  end.

(** [atoi]: an optional sign, then digits up to the end. *)
Definition atoi (s : string) : option Z :=
  let '(neg, s1) :=
    match s with
    | String "-" s' => (true, s')
    | String "+" s' => (false, s')
    | _ => (false, s)
    end in
  match leadingInt 0 s1 with
  | (q, EmptyString) => Some (if neg then - q else q)
  | _ => None
  end.

(** Number of leading digits. *)
Fixpoint span_digits (s : string) : nat :=
  match s with
  | String c s' => if is_digit c then S (span_digits s') else O
  | EmptyString => O
  end.

(** [parseNanoseconds(value, nbytes)]: the period or comma, then
    [nbytes - 1] digits, of which at most nine count. *)
Definition parseNanoseconds (value : string) (nbytes : nat) : option Z :=
  match value with
  | String c _ =>
      if commaOrPeriod c then
        let nbytes := Nat.min nbytes 10 in
        match atoi (drop_str 1 (take_str nbytes value)) with
        | Some ns => if ns <? 0 then None else Some (ns * 10 ^ Z.of_nat (10 - nbytes))
        | None => None
        end
      else None
  | EmptyString => None
  end.

(** The fields [parse] collects. *)
Record Fields := mkFields {
  f_year : Z; f_month : Z; f_day : Z;
  f_hour : Z; f_min : Z; f_sec : Z; f_nsec : Z;
  f_utc : bool;         (* z = UTC: the value said Z *)
  f_zoneOffset : Z      (* -1: none seen *)
}.

Definition fields0 : Fields := mkFields 0 (-1) (-1) 0 0 0 0 false (-1).

(** The next standard element of the rest of a layout. *)
Fixpoint nextStd (layout : list Chunk) : option Chunk :=
  match layout with
  | [] => None
  | Lit _ :: rest => nextStd rest
  | k :: _ => Some k
  end.

Definition is_frac (k : option Chunk) : bool :=
  match k with Some (stdFracSecond9 _) => true | _ => false end.

(** A value starts with a fractional second: a period or comma and a digit. *)
Definition has_fraction (value : string) : bool :=
  match value with
  | String c (String d _) => commaOrPeriod c && is_digit d
  | _ => false
  end.

(** One element of the layout against the value: the new fields and the
    rest of the value, or [None] for an error of either kind (bad value,
    out of range). *)
Definition parse_chunk (k : Chunk) (rest : list Chunk) (f : Fields) (value : string)
  : option (Fields * string) :=
  match k with
  | Lit s =>
      match skip value s with
      | Some v => Some (f, v)
      | None => None
      end
  | stdLongYear =>
      if Nat.ltb (String.length value) 4 || negb (isDigit value 0) then None
      else
        match atoi (take_str 4 value) with
        | Some y =>
            Some (mkFields y (f_month f) (f_day f) (f_hour f) (f_min f) (f_sec f)
                    (f_nsec f) (f_utc f) (f_zoneOffset f), drop_str 4 value)
        | None => None
        end
  | stdZeroMonth =>
      match getnum value true with
      | Some (m, v) =>
          if (m <=? 0) || (12 <? m) then None
          else Some (mkFields (f_year f) m (f_day f) (f_hour f) (f_min f) (f_sec f)
                       (f_nsec f) (f_utc f) (f_zoneOffset f), v)
      | None => None
      end
  | stdZeroDay =>
      match getnum value true with
      | Some (d, v) =>
          Some (mkFields (f_year f) (f_month f) d (f_hour f) (f_min f) (f_sec f)
                  (f_nsec f) (f_utc f) (f_zoneOffset f), v)
      | None => None
      end
  | stdHour =>
      match getnum value false with
      | Some (h, v) =>
          if (h <? 0) || (24 <=? h) then None
          else Some (mkFields (f_year f) (f_month f) (f_day f) h (f_min f) (f_sec f)
                       (f_nsec f) (f_utc f) (f_zoneOffset f), v)
      | None => None
      end
  | stdZeroMinute =>
      match getnum value true with
      | Some (mi, v) =>
          if (mi <? 0) || (60 <=? mi) then None
          else Some (mkFields (f_year f) (f_month f) (f_day f) (f_hour f) mi (f_sec f)
                       (f_nsec f) (f_utc f) (f_zoneOffset f), v)
      | None => None
      end
  | stdZeroSecond =>
      match getnum value true with
      | Some (s, v) =>
          if (s <? 0) || (60 <=? s) then None
          else
            let f' := mkFields (f_year f) (f_month f) (f_day f) (f_hour f) (f_min f) s
                        (f_nsec f) (f_utc f) (f_zoneOffset f) in
            if has_fraction v && negb (is_frac (nextStd rest)) then
              (* a fractional second in the value but none in the layout *)
              let n := S (span_digits (drop_str 1 v)) in
              match parseNanoseconds v n with
              | Some ns =>
                  Some (mkFields (f_year f) (f_month f) (f_day f) (f_hour f) (f_min f) s
                          ns (f_utc f) (f_zoneOffset f), drop_str n v)
              | None => None
              end
            else Some (f', v)
      | None => None
      end
  | stdFracSecond9 _ =>
      if has_fraction value then
        let n := S (span_digits (drop_str 1 value)) in
        match parseNanoseconds value n with
        | Some ns =>
            Some (mkFields (f_year f) (f_month f) (f_day f) (f_hour f) (f_min f) (f_sec f)
                    ns (f_utc f) (f_zoneOffset f), drop_str n value)
        | None => None
        end
      else Some (f, value)     (* fractional second omitted *)
  | stdISO8601ColonTZ =>
      match value with
      | String "Z" v =>
          Some (mkFields (f_year f) (f_month f) (f_day f) (f_hour f) (f_min f) (f_sec f)
                  (f_nsec f) true (f_zoneOffset f), v)
      | _ =>
          if Nat.ltb (String.length value) 6 then None
          else
            match String.get 3 value with
            | Some ":"%char =>
                let sign := String.get 0 value in
                match getnum (take_str 2 (drop_str 1 value)) true,
                      getnum (take_str 2 (drop_str 4 value)) true with
                | Some (hr, _), Some (mm, _) =>
                    if (24 <? hr) || (60 <? mm) then None
                    else
                      let off := (hr * 60 + mm) * 60 in
                      match sign with
                      | Some "+"%char =>
                          Some (mkFields (f_year f) (f_month f) (f_day f) (f_hour f)
                                  (f_min f) (f_sec f) (f_nsec f) (f_utc f) off,
                                drop_str 6 value)
                      | Some "-"%char =>
                          Some (mkFields (f_year f) (f_month f) (f_day f) (f_hour f)
                                  (f_min f) (f_sec f) (f_nsec f) (f_utc f) (- off),
                                drop_str 6 value)
                      | _ => None
                      end
                | _, _ => None
                end
            | _ => None
            end
      end
  end.

(** The loop of [parse]: every element in turn; at the end of the layout
    the value must be used up (else: extra text). *)
Fixpoint parse_chunks (layout : list Chunk) (f : Fields) (value : string)
  : option Fields :=
  match layout with
  | [] => match value with EmptyString => Some f | _ => None end
  | k :: rest =>
      match parse_chunk k rest f value with
      | Some (f', v) => parse_chunks rest f' v
      | None => None
      end
  end.

(** The end of [parse]: defaults for month and day, the day-of-month
    check, and the location: UTC when the value said Z; when it gave an
    offset, the local zone if that has this offset at the instant and a
    fixed zone otherwise; UTC (the default of [time.Parse]) when it gave
    no zone at all. *)
Definition parse_finish (tz : Z -> Z) (f : Fields) : option Time :=
  let month := if f_month f <? 0 then 1 else f_month f in
  let day := if f_day f <? 0 then 1 else f_day f in
  if (day <? 1) || (daysIn month (f_year f) <? day) then None
  else
    let wall := date_utc (f_year f) month day (f_hour f) (f_min f) (f_sec f) (f_nsec f) in
    if f_utc f then Some (mkTime wall UTC)
    else if negb (f_zoneOffset f =? -1) then
      let t := wall - f_zoneOffset f * 1000000000 in
      if tz (t / 1000000000) =? f_zoneOffset f
      then Some (mkTime t Local)
      else Some (mkTime t (FixedZone (f_zoneOffset f)))
    else Some (mkTime wall UTC).

(** [time.Parse(layout, value)]; [None] is a non-nil error. *)
Definition Parse (tz : Z -> Z) (layout : list Chunk) (value : string) : option Time :=
  match parse_chunks layout fields0 value with
  | Some f => parse_finish tz f
  | None => None
  end.

(** ** Values decoded by [encoding/json] and the Go values built from them *)

(** What [json.Unmarshal] stores in an [interface{}]: [nil], [bool],
    [float64], [string], [[]interface{}], [map[string]interface{}]. *)
#[warnings="-register-all"]
Inductive value :=
| VNil
| VBool (b : bool)
| VFloat (f : float)
| VString (s : string)
| VSlice (l : list value)
| VMap (m : gmap string value).

(** A JSON text is identified with the document it denotes; a byte
    sequence that is not JSON is kept as bytes. *)
Inductive FileData :=
| RawBytes (s : string)
| JSONText (v : value).

Record Site := mkSite {
  ID : string;
  Name : string;
  Enabled : bool;
  StructID : string
}.

Record TrafficData := mkTrafficData {
  Timestamp : Z;
  BytesInRateAvg : float;
  BytesInRateMax : float;
  BytesOutRateAvg : float;
  BytesOutRateMax : float;
  ConnCurAvg : float;
  ConnCurMax : float;
  ConnRateAvg : float;
  HTTPReqCntAvg : float;
  HTTPReqCntMax : float;
  HTTPReqRateAvg : float
}.

(** The dynamic types that reach [ZabbixData.Value]. *)
Inductive ZValue :=
| IntV (n : Z)
| Int64V (n : Z)
| FloatV (f : float)
| StringV (s : string).

Record ZabbixData := mkZabbixData {
  Host : string;
  Key : string;
  Value : ZValue;
  Clock : Z
}.

Record LastRunInfo := mkLastRunInfo {
  LastRunTime : string;
  DataType : string;
  ZabbixHost : string
}.

Record APIResponse := mkAPIResponse {
  Code : string;
  Message : string;
  Data : option value      (* [None]: no data member, an empty RawMessage *)
}.

(** The immutable fields of [WAFCollector]. *)
Record Config := mkConfig {
  wafHost : string;
  token : string;
  zabbixServer : string;
  zabbixHost : string;
  dataType : string;
  lastRunFile : string
}.

(** *** Decoding into the collector's struct types

    [json.Unmarshal] into a struct: [null] leaves the zero value, an
    object fills the members it names, and a member of the wrong JSON
    type is an error.  Member names are matched exactly here (Go also
    accepts a name that differs in letter case only). *)

Definition dec_string (m : gmap string value) (k : string) : option string :=
  match m !! k with
  | None | Some VNil => Some EmptyString
  | Some (VString s) => Some s
  | Some _ => None
  end.

Definition dec_bool (m : gmap string value) (k : string) : option bool :=
  match m !! k with
  | None | Some VNil => Some false
  | Some (VBool b) => Some b
  | Some _ => None
  end.

(** [struct { ID string `json:"id"` }] and
    [struct { Serial string `json:"serial"` }]. *)
Definition decode_string_member (k : string) (raw : option value) : option string :=
  match raw with
  | Some VNil => Some EmptyString
  | Some (VMap m) => dec_string m k
  | _ => None
  end.

Definition decode_site (v : value) : option Site :=
  match v with
  | VNil => Some (mkSite EmptyString EmptyString false EmptyString)
  | VMap m =>
      match dec_string m "_pk", dec_string m "name",
            dec_bool m "enable", dec_string m "struct_pk" with
      | Some pk, Some name, Some en, Some spk => Some (mkSite pk name en spk)
      | _, _, _, _ => None
      end
  | _ => None
  end.

(** A member [Result []T `json:"result"`] of the data object. *)
Definition decode_result {T} (elem : value -> option T) (raw : option value)
  : option (list T) :=
  match raw with
  | Some VNil => Some []
  | Some (VMap m) =>
      match m !! "result" with
      | None | Some VNil => Some []
      | Some (VSlice l) => mapM elem l
      | Some _ => None
      end
  | _ => None
  end.

(** An element of [[]map[string]interface{}]; [null] is the nil map. *)
Definition decode_record (v : value) : option (gmap string value) :=
  match v with
  | VNil => Some ∅
  | VMap m => Some m
  | _ => None
  end.

(** [var treeData []interface{}]. *)
Definition decode_tree (raw : option value) : option (list value) :=
  match raw with
  | Some VNil => Some []
  | Some (VSlice l) => Some l
  | _ => None
  end.

Definition decode_LastRunInfo (d : FileData) : option LastRunInfo :=
  match d with
  | JSONText VNil => Some (mkLastRunInfo EmptyString EmptyString EmptyString)
  | JSONText (VMap m) =>
      match dec_string m "last_run_time", dec_string m "data_type",
            dec_string m "zabbix_host" with
      | Some t, Some d, Some h => Some (mkLastRunInfo t d h)
      | _, _, _ => None
      end
  | _ => None
  end.

(** [json.MarshalIndent(info, "", "  ")].  The three members are taken
    to be valid UTF-8 (Go would replace other bytes by U+FFFD); the text
    of the time always is. *)
Definition marshal_LastRunInfo (info : LastRunInfo) : FileData :=
  JSONText (VMap (<["last_run_time" := VString (LastRunTime info)]>
                 (<["data_type" := VString (DataType info)]>
                 (<["zabbix_host" := VString (ZabbixHost info)]> ∅)))).

(** ** [getFloatValue] *)

Definition getFloatValue (m : gmap string value) (key : string) : float :=
  match m !! key with
  | Some v =>
      match v with
      | VFloat val => val
      | VString val => if String.eqb val "-" then 0%float else 0%float
      | _ => 0%float
      end
  | None => 0%float
  end.

(** [v != "-"] on an [interface{}]: only a string can equal the sentinel. *)
Definition is_sentinel (v : value) : bool :=
  match v with
  | VString s => String.eqb s "-"
  | _ => false
  end.

(** The validity loop shared by [tryGetData] and [getTrafficData]: some
    member other than timestamp is not the sentinel. *)
Definition validData (record : gmap string value) : bool :=
  existsb (fun kv => negb (String.eqb (fst kv) "timestamp") && negb (is_sentinel (snd kv)))
          (map_to_list record).

(** ** The line encoder of [sendToZabbix] *)

Definition dquote : ascii := Eval cbv in ascii_of_nat 34.
Definition backslash : ascii := Eval cbv in ascii_of_nat 92.
Definition newline : ascii := Eval cbv in ascii_of_nat 10.
Definition str1 (c : ascii) : string := String c EmptyString.

(** [fmt.Sprintf(`"%s"`, s)]. *)
Definition quoted (s : string) : string := String dquote (s +:+ str1 dquote).

(** [fmt.Sprintf("%v", item.Value)]; the text of a [float64] is left to
    the parameter [fmt_float]. *)
Definition sprint_v (fmt_float : float -> string) (v : ZValue) : string :=
  match v with
  | IntV n => itoa n
  | Int64V n => itoa n
  | FloatV f => fmt_float f
  | StringV s => s
  end.

Definition encode_key (key : string) : string :=
  if Contains key " " || Contains key "[" then quoted key else key.

Definition encode_value (fmt_float : float -> string) (v : ZValue) : string :=
  let value := sprint_v fmt_float v in
  match v with
  | StringV strVal =>
      if Contains strVal " " || Contains strVal (str1 dquote) || Contains strVal (str1 newline)
      then
        let strVal := ReplaceAll strVal (str1 backslash) (String backslash (str1 backslash)) in
        let strVal := ReplaceAll strVal (str1 dquote) (String backslash (str1 dquote)) in
        quoted strVal
      else value
  | _ => value
  end.

(** One line of the sender's input file: host, key, clock, value. *)
Definition encode_line (fmt_float : float -> string) (item : ZabbixData) : string :=
  Host item +:+ " " +:+ encode_key (Key item) +:+ " " +:+ itoa (Clock item)
  +:+ " " +:+ encode_value fmt_float (Value item) +:+ str1 newline.

(** ** The outside world *)

(** What [client.Do] and the decoding of the body in [doRequest] give. *)
Inductive HttpOutcome :=
| TransportError                                   (* no response at all *)
| Reply (status : Z) (body : option APIResponse).  (* [None]: body is not an envelope *)

(** Everything the program does to the outside world, in program order. *)
Inductive Event :=
| EvNow                                                       (* time.Now() *)
| EvRequest (method path : string) (params : list (string * string))
| EvReadFile (path : string)                                  (* os.ReadFile *)
| EvWriteFile (path : string) (data : FileData)               (* os.WriteFile *)
| EvCreateTemp                                                (* os.CreateTemp *)
| EvWriteTemp (line : string)                                 (* tmpFile.WriteString *)
| EvLookPath                                                  (* exec.LookPath *)
| EvRunSender (server : string) (input : list string).        (* cmd.Run *)

(** The answers of the outside world.  The n-th action of a run (counted
    from 0 over all kinds of action) is answered by the oracle of its
    kind at index n.  The last two members are the library functions
    whose output text is not modelled. *)
Record Env := mkEnv {
  env_tz : Z -> Z;                  (* the local zone: Unix seconds to offset *)
  env_clock : nat -> Z;             (* wall clock, Unix nanoseconds *)
  env_http : nat -> string -> string -> list (string * string) -> HttpOutcome;
  env_io_ok : nat -> bool;          (* a file operation succeeds *)
  env_lookpath : nat -> bool;       (* zabbix_sender is on the PATH *)
  env_sender : nat -> string -> list string -> bool;   (* it exits with 0 *)
  fmt_float : float -> string;      (* %v of a float64 *)
  json_Marshal : value -> string    (* the text of a document *)
}.

(** The mutable fields of [WAFCollector], the file system as far as the
    state file goes, and the trace of actions (newest first). *)
Record State := mkState {
  cachedSites : list Site;
  cachedDeviceID : string;
  files : gmap string FileData;
  trace : list Event
}.

Definition M (A : Type) : Type := State -> A * State.

Definition ret {A} (a : A) : M A := fun st => (a, st).

Definition bind {A B} (m : M A) (k : A -> M B) : M B :=
  fun st => let '(a, st') := m st in k a st'.

Notation "x <- m ;; k" := (bind m (fun x => k))
  (at level 100, m at next level, right associativity).
Notation "m ;;; k" := (bind m (fun _ => k))
  (at level 100, right associativity).

(** Records an action and returns its index. *)
Definition push (e : Event) (st : State) : State :=
  mkState (cachedSites st) (cachedDeviceID st) (files st) (e :: trace st).

Definition emit (e : Event) : M nat :=
  fun st => (length (trace st), push e st).

Definition get_cachedSites : M (list Site) := fun st => (cachedSites st, st).
Definition get_cachedDeviceID : M string := fun st => (cachedDeviceID st, st).

Definition set_cachedSites (sites : list Site) : M unit :=
  fun st => (tt, mkState sites (cachedDeviceID st) (files st) (trace st)).

Definition set_cachedDeviceID (id : string) : M unit :=
  fun st => (tt, mkState (cachedSites st) id (files st) (trace st)).

Definition read_file (path : string) : M (option FileData) :=
  fun st => (files st !! path, st).

Definition store_file (path : string) (d : FileData) : M unit :=
  fun st => (tt, mkState (cachedSites st) (cachedDeviceID st)
                   (<[path := d]> (files st)) (trace st)).

(** A loop over a slice whose body may return from the function: the
    first [Some] ends it. *)
Fixpoint first_some {A B} (body : A -> M (option B)) (l : list A) : M (option B) :=
  match l with
  | [] => ret None
  | x :: rest =>
      r <- body x ;;
      match r with
      | Some b => ret (Some b)
      | None => first_some body rest
      end
  end.

Section Collector.

Variable env : Env.
Variable w : Config.

(** [time.Now()]. *)
Definition now : M Time :=
  k <- emit EvNow ;;
  ret (mkTime (env_clock env k) Local).

(** ** [doRequest]: [None] is a non-nil error *)

(** What [doRequest] makes of the outcome of the exchange: an error for
    a transport failure, a status other than 200, a body that is not an
    envelope, or a code other than SUCCESS. *)
Definition checkResponse (o : HttpOutcome) : option APIResponse :=
  match o with
  | TransportError => None
  | Reply status body =>
      if negb (status =? 200) then None
      else
        match body with
        | None => None
        | Some apiResp =>
            if negb (String.eqb (Code apiResp) "SUCCESS") then None
            else Some apiResp
        end
  end.

Definition doRequest (method path : string) (params : list (string * string))
  : M (option APIResponse) :=
  k <- emit (EvRequest method path params) ;;
  ret (checkResponse (env_http env k method path params)).

(** ** [login] *)
Definition login : M bool :=
  r <- doRequest "GET" "/api/v1/device/name/" [] ;;
  match r with
  | None => ret false
  | Some _ => ret true
  end.

(** ** [getDeviceID] *)
Definition getDeviceID : M string :=
  cached <- get_cachedDeviceID ;;
  if negb (String.eqb cached EmptyString) then ret cached
  else
    t <- now ;;
    resp <- doRequest "GET" "/api/v1/device/name/" [("_ts", itoa (UnixMilli t))] ;;
    match resp with
    | None => ret EmptyString
    | Some resp =>
        match decode_string_member "id" (Data resp) with
        | None => ret EmptyString
        | Some id =>
            set_cachedDeviceID id ;;;
            ret id
        end
    end.

(** ** [getDeviceSerial] *)
Definition getDeviceSerial : M string :=
  resp <- doRequest "GET" "/api/v1/device/info/" [] ;;
  match resp with
  | None => ret EmptyString
  | Some resp =>
      match decode_string_member "serial" (Data resp) with
      | None => ret EmptyString
      | Some serial => ret serial
      end
  end.

(** ** [getSites]; the nil slice is the empty list *)
Definition getSites : M (list Site) :=
  t <- now ;;
  resp <- doRequest "GET" "/api/v1/website/site/"
            [("_ts", itoa (UnixMilli t)); ("page", "1"); ("per_page", "1000")] ;;
  match resp with
  | None => ret []
  | Some resp =>
      match decode_result decode_site (Data resp) with
      | None => ret []
      | Some sites =>
          set_cachedSites sites ;;;
          ret sites
      end
  end.

(** ** [getLastRunTime]; [None] is the nil pointer

    The four layouts are tried in turn, the first that parses wins. *)
Definition parseLastRunTime (tz : Z -> Z) (text : string) : option Time :=
  match Parse tz RFC3339 text with
  | Some t => Some t
  | None =>
      match Parse tz layoutISOMicro text with
      | Some t => Some t
      | None =>
          match Parse tz layoutISO text with
          | Some t => Some t
          | None => Parse tz layoutDateTime text
          end
      end
  end.

Definition getLastRunTime : M (option Time) :=
  k <- emit (EvReadFile (lastRunFile w)) ;;
  data <- read_file (lastRunFile w) ;;
  match data with
  | None => ret None                             (* os.IsNotExist *)
  | Some data =>
      if negb (env_io_ok env k) then ret None    (* any other read error *)
      else
        match decode_LastRunInfo data with
        | None => ret None
        | Some info => ret (parseLastRunTime (env_tz env) (LastRunTime info))
        end
  end.

(** ** [saveLastRunTime]

    [json.MarshalIndent] cannot fail on a struct of three strings, so the
    only failure is that of [os.WriteFile], which is logged and leaves
    the file as it was. *)
Definition saveLastRunTime (runTime : Time) : M unit :=
  let info := mkLastRunInfo (Format (env_tz env) runTime RFC3339) (dataType w) (zabbixHost w) in
  let data := marshal_LastRunInfo info in
  k <- emit (EvWriteFile (lastRunFile w) data) ;;
  if negb (env_io_ok env k) then ret tt
  else store_file (lastRunFile w) data.

(** ** [tryGetData] *)
Definition tryGetData (appID deviceID : string) : M bool :=
  t <- now ;;
  resp <- doRequest "GET" "/api/v1/logs/traffic/"
            [("_ts", itoa (UnixMilli t)); ("app_id", appID);
             ("device_id", deviceID); ("type", "mins")] ;;
  match resp with
  | None => ret false
  | Some resp =>
      match decode_result decode_record (Data resp) with
      | None => ret false
      | Some result => ret (existsb validData result)
      end
  end.

(** ** [findWorkingDeviceID] *)

(** The [children] member of a tree node when the node is an object and
    the member a slice; no children otherwise. *)
Definition children (node : value) : list value :=
  match node with
  | VMap m => match m !! "children" with Some (VSlice l) => l | _ => [] end
  | _ => []
  end.

(** The cluster identifiers of a topology tree in the order the three
    nested loops meet them: root, area, cluster, the [_pk] member of
    every cluster that is an object with a string there. *)
Definition clusterIDs (treeData : list value) : list string :=
  flat_map (fun item =>
    flat_map (fun area =>
      flat_map (fun cluster =>
        match cluster with
        | VMap m => match m !! "_pk" with Some (VString id) => [id] | _ => [] end
        | _ => []
        end) (children area)) (children item)) treeData.

Definition siteTypes : list string :=
  ["reverse"; "transparent"; "traction"; "sniffer"; "bridge"].

Definition probe (appID id : string) : M (option string) :=
  ok <- tryGetData appID id ;;
  ret (if ok then Some id else None).

Definition probeTree (appID originalDeviceID siteType : string) : M (option string) :=
  resp <- doRequest "GET" ("/api/v1/website/tree/" +:+ siteType +:+ "/") [] ;;
  match resp with
  | None => ret None
  | Some resp =>
      match decode_tree (Data resp) with
      | None => ret None
      | Some treeData =>
          first_some (probe appID)
            (filter (fun clusterID =>
                       clusterID ≠ EmptyString ∧ clusterID ≠ "0" ∧ clusterID ≠ "1"
                       ∧ clusterID ≠ originalDeviceID)
                    (clusterIDs treeData))
      end
  end.

(** The part of [findWorkingDeviceID] that comes after the original
    identifier gave no valid data: the four other methods. *)
Definition fallbacks (appID originalDeviceID : string) : M string :=
  (* 1: struct_pk of the site in the cached list *)
  sites <- get_cachedSites ;;
  r <- match List.find (fun site =>
                bool_decide (ID site = appID ∧ StructID site ≠ EmptyString
                             ∧ StructID site ≠ originalDeviceID ∧ StructID site ≠ "0"))
              sites with
       | Some site => probe appID (StructID site)
       | None => ret None
       end ;;
  match r with
  | Some id => ret id
  | None =>
  (* 2: the device identifier *)
  realDeviceID <- getDeviceID ;;
  r <- (if negb (String.eqb realDeviceID EmptyString)
           && negb (String.eqb realDeviceID originalDeviceID)
        then probe appID realDeviceID else ret None) ;;
  match r with
  | Some id => ret id
  | None =>
  (* 3: the cluster identifiers of the topology trees *)
  r <- first_some (probeTree appID originalDeviceID) siteTypes ;;
  match r with
  | Some id => ret id
  | None =>
  (* 4: the serial number *)
  deviceSerial <- getDeviceSerial ;;
  r <- (if negb (String.eqb deviceSerial EmptyString)
           && negb (String.eqb deviceSerial originalDeviceID)
        then probe appID deviceSerial else ret None) ;;
  match r with
  | Some id => ret id
  | None => ret originalDeviceID
  end end end end.

Definition findWorkingDeviceID (appID originalDeviceID : string) : M string :=
  (* "0", "auto" or empty: the device's own identifier when there is one *)
  r <- (if String.eqb originalDeviceID EmptyString || String.eqb originalDeviceID "0"
           || String.eqb originalDeviceID "auto"
        then
          realDeviceID <- getDeviceID ;;
          ret (if negb (String.eqb realDeviceID EmptyString) then Some realDeviceID else None)
        else ret None) ;;
  match r with
  | Some realDeviceID => ret realDeviceID
  | None =>
      (* the original identifier *)
      ok <- tryGetData appID originalDeviceID ;;
      if ok then ret originalDeviceID
      else fallbacks appID originalDeviceID
  end.

(** ** [getTrafficData] *)

Definition maxRanges : gmap string Duration :=
  list_to_map [("mins", 24 * Hour); ("hours", 7 * 24 * Hour); ("days", 30 * 24 * Hour)].

Definition timeWindows : gmap string Duration :=
  list_to_map [("mins", 5 * Minute); ("hours", 2 * Hour); ("days", 2 * 24 * Hour)].

(** The start of the query window, from the time of the last run (if the
    state file gave one) and the end of the window. *)
Definition windowStart (lastRunTime : option Time) (endTime : Time) : Time :=
  match lastRunTime with
  | Some lastRunTime =>
      let startTime := lastRunTime in
      let maxRange := default 0 (maxRanges !! dataType w) in
      let maxRange := if maxRange =? 0 then 24 * Hour else maxRange in
      let minStartTime := Add endTime (- maxRange) in
      if Before startTime minStartTime then minStartTime else startTime
  | None =>
      let timeWindow := default 0 (timeWindows !! dataType w) in
      let timeWindow := if timeWindow =? 0 then 5 * Minute else timeWindow in
      Add endTime (- timeWindow)
  end.

(** [TrafficData{Timestamp: ts}]: every rate and count is the zero value. *)
Definition zeroData (ts : Z) : TrafficData :=
  mkTrafficData ts 0 0 0 0 0 0 0 0 0 0.

(** The body of the loop over the records of the response: nothing for a
    record without valid data, else its data point. *)
Definition dataPointOf (record : gmap string value) : M (option TrafficData) :=
  if negb (validData record) then ret None
  else
    timestamp <-
      match record !! "timestamp" with
      | Some (VString tsStr) =>
          if negb (String.eqb tsStr EmptyString) then
            match Parse (env_tz env) layoutDateTime tsStr with
            | Some t => ret (Unix t)
            | None => t <- now ;; ret (Unix t)
            end
          else t <- now ;; ret (Unix t)
      | _ => t <- now ;; ret (Unix t)
      end ;;
    ret (Some (mkTrafficData timestamp
                 (getFloatValue record "bytes_in_rate_avg")
                 (getFloatValue record "bytes_in_rate_max")
                 (getFloatValue record "bytes_out_rate_avg")
                 (getFloatValue record "bytes_out_rate_max")
                 (getFloatValue record "conn_cur_avg")
                 (getFloatValue record "conn_cur_max")
                 (getFloatValue record "conn_rate_avg")
                 (getFloatValue record "http_req_cnt_avg")
                 (getFloatValue record "http_req_cnt_max")
                 (getFloatValue record "http_req_rate_avg"))).

Fixpoint dataPointsOf (records : list (gmap string value)) : M (list TrafficData) :=
  match records with
  | [] => ret []
  | record :: rest =>
      p <- dataPointOf record ;;
      ps <- dataPointsOf rest ;;
      ret (match p with Some d => d :: ps | None => ps end)
  end.

(** [sort.Slice] by timestamp.  Go does not promise an order for points
    of equal timestamps; up to twelve elements it sorts by insertion,
    which keeps the order they came in.  So does this sort (for every
    length): a point is put before the first point after it that is not
    earlier. *)
Fixpoint insertByTimestamp (d : TrafficData) (l : list TrafficData) : list TrafficData :=
  match l with
  | [] => [d]
  | x :: rest =>
      if Timestamp d <=? Timestamp x then d :: l else x :: insertByTimestamp d rest
  end.

Definition sortByTimestamp (l : list TrafficData) : list TrafficData :=
  fold_right insertByTimestamp [] l.

Definition fmtDateTime (t : Time) : string := Format (env_tz env) t layoutDateTime.

(** The end of [getTrafficData]: the data points built from the answer
    to the query, one synthetic point where there is none. *)
Definition dataPointsOfResponse (resp : option APIResponse) : M (list TrafficData) :=
  match resp with
  | None => t <- now ;; ret [zeroData (Unix t)]
  | Some resp =>
      match decode_result decode_record (Data resp) with
      | None => t <- now ;; ret [zeroData (Unix t)]
      | Some result =>
          dataPoints <- dataPointsOf result ;;
          let dataPoints :=
            if Nat.ltb 1 (length dataPoints) then sortByTimestamp dataPoints
            else dataPoints in
          if Nat.eqb (length dataPoints) 0
          then t <- now ;; ret [zeroData (Unix t)]
          else ret dataPoints
      end
  end.

(** The second half of [getTrafficData]: the query for the window and the
    data points built from its answer. *)
Definition fetchTraffic (appID workingDeviceID : string) (startTime endTime : Time)
  : M (list TrafficData) :=
  ts <- now ;;
  resp <- doRequest "GET" "/api/v1/logs/traffic/"
            [("_ts", itoa (UnixMilli ts)); ("app_id", appID);
             ("device_id", workingDeviceID);
             ("timestamp__ge", fmtDateTime startTime);
             ("timestamp__lt", fmtDateTime endTime);
             ("type", dataType w)] ;;
  dataPointsOfResponse resp.

Definition getTrafficData (appID deviceID : string) : M (list TrafficData) :=
  workingDeviceID <- findWorkingDeviceID appID deviceID ;;
  endTime <- now ;;
  lastRunTime <- getLastRunTime ;;
  fetchTraffic appID workingDeviceID (windowStart lastRunTime endTime) endTime.

(** ** [collectAllData]; the nil slice is the empty list *)

Definition siteKey (metric siteName : string) : string :=
  "waf.site." +:+ metric +:+ "[" +:+ siteName +:+ "]".

Definition zeroKeys : list string :=
  ["bytes_in_rate_avg"; "bytes_in_rate_max";
   "bytes_out_rate_avg"; "bytes_out_rate_max";
   "conn_cur_avg"; "conn_cur_max"; "conn_rate_avg";
   "http_req_cnt_avg"; "http_req_cnt_max"; "http_req_rate_avg"].

(** The ten points appended for one data point of an enabled site. *)
Definition trafficPoints (siteName : string) (trafficData : TrafficData) : list ZabbixData :=
  let dataTimestamp := Timestamp trafficData in
  let pt key v := mkZabbixData (zabbixHost w) (siteKey key siteName) (FloatV v) dataTimestamp in
  [pt "bytes_in_rate_avg" (BytesInRateAvg trafficData);
   pt "bytes_in_rate_max" (BytesInRateMax trafficData);
   pt "bytes_out_rate_avg" (BytesOutRateAvg trafficData);
   pt "bytes_out_rate_max" (BytesOutRateMax trafficData);
   pt "conn_cur_avg" (ConnCurAvg trafficData);
   pt "conn_cur_max" (ConnCurMax trafficData);
   pt "conn_rate_avg" (ConnRateAvg trafficData);
   pt "http_req_cnt_avg" (HTTPReqCntAvg trafficData);
   pt "http_req_cnt_max" (HTTPReqCntMax trafficData);
   pt "http_req_rate_avg" (HTTPReqRateAvg trafficData)].

(** The points appended for a disabled site. *)
Definition zeroPoints (siteName : string) (timestamp : Z) : list ZabbixData :=
  map (fun key => mkZabbixData (zabbixHost w) (siteKey key siteName) (IntV 0) timestamp)
      zeroKeys.

(** The identifier handed to [getTrafficData] for an enabled site. *)
Definition actualDeviceID (deviceID : string) (site : Site) : string :=
  if negb (String.eqb (StructID site) "0") then StructID site else deviceID.

(** The identifier published in the discovery record of a site. *)
Definition siteDeviceID (deviceID : string) (site : Site) : string :=
  if String.eqb (StructID site) "0" || String.eqb (StructID site) EmptyString
  then deviceID else StructID site.

Definition discoveryRecord (deviceID : string) (site : Site) : gmap string string :=
  let enableStr := if Enabled site then "1" else "0" in
  list_to_map
    [("{#SITE_ID}", ID site);
     ("{#SITE_NAME}", Name site);
     ("{#SITE_TYPE}", "WAF");
     ("{#SITE_IP}", EmptyString);
     ("{#SITE_PORT}", EmptyString);
     ("{#SITE_DOMAIN}", EmptyString);
     ("{#SITE_ENABLE}", enableStr);
     ("{#STRUCT_ID}", siteDeviceID deviceID site);
     ("{#DEVICE_ID}", siteDeviceID deviceID site);
     ("{#STRUCT_PK}", StructID site)].

Definition discoveryValue (deviceID : string) (sites : list Site) : value :=
  VMap {[ "data" := VSlice (map (fun site => VMap (VString <$> discoveryRecord deviceID site)) sites) ]}.

(** The body of the loop over the sites: the points it appends. *)
Definition collectSite (deviceID : string) (timestamp : Z) (site : Site)
  : M (list ZabbixData) :=
  let siteName := Name site in
  let statusValue := if Enabled site then 1 else 0 in
  let status := mkZabbixData (zabbixHost w) ("waf.site.status[" +:+ siteName +:+ "]")
                  (IntV statusValue) timestamp in
  if Enabled site then
    trafficDataPoints <- getTrafficData (ID site) (actualDeviceID deviceID site) ;;
    ret (status :: flat_map (trafficPoints siteName) trafficDataPoints)
  else
    ret (status :: zeroPoints siteName timestamp).

Fixpoint collectSites (deviceID : string) (timestamp : Z) (sites : list Site)
  : M (list ZabbixData) :=
  match sites with
  | [] => ret []
  | site :: rest =>
      pts <- collectSite deviceID timestamp site ;;
      more <- collectSites deviceID timestamp rest ;;
      ret (pts ++ more)
  end.

Definition collectAllData : M (list ZabbixData) :=
  ok <- login ;;
  if negb ok then ret []
  else
    deviceID <- getDeviceID ;;
    let deviceID := if String.eqb deviceID EmptyString then "default" else deviceID in
    sites <- getSites ;;
    if Nat.eqb (length sites) 0 then ret []
    else
      t <- now ;;
      let timestamp := Unix t in
      let allData :=
        [mkZabbixData (zabbixHost w) "waf.collector.status" (IntV 1) timestamp;
         mkZabbixData (zabbixHost w) "waf.collector.timestamp" (Int64V timestamp) timestamp;
         mkZabbixData (zabbixHost w) "waf.sites.discovery"
           (StringV (json_Marshal env (discoveryValue deviceID sites))) timestamp] in
      pts <- collectSites deviceID timestamp sites ;;
      ret (allData ++ pts).

(** ** [sendToZabbix] *)

(** The loop that writes the lines: [false] as soon as a write fails. *)
Fixpoint writeLines (lines : list string) : M bool :=
  match lines with
  | [] => ret true
  | line :: rest =>
      k <- emit (EvWriteTemp line) ;;
      if negb (env_io_ok env k) then ret false else writeLines rest
  end.

Definition sendToZabbix (data : list ZabbixData) : M bool :=
  if Nat.eqb (length data) 0 then ret false
  else
    k <- emit EvCreateTemp ;;
    if negb (env_io_ok env k) then ret false
    else
      let lines := map (encode_line (fmt_float env)) data in
      ok <- writeLines lines ;;
      if negb ok then ret false
      else
        k <- emit EvLookPath ;;
        if negb (env_lookpath env k) then ret false
        else
          k <- emit (EvRunSender (zabbixServer w) lines) ;;
          ret (env_sender env k (zabbixServer w) lines).

(** ** [sendCollectorStatus] *)
Definition sendCollectorStatus (status : Z) : M unit :=
  t <- now ;;
  sendToZabbix [mkZabbixData (zabbixHost w) "waf.collector.status" (IntV status) (Unix t)] ;;;
  ret tt.

(** ** [run] *)
Definition run : M bool :=
  currentRunTime <- now ;;
  data <- collectAllData ;;
  if Nat.ltb 0 (length data) then
    ok <- sendToZabbix data ;;
    if ok then
      saveLastRunTime currentRunTime ;;;
      ret true
    else
      sendCollectorStatus 0 ;;;
      ret false
  else
    sendCollectorStatus 0 ;;;
    ret false.

(** ** Parts and results of the functions above, named for Part II *)

(** The parameters of the traffic query of [getTrafficData]. *)
Definition trafficParams (appID workingDeviceID : string) (startTime endTime ts : Time)
  : list (string * string) :=
  [("_ts", itoa (UnixMilli ts)); ("app_id", appID); ("device_id", workingDeviceID);
   ("timestamp__ge", fmtDateTime startTime);
   ("timestamp__lt", fmtDateTime endTime);
   ("type", dataType w)].

(** The first half of [getTrafficData]: the working identifier, the end
    of the window and the time of the last run. *)
Definition windowOf (appID deviceID : string) : M (string * Time * option Time) :=
  workingDeviceID <- findWorkingDeviceID appID deviceID ;;
  endTime <- now ;;
  lastRunTime <- getLastRunTime ;;
  ret (workingDeviceID, endTime, lastRunTime).

(** What [getLastRunTime] gives for the content of the state file. *)
Definition storedLastRun (data : option FileData) (io_ok : bool) : option Time :=
  match data with
  | None => None
  | Some data =>
      if negb io_ok then None
      else
        match decode_LastRunInfo data with
        | None => None
        | Some info => parseLastRunTime (env_tz env) (LastRunTime info)
        end
  end.

(** The state after a query whose answer gave no data point: the clock
    reading for the cache-busting parameter, the request, the clock
    reading for the synthetic sample. *)
Definition afterEmptyQuery (appID wid : string) (startTime endTime : Time) (st : State)
  : State :=
  let ts := mkTime (env_clock env (length (trace st))) Local in
  push EvNow
    (push (EvRequest "GET" "/api/v1/logs/traffic/"
             (trafficParams appID wid startTime endTime ts))
       (push EvNow st)).

(** The status point of a site. *)
Definition statusPoint (timestamp : Z) (site : Site) : ZabbixData :=
  mkZabbixData (zabbixHost w) ("waf.site.status[" +:+ Name site +:+ "]")
    (IntV (if Enabled site then 1 else 0)) timestamp.

(** What [saveLastRunTime] writes for a run that started at [t]. *)
Definition stateOf (t : Time) : LastRunInfo :=
  mkLastRunInfo (Format (env_tz env) t RFC3339) (dataType w) (zabbixHost w).

(** The run's delivery to the sink succeeded: there were data and
    [sendToZabbix] returned true for them. *)
Definition delivered (st : State) : bool :=
  let c := collectAllData (push EvNow st) in
  Nat.ltb 0 (length c.1) && (sendToZabbix c.1 c.2).1.

End Collector.

(** [NewWAFCollector]: the path of the state file comes from the Zabbix
    host name, and a trailing slash of the WAF address is dropped. *)
Fixpoint TrimRight_slash (s : string) : string :=
  match s with
  | EmptyString => EmptyString
  | String c s' =>
      match TrimRight_slash s' with
      | EmptyString => if Ascii.eqb c "/" then EmptyString else String c EmptyString
      | r => String c r
      end
  end.

Definition NewWAFCollector (wafHost token zabbixServer zabbixHost dataType : string)
  : Config :=
  let safeHost := ReplaceAll zabbixHost "/" "_" in
  let lastRunFile := "/tmp/waf_sender_last_run_" +:+ safeHost +:+ ".json" in
  mkConfig (TrimRight_slash wafHost) token zabbixServer zabbixHost dataType lastRunFile.

(** The state of a fresh collector over a file system: empty caches, no
    action yet. *)
Definition startState (fs : gmap string FileData) : State :=
  mkState [] EmptyString fs [].

(** ** [main]

    The string flags of the command line, as [flag.Parse] leaves them;
    the flags debug and quiet only configure the log. *)
Record Flags := mkFlags {
  flag_waf_host : string;
  flag_token : string;
  flag_zabbix_server : string;
  flag_zabbix_host : string;
  flag_data_type : string
}.

(** [main] after [flag.Parse], over a file system: the line it prints on
    the standard output (none when it only shows the usage), its exit
    status, and the state its collector ends in. *)
Definition main (env : Env) (f : Flags) (fs : gmap string FileData)
  : (option string * Z) * State :=
  if String.eqb (flag_waf_host f) EmptyString || String.eqb (flag_token f) EmptyString
     || String.eqb (flag_zabbix_server f) EmptyString
     || String.eqb (flag_zabbix_host f) EmptyString
  then ((None, 1), startState fs)
  else
    let collector := NewWAFCollector (flag_waf_host f) (flag_token f) (flag_zabbix_server f)
                       (flag_zabbix_host f) (flag_data_type f) in
    let '(success, st) := run env collector (startState fs) in
    if success then ((Some (itoa 0), 0), st) else ((Some (itoa 1), 1), st).

(** ** Definitions that follow the words of the specification

    They are compared with the code's definitions in Part II. *)

(** The per-granularity ceiling of the look-back: minutes 24h, hours 7d,
    days 30d, anything else 24h. *)
Definition ceilingOf (granularity : string) : Duration :=
  if decide (granularity = "mins") then 24 * Hour
  else if decide (granularity = "hours") then 7 * (24 * Hour)
  else if decide (granularity = "days") then 30 * (24 * Hour)
  else 24 * Hour.

(** A byte occurs in a string. *)
Definition has_byte (c : ascii) (s : string) : Prop := In c (list_ascii_of_string s).

(** Byte-wise substitution. *)
Fixpoint map_bytes (f : ascii -> string) (s : string) : string :=
  match s with
  | EmptyString => EmptyString
  | String c s' => f c +:+ map_bytes f s'
  end.

(** The escaped form of a string value: every backslash doubled, every
    double quote preceded by a backslash, every other byte as it is. *)
Definition escape_byte (c : ascii) : string :=
  if Ascii.eqb c backslash then String backslash (str1 backslash)
  else if Ascii.eqb c dquote then String backslash (str1 dquote)
  else str1 c.

Definition escaped (s : string) : string := map_bytes escape_byte s.

(** Reading an escaped string back: a backslash makes the next byte
    literal ([esc] says that the previous byte was such a backslash). *)
Fixpoint unescape_from (esc : bool) (s : string) : string :=
  match s with
  | EmptyString => EmptyString
  | String c s' =>
      if esc then String c (unescape_from false s')
      else if Ascii.eqb c backslash then unescape_from true s'
      else String c (unescape_from false s')
  end.

Definition unescape (s : string) : string := unescape_from false s.

(** ** Definitions used to state and prove the properties *)

(** The values that the encoder puts between quotes. *)
Definition special_value (s : string) : Prop :=
  has_byte " " s \/ has_byte dquote s \/ has_byte newline s.

(** Kinds of actions in a trace. *)
Definition api_event (e : Event) : bool :=
  match e with
  | EvNow | EvRequest _ _ _ => true
  | _ => false
  end.

Definition sender_event (e : Event) : bool :=
  match e with
  | EvNow | EvCreateTemp | EvWriteTemp _ | EvLookPath | EvRunSender _ _ => true
  | _ => false
  end.

Definition is_now (e : Event) : bool :=
  match e with EvNow => true | _ => false end.

Definition is_read (path : string) (e : Event) : bool :=
  match e with EvReadFile p => String.eqb p path | _ => false end.

Definition is_write (path : string) (e : Event) : bool :=
  match e with EvWriteFile p _ => String.eqb p path | _ => false end.

Definition is_traffic_request (e : Event) : bool :=
  match e with
  | EvRequest _ path _ => String.eqb path "/api/v1/logs/traffic/"
  | _ => false
  end.

Definition countb (P : Event -> bool) (evs : list Event) : nat :=
  length (List.filter P evs).

(** A computation that leaves the files and the site cache alone and
    whose new actions satisfy [Q]. *)
Definition quiet {A} (m : M A) (Q : list Event -> Prop) : Prop :=
  forall st,
    files (m st).2 = files st
    /\ cachedSites (m st).2 = cachedSites st
    /\ exists evs, trace (m st).2 = evs ++ trace st /\ Q evs.

(** Properties of traces that hold of nothing and of concatenations. *)
Definition closed (Q : list Event -> Prop) : Prop :=
  Q [] /\ forall e1 e2, Q e1 -> Q e2 -> Q (e2 ++ e1).

Definition all_events (P : Event -> bool) (evs : list Event) : Prop :=
  forallb P evs = true.

(** The records with valid data that the outcome of a traffic query
    holds: none when the exchange failed or the data did not decode. *)
Definition validSamples (o : HttpOutcome) : list (gmap string value) :=
  match checkResponse o with
  | Some resp =>
      match decode_result decode_record (Data resp) with
      | Some result => List.filter validData result
      | None => []
      end
  | None => []
  end.

(** [n] reads of the file at [path] and no write of it. *)
Definition reads (path : string) (n : nat) (evs : list Event) : Prop :=
  countb (is_read path) evs = n /\ countb (is_write path) evs = 0%nat.

(** The actions of [getTrafficData]: requests and clock readings, and in
    their middle one read of the state file. *)
Definition one_read (w : Config) (evs : list Event) : Prop :=
  exists a b,
    evs = a ++ EvReadFile (lastRunFile w) :: b
    /\ all_events api_event a /\ all_events api_event b.

Definition enabledSites (sites : list Site) : nat := length (List.filter Enabled sites).

(** *** Dates and digit strings *)

Definition valid_date (y m d : Z) : bool :=
  (1 <=? m) && (m <=? 12) && (1 <=? d) && (d <=? daysIn m y).

(** The [k] low decimal digits of [n], most significant first. *)
Fixpoint fixed_digits (k : nat) (n : Z) : string :=
  match k with
  | O => EmptyString
  | S k' => String (digit_char (n / 10 ^ Z.of_nat k' mod 10)) (fixed_digits k' n)
  end.

Fixpoint all_digits (s : string) : bool :=
  match s with
  | EmptyString => true
  | String c s' => is_digit c && all_digits s'
  end.

Fixpoint digits_val (acc : Z) (s : string) : Z :=
  match s with
  | EmptyString => acc
  | String c s' => digits_val (acc * 10 + digit_val c) s'
  end.

(** Two and four digits in front of a text. *)
Definition wire2 (n : Z) (v : string) : string :=
  String (digit_char (n / 10)) (String (digit_char (n mod 10)) v).

Definition wire4 (n : Z) (v : string) : string :=
  String (digit_char (n / 1000)) (String (digit_char (n / 100 mod 10))
    (String (digit_char (n / 10 mod 10)) (String (digit_char (n mod 10)) v))).

(** The zone element. *)
Definition zone_ok (off : Z) : Prop := off mod 60 = 0 /\ -86400 < off < 86400.

(** The wall clock of the time lies in the years 0000 to 9999. *)
Definition wall_ok (tz : Z -> Z) (t : Time) : Prop :=
  -62167219200 <= Unix t + zone_offset tz (loc t) (Unix t) < 253402300800.

Definition civil_ok (c : Civil) : Prop :=
  0 <= c_year c < 10000
  /\ valid_date (c_year c) (c_month c) (c_day c) = true
  /\ 0 <= c_hour c < 24 /\ 0 <= c_min c < 60 /\ 0 <= c_sec c < 60
  /\ 0 <= c_nsec c < 1000000000.

(** Date and time of day with separator [sep], then [rest]. *)
Definition datetime (sep : string) (rest : list Chunk) : list Chunk :=
  stdLongYear :: Lit "-" :: stdZeroMonth :: Lit "-" :: stdZeroDay :: Lit sep
  :: stdHour :: Lit ":" :: stdZeroMinute :: Lit ":" :: stdZeroSecond :: rest.

(** What [Format] writes for such a layout. *)
Definition written (c : Civil) (sep : ascii) (tail : string) : string :=
  wire4 (c_year c) (String "-" (wire2 (c_month c) (String "-" (wire2 (c_day c)
    (String sep (wire2 (c_hour c) (String ":" (wire2 (c_min c) (String ":"
      (wire2 (c_sec c) tail)))))))))).

Definition fields_of (c : Civil) (f : Fields) : Fields :=
  mkFields (c_year c) (c_month c) (c_day c) (c_hour c) (c_min c) (f_sec f) (f_nsec f)
    (f_utc f) (f_zoneOffset f).

(** The location [Parse] gives to a time written with offset [off]. *)
Definition parsedLoc (tz : Z -> Z) (off sec : Z) : Location :=
  if off =? 0 then UTC else if tz sec =? off then Local else FixedZone off.

(** ** Concrete worlds used by the examples *)

(** An appliance that answers nothing: every exchange fails. *)
Definition env_down : Env :=
  mkEnv (fun _ => 0) (fun k => 1718000000000000000 + Z.of_nat k * 1000000000)
        (fun _ _ _ _ => TransportError) (fun _ => true) (fun _ => true)
        (fun _ _ _ => true) (fun _ => "0") (fun _ => "{}").

Definition cfg_demo : Config :=
  NewWAFCollector "https://waf.example/" "secret" "zabbix.example" "waf-01" "hours".

Definition ok_reply (d : value) : HttpOutcome :=
  Reply 200 (Some (mkAPIResponse "SUCCESS" EmptyString (Some d))).

Definition site_value (pk name : string) (enable : bool) (struct_pk : string) : value :=
  VMap (list_to_map [("_pk", VString pk); ("name", VString name);
                     ("enable", VBool enable); ("struct_pk", VString struct_pk)]).

(** Three sites: two enabled (one with struct_pk 0, one with an empty
    struct_pk) and one disabled. *)
Definition sites_value : value :=
  VMap {[ "result" := VSlice [site_value "s1" "alpha" true "0";
                              site_value "s2" "beta" false "c9";
                              site_value "s3" "gamma" true EmptyString] ]}.

(** Three records, the last of them without valid data. *)
Definition traffic_value : value :=
  VMap {[ "result" :=
    VSlice [VMap (list_to_map [("timestamp", VString "2024-06-10 06:13:00");
                               ("conn_cur_avg", VFloat 3.5%float);
                               ("conn_cur_max", VString "-")]);
            VMap (list_to_map [("timestamp", VString "2024-06-10 06:12:00");
                               ("conn_cur_avg", VFloat 2%float)]);
            VMap (list_to_map [("timestamp", VString "2024-06-10 06:14:00");
                               ("conn_cur_avg", VString "-")])] ]}.

(** An appliance that answers: device dev-1, the three sites, the three
    records for every traffic query; [traffic] says whether the traffic
    endpoint answers at all. *)
Definition http_up (traffic : bool) (k : nat) (method path : string)
    (params : list (string * string)) : HttpOutcome :=
  if String.eqb path "/api/v1/device/name/" then ok_reply (VMap {[ "id" := VString "dev-1" ]})
  else if String.eqb path "/api/v1/website/site/" then ok_reply sites_value
  else if String.eqb path "/api/v1/logs/traffic/" then
    (if traffic then ok_reply traffic_value else Reply 500 None)
  else TransportError.

(** A world in the zone UTC whose clock shows whole seconds and advances
    by one second per action. *)
Definition env_utc : Env :=
  mkEnv (fun _ => 0) (fun k => 1718000000000000000 + Z.of_nat k * 1000000000)
        (http_up true) (fun _ => true) (fun _ => true)
        (fun _ _ _ => true) (fun _ => "0") (fun _ => "{}").

(** A state file left by a run ten days before the third action of
    [env_utc]. *)
Definition fs_ten_days_ago : gmap string FileData :=
  {[ lastRunFile cfg_demo :=
       marshal_LastRunInfo (mkLastRunInfo "2024-05-31T06:13:22Z" "hours" "waf-01") ]}.

(** A world in the zone UTC+8 whose clock advances by one second per
    action; [sender] is the exit status of the sender being 0. *)
Definition env_up (traffic sender : bool) : Env :=
  mkEnv (fun _ => 28800) (fun k => 1718000000123456789 + Z.of_nat k * 1000000000)
        (http_up traffic) (fun _ => true) (fun _ => true)
        (fun _ _ _ => sender) (fun _ => "0") (fun _ => "{}").

(** ** Definitions used to state the properties of Part III *)

(** A run of [n] slashes. *)
Fixpoint slashes (n : nat) : string :=
  match n with O => EmptyString | S k => String "/" (slashes k) end.

(** The parameters of the site list query of [getSites]. *)
Definition sitesParams (ts : Time) : list (string * string) :=
  [("_ts", itoa (UnixMilli ts)); ("page", "1"); ("per_page", "1000")].

(** A state with another site cache. *)
Definition withSites (sites : list Site) (st : State) : State :=
  mkState sites (cachedDeviceID st) (files st) (trace st).

(** The parameters of the probe of [tryGetData]. *)
Definition probeParams (appID deviceID : string) (ts : Time) : list (string * string) :=
  [("_ts", itoa (UnixMilli ts)); ("app_id", appID); ("device_id", deviceID); ("type", "mins")].

(** The answer to the probe that [tryGetData] makes in a state. *)
Definition probeOutcome (env : Env) (appID deviceID : string) (st : State) : HttpOutcome :=
  env_http env (S (length (trace st))) "GET" "/api/v1/logs/traffic/"
    (probeParams appID deviceID (mkTime (env_clock env (length (trace st))) Local)).

(** The state after the probe: a clock reading and the request. *)
Definition afterProbe (env : Env) (appID deviceID : string) (st : State) : State :=
  push (EvRequest "GET" "/api/v1/logs/traffic/"
          (probeParams appID deviceID (mkTime (env_clock env (length (trace st))) Local)))
       (push EvNow st).

(** The candidate identifiers that stand for no identifier. *)
Definition placeholderID (id : string) : Prop :=
  id = EmptyString \/ id = "0" \/ id = "auto".

(** A traffic query for a device identifier. *)
Definition is_probe_of (deviceID : string) (e : Event) : bool :=
  match e with
  | EvRequest _ path params =>
      String.eqb path "/api/v1/logs/traffic/"
      && existsb (fun kv => String.eqb (fst kv) "device_id" && String.eqb (snd kv) deviceID)
           params
  | _ => false
  end.

(** A state reached from another by further actions. *)
Definition later (st' st : State) : Prop := exists evs, trace st' = evs ++ trace st.

(** What a step of the resolver that may return an identifier
    guarantees: an identifier it returns was probed by its last two
    actions, and the answer held a record with valid data. *)
Definition probed (env : Env) (appID : string) (st : State) (r : option string)
    (st' : State) : Prop :=
  match r with
  | Some id =>
      exists st1, later st1 st /\ st' = afterProbe env appID id st1
                  /\ validSamples (probeOutcome env appID id st1) <> []
  | None => later st' st
  end.

(** The look-back of a first run: minutes 5 min, hours 2 h, days 2 d,
    anything else 5 min. *)
Definition firstWindowOf (granularity : string) : Duration :=
  if decide (granularity = "mins") then 5 * Minute
  else if decide (granularity = "hours") then 2 * Hour
  else if decide (granularity = "days") then 2 * (24 * Hour)
  else 5 * Minute.

(** A list of data points in which none comes before an earlier one:
    every point is no later than all the points after it. *)
Fixpoint ascending (l : list TrafficData) : Prop :=
  match l with
  | [] => True
  | x :: rest => Forall (fun y => Timestamp x <= Timestamp y) rest /\ ascending rest
  end.

(** The ten metrics of a data point, in the order of [zeroKeys]. *)
Definition metricsOf (d : TrafficData) : list float :=
  [BytesInRateAvg d; BytesInRateMax d; BytesOutRateAvg d; BytesOutRateMax d;
   ConnCurAvg d; ConnCurMax d; ConnRateAvg d;
   HTTPReqCntAvg d; HTTPReqCntMax d; HTTPReqRateAvg d].

(** The state after the clock reading and the traffic query of
    [fetchTraffic], and the answer to that query. *)
Definition afterQuery (env : Env) (w : Config) (appID wid : string)
    (startTime endTime : Time) (st : State) : State :=
  push (EvRequest "GET" "/api/v1/logs/traffic/"
          (trafficParams env w appID wid startTime endTime
             (mkTime (env_clock env (length (trace st))) Local)))
       (push EvNow st).

Definition queryOutcome (env : Env) (w : Config) (appID wid : string)
    (startTime endTime : Time) (st : State) : HttpOutcome :=
  env_http env (S (length (trace st))) "GET" "/api/v1/logs/traffic/"
    (trafficParams env w appID wid startTime endTime
       (mkTime (env_clock env (length (trace st))) Local)).

(** The three items at the head of the data of [collectAllData]. *)
Definition headerItems (env : Env) (w : Config) (deviceID : string) (sites : list Site)
    (timestamp : Z) : list ZabbixData :=
  [mkZabbixData (zabbixHost w) "waf.collector.status" (IntV 1) timestamp;
   mkZabbixData (zabbixHost w) "waf.collector.timestamp" (Int64V timestamp) timestamp;
   mkZabbixData (zabbixHost w) "waf.sites.discovery"
     (StringV (json_Marshal env (discoveryValue deviceID sites))) timestamp].

(** The items that one site contributes: its status, then ten items for
    every sample of an enabled site (at least one sample), or the ten
    zero items of a disabled site. *)
Definition siteBlock (w : Config) (timestamp : Z) (site : Site) (block : list ZabbixData)
  : Prop :=
  if Enabled site
  then exists samples, samples <> []
         /\ block = statusPoint w timestamp site
                    :: flat_map (trafficPoints w (Name site)) samples
  else block = statusPoint w timestamp site :: zeroPoints w (Name site) timestamp.

(** The samples behind the block of an enabled site: those that
    [getTrafficData] returns, in some state, for the site and the
    identifier that [collectAllData] hands it for that site. *)
Definition siteQuery (env : Env) (w : Config) (deviceID : string) (timestamp : Z)
  (site : Site) (block : list ZabbixData) : Prop :=
  Enabled site = true ->
  exists st',
    block = statusPoint w timestamp site
            :: flat_map (trafficPoints w (Name site))
                 (getTrafficData env w (ID site) (actualDeviceID deviceID site) st').1.

(** The device identifier that [collectAllData] falls back on (the
    device's own, or the word default), and the sites it enumerates. *)
Definition deviceIDOf (env : Env) (st : State) : string :=
  let id := (getDeviceID env (login env st).2).1 in
  if String.eqb id EmptyString then "default" else id.

Definition sitesOf (env : Env) (st : State) : list Site :=
  (getSites env (getDeviceID env (login env st).2).2).1.

(** The actions of a [sendToZabbix] that gets as far as running the
    sender, newest first: the temporary file is created, every line is
    written in order, the sender is looked up and run on the file. *)
Definition senderActions (server : string) (lines : list string) : list Event :=
  EvRunSender server lines :: EvLookPath :: rev (map EvWriteTemp lines) ++ [EvCreateTemp].

Definition is_run_sender (e : Event) : bool :=
  match e with EvRunSender _ _ => true | _ => false end.

(** The line of the sender's input that reports the collector status. *)
Definition statusLine (w : Config) (status clock : Z) : string :=
  zabbixHost w +:+ " waf.collector.status " +:+ itoa clock +:+ " " +:+ itoa status
  +:+ str1 newline.

(** The actions of a collection: clock readings, requests, and reads of
    the file at [path]. *)
Definition collect_event (path : string) (e : Event) : bool :=
  api_event e || is_read path e.

(* ================================================================== *)
(** * Part II. Properties *)
(* ================================================================== *)

(** ** Strings *)

#[local] Arguments String.append !s1 s2 : simpl nomatch.

Lemma append_assoc (a b c : string) : (a +:+ b) +:+ c = a +:+ (b +:+ c).
Proof. induction a as [|x a IH]; simpl; [reflexivity | now rewrite IH]. Qed.

Lemma append_nil_r (a : string) : a +:+ EmptyString = a.
Proof. induction a as [|x a IH]; simpl; [reflexivity | now rewrite IH]. Qed.

Lemma length_append (a b : string) :
  String.length (a +:+ b) = (String.length a + String.length b)%nat.
Proof. induction a as [|x a IH]; simpl; [reflexivity | now rewrite IH]. Qed.

Lemma HasPrefix_nil (s : string) : HasPrefix s EmptyString = true.
Proof. destruct s; reflexivity. Qed.

Lemma Contains_byte (c : ascii) (s : string) :
  Contains s (str1 c) = true <-> has_byte c s.
Proof.
  unfold has_byte, str1. induction s as [|a s IH]; simpl.
  - split; [discriminate | tauto].
  - rewrite HasPrefix_nil. destruct (Ascii.eqb c a) eqn:E; simpl.
    + apply Ascii.eqb_eq in E. subst. tauto.
    + rewrite IH. apply Ascii.eqb_neq in E. split; [tauto|].
      intros [H|H]; [congruence | exact H].
Qed.

Lemma Contains_byte_false (c : ascii) (s : string) :
  Contains s (str1 c) = false <-> ~ has_byte c s.
Proof.
  rewrite <- Contains_byte. destruct (Contains s (str1 c)); split; congruence.
Qed.

Lemma ReplaceAll_byte (c : ascii) (new s : string) :
  ReplaceAll s (str1 c) new = map_bytes (fun a => if Ascii.eqb a c then new else str1 a) s.
Proof.
  unfold ReplaceAll, str1. induction s as [|a s IH]; simpl; [reflexivity|].
  rewrite HasPrefix_nil, (Ascii.eqb_sym a c). destruct (Ascii.eqb c a); simpl.
  - now rewrite IH.
  - now rewrite IH.
Qed.

Lemma map_bytes_app (f : ascii -> string) (a b : string) :
  map_bytes f (a +:+ b) = map_bytes f a +:+ map_bytes f b.
Proof.
  induction a as [|x a IH]; simpl; [reflexivity|].
  now rewrite IH, append_assoc.
Qed.

Lemma map_bytes_map_bytes (f g : ascii -> string) (s : string) :
  map_bytes g (map_bytes f s) = map_bytes (fun a => map_bytes g (f a)) s.
Proof.
  induction s as [|x s IH]; simpl; [reflexivity|].
  now rewrite map_bytes_app, IH.
Qed.

Lemma map_bytes_ext (f g : ascii -> string) (s : string) :
  (forall a, f a = g a) -> map_bytes f s = map_bytes g s.
Proof.
  intros H. induction s as [|x s IH]; simpl; [reflexivity|].
  now rewrite H, IH.
Qed.

(** The two passes of [sendToZabbix], backslashes first and double quotes
    second, escape every byte exactly once. *)
Lemma two_pass_escape (s : string) :
  ReplaceAll (ReplaceAll s (str1 backslash) (String backslash (str1 backslash)))
             (str1 dquote) (String backslash (str1 dquote))
  = escaped s.
Proof.
  rewrite !ReplaceAll_byte, map_bytes_map_bytes. unfold escaped.
  apply map_bytes_ext. intros a. unfold escape_byte.
  destruct (Ascii.eqb a backslash) eqn:Eb.
  - reflexivity.
  - simpl. destruct (Ascii.eqb a dquote); reflexivity.
Qed.

(** In the other order the backslash that escapes a quote is doubled by
    the second pass. *)
Lemma quotes_first_is_wrong :
  ReplaceAll (ReplaceAll (str1 dquote) (str1 dquote) (String backslash (str1 dquote)))
             (str1 backslash) (String backslash (str1 backslash))
  = String backslash (String backslash (str1 dquote)).
Proof. reflexivity. Qed.

Lemma unescape_escaped (s : string) : unescape (escaped s) = s.
Proof.
  unfold unescape, escaped. induction s as [|a s IH]; simpl; [reflexivity|].
  unfold escape_byte at 1.
  destruct (Ascii.eqb a backslash) eqn:Eb.
  - apply Ascii.eqb_eq in Eb. subst a. simpl. now rewrite IH.
  - destruct (Ascii.eqb a dquote) eqn:Eq.
    + apply Ascii.eqb_eq in Eq. subst a. simpl. now rewrite IH.
    + simpl. rewrite Eb. now rewrite IH.
Qed.

(** ** The line encoder *)

Lemma quoted_neq (s : string) : quoted s <> s.
Proof.
  intros H. assert (L : String.length (quoted s) = String.length s) by now rewrite H.
  unfold quoted in L. simpl in L. rewrite length_append in L. simpl in L. lia.
Qed.

Lemma encode_key_quoted_iff (key : string) :
  encode_key key = quoted key <-> (has_byte " " key \/ has_byte "[" key).
Proof.
  unfold encode_key. rewrite <- !Contains_byte. unfold str1.
  destruct (Contains key " "), (Contains key "["); simpl; split; auto;
    intros H; try (symmetry in H; now apply quoted_neq in H);
    destruct H; discriminate.
Qed.

Lemma encode_value_special (fmt_float : float -> string) (s : string) :
  special_value s -> encode_value fmt_float (StringV s) = quoted (escaped s).
Proof.
  intros H. unfold encode_value.
  assert (E : Contains s " " || Contains s (str1 dquote) || Contains s (str1 newline) = true).
  { destruct H as [H|[H|H]]; apply Contains_byte in H; unfold str1 in H |- *; rewrite H;
      rewrite ?orb_true_r; reflexivity. }
  rewrite E. now rewrite two_pass_escape.
Qed.

Lemma encode_value_plain (fmt_float : float -> string) (s : string) :
  ~ special_value s -> encode_value fmt_float (StringV s) = s.
Proof.
  intros H. unfold encode_value, special_value in *.
  assert (E : Contains s " " || Contains s (str1 dquote) || Contains s (str1 newline) = false).
  { apply orb_false_iff; split; [apply orb_false_iff; split|];
      apply Contains_byte_false; tauto. }
  rewrite E. reflexivity.
Qed.

(** C5. Every line is host, key, clock and value separated by single
    spaces and ended by a newline.  The key is wrapped in double quotes
    exactly when it has a space or an opening bracket.  A string value
    with a space, a double quote or a newline is wrapped in double quotes
    around its escaped form (backslashes doubled first, quotes then
    preceded by a backslash, so that a backslash followed by a quote
    comes out as two backslashes, a backslash and the quote); any other
    string value is written as it is.  Integer values are written in
    decimal and floating-point values as [fmt_float] prints them, both
    without quoting or escaping. *)
Theorem encoder_quoting_escaping (fmt_float : float -> string) :
  (forall item,
     encode_line fmt_float item
     = Host item +:+ " " +:+ encode_key (Key item) +:+ " " +:+ itoa (Clock item)
       +:+ " " +:+ encode_value fmt_float (Value item) +:+ str1 newline)
  /\ (forall key, encode_key key = quoted key <-> (has_byte " " key \/ has_byte "[" key))
  /\ (forall key, encode_key key = key <-> ~ (has_byte " " key \/ has_byte "[" key))
  /\ (forall s, has_byte " " s \/ has_byte dquote s \/ has_byte newline s ->
        encode_value fmt_float (StringV s) = quoted (escaped s))
  /\ (forall s, ~ (has_byte " " s \/ has_byte dquote s \/ has_byte newline s) ->
        encode_value fmt_float (StringV s) = s)
  /\ (forall n, encode_value fmt_float (IntV n) = itoa n
                /\ encode_value fmt_float (Int64V n) = itoa n)
  /\ (forall f, encode_value fmt_float (FloatV f) = fmt_float f)
  /\ encode_value fmt_float (StringV (String "a" (String backslash (String dquote "b"))))
     = String dquote (String "a" (String backslash (String backslash
         (String backslash (String dquote (String "b" (str1 dquote))))))).
Proof.
  split; [reflexivity|].
  split; [apply encode_key_quoted_iff|].
  split.
  { intros key. rewrite <- encode_key_quoted_iff. unfold encode_key.
    destruct (_ || _); split.
    - intros H. now apply quoted_neq in H.
    - intros H. exfalso. now apply H.
    - intros _ H. symmetry in H. now apply quoted_neq in H.
    - reflexivity. }
  split; [apply encode_value_special|].
  split; [apply encode_value_plain|].
  split; [now split|].
  split; reflexivity.
Qed.

(** ** Field extraction *)

(** C9. [getFloatValue] is total and gives the number when the member is
    a JSON number and 0 in every other case: member absent, the sentinel
    string, any other string (a numeric one too), a boolean, null, an
    array, an object. *)
Theorem getFloatValue_collapses (m : gmap string value) (key : string) :
  getFloatValue m key
  = match m !! key with
    | Some (VFloat f) => f
    | Some (VString _) | Some (VBool _) | Some VNil
    | Some (VSlice _) | Some (VMap _) | None => 0%float
    end.
Proof.
  unfold getFloatValue. destruct (m !! key) as [[| | |s| |]|]; try reflexivity.
  now destruct (String.eqb s "-").
Qed.

Lemma getFloatValue_examples :
  getFloatValue {[ "k" := VString "123" ]} "k" = 0%float
  /\ getFloatValue {[ "k" := VString "-" ]} "k" = 0%float
  /\ getFloatValue {[ "k" := VBool true ]} "k" = 0%float
  /\ getFloatValue {[ "k" := VMap ∅ ]} "k" = 0%float
  /\ getFloatValue {[ "k" := VFloat 2.5%float ]} "other" = 0%float
  /\ getFloatValue {[ "k" := VFloat 2.5%float ]} "k" = 2.5%float.
Proof. repeat split; vm_compute; reflexivity. Qed.

(** ** The query window *)

Lemma maxRange_ceiling (dt : string) :
  (let maxRange := default 0 (maxRanges !! dt) in
   if maxRange =? 0 then 24 * Hour else maxRange) = ceilingOf dt.
Proof.
  unfold maxRanges, ceilingOf. simpl list_to_map.
  destruct (decide (dt = "mins")) as [->|N1]; [now rewrite lookup_insert_eq|].
  rewrite lookup_insert_ne by congruence.
  destruct (decide (dt = "hours")) as [->|N2]; [now rewrite lookup_insert_eq|].
  rewrite lookup_insert_ne by congruence.
  destruct (decide (dt = "days")) as [->|N3]; [now rewrite lookup_insert_eq|].
  rewrite lookup_insert_ne by congruence.
  now rewrite lookup_empty.
Qed.

Lemma ceilingOf_values :
  ceilingOf "mins" = 24 * Hour /\ ceilingOf "hours" = 7 * (24 * Hour)
  /\ ceilingOf "days" = 30 * (24 * Hour) /\ ceilingOf "weeks" = 24 * Hour.
Proof. repeat split. Qed.

(** With a time of the last run, the window starts there unless that is
    more than the ceiling before its end. *)
Lemma windowStart_clipped (w : Config) (lastRunTime endTime : Time) :
  let start := windowStart w (Some lastRunTime) endTime in
  start = (if unixNano lastRunTime <? unixNano endTime - ceilingOf (dataType w)
           then Add endTime (- ceilingOf (dataType w)) else lastRunTime)
  /\ unixNano start = Z.max (unixNano lastRunTime) (unixNano endTime - ceilingOf (dataType w))
  /\ Sub endTime start <= ceilingOf (dataType w).
Proof.
  cbv zeta. unfold windowStart.
  pose proof (maxRange_ceiling (dataType w)) as E. cbv zeta in E. rewrite E.
  unfold Before, Add, Sub. cbn [unixNano].
  replace (unixNano endTime + - ceilingOf (dataType w))
    with (unixNano endTime - ceilingOf (dataType w)) by lia.
  destruct (Z.ltb_spec (unixNano lastRunTime) (unixNano endTime - ceilingOf (dataType w)));
    cbn [unixNano]; repeat split; lia.
Qed.

(** ** Reasoning about actions

    A computation is described by what it leaves alone (the files, the
    cached site list) and by a property of the actions it adds to the
    trace. *)

Lemma closed_all (P : Event -> bool) : closed (all_events P).
Proof.
  split; [reflexivity|]. unfold all_events. intros e1 e2 H1 H2.
  rewrite forallb_app, H1, H2. reflexivity.
Qed.

Lemma bind_eq {A B} (m : M A) (k : A -> M B) (st : State) :
  bind m k st = k (m st).1 (m st).2.
Proof. unfold bind. now destruct (m st). Qed.

(** Runs the binds at the head of a computation applied to a state. *)
Ltac unbind := repeat (rewrite bind_eq; cbn beta).

(** Equal lists up to the bracketing of their concatenations. *)
Ltac list_eq :=
  repeat (rewrite <- app_assoc || rewrite <- app_comm_cons); reflexivity.

Lemma quiet_ret {A} (a : A) (Q : list Event -> Prop) : Q [] -> quiet (ret a) Q.
Proof. intros H st. simpl. repeat split. now exists []. Qed.

Lemma quiet_bind {A B} (m : M A) (k : A -> M B) (Q1 Q2 Q : list Event -> Prop) :
  quiet m Q1 -> (forall a, quiet (k a) Q2) ->
  (forall e1 e2, Q1 e1 -> Q2 e2 -> Q (e2 ++ e1)) ->
  quiet (bind m k) Q.
Proof.
  intros Hm Hk HQ st. rewrite bind_eq.
  destruct (Hm st) as (F1 & S1 & e1 & T1 & P1).
  destruct (Hk (m st).1 (m st).2) as (F2 & S2 & e2 & T2 & P2).
  split; [congruence|]. split; [congruence|].
  exists (e2 ++ e1). split; [|now apply HQ].
  rewrite T2, T1. now rewrite app_assoc.
Qed.

Lemma quiet_bind_closed {A B} (m : M A) (k : A -> M B) (Q : list Event -> Prop) :
  closed Q -> quiet m Q -> (forall a, quiet (k a) Q) -> quiet (bind m k) Q.
Proof.
  intros [_ HQ] Hm Hk. apply (quiet_bind m k Q Q Q); auto.
Qed.

Lemma quiet_weaken {A} (m : M A) (Q Q' : list Event -> Prop) :
  quiet m Q -> (forall evs, Q evs -> Q' evs) -> quiet m Q'.
Proof.
  intros Hm HQ st. destruct (Hm st) as (F & S & evs & T & P).
  repeat split; auto. exists evs. auto.
Qed.

Lemma quiet_emit (e : Event) (Q : list Event -> Prop) : Q [e] -> quiet (emit e) Q.
Proof. intros H st. simpl. repeat split. now exists [e]. Qed.

Lemma quiet_get_cachedSites Q : Q [] -> quiet get_cachedSites Q.
Proof. intros H st. simpl. repeat split. now exists []. Qed.

Lemma quiet_get_cachedDeviceID Q : Q [] -> quiet get_cachedDeviceID Q.
Proof. intros H st. simpl. repeat split. now exists []. Qed.

Lemma quiet_set_cachedDeviceID id Q : Q [] -> quiet (set_cachedDeviceID id) Q.
Proof. intros H st. simpl. repeat split. now exists []. Qed.

Lemma quiet_read_file path Q : Q [] -> quiet (read_file path) Q.
Proof. intros H st. simpl. repeat split. now exists []. Qed.

Lemma quiet_first_some {A B} (body : A -> M (option B)) (l : list A) Q :
  closed Q -> (forall x, quiet (body x) Q) -> quiet (first_some body l) Q.
Proof.
  intros HQ Hb. induction l as [|x l IH]; simpl.
  - apply quiet_ret, HQ.
  - apply quiet_bind_closed; auto. intros [b|]; [apply quiet_ret, HQ | exact IH].
Qed.

Section CollectorFacts.

Variable env : Env.
Variable w : Config.

Let api := all_events api_event.
Let api_closed : closed api := closed_all api_event.

Lemma quiet_now : quiet (now env) api.
Proof.
  unfold now. apply quiet_bind_closed; [exact api_closed | now apply quiet_emit |].
  intros k. now apply quiet_ret.
Qed.

Lemma quiet_doRequest method path params : quiet (doRequest env method path params) api.
Proof.
  unfold doRequest. apply quiet_bind_closed; [exact api_closed | now apply quiet_emit |].
  intros k. now apply quiet_ret.
Qed.

Lemma quiet_login : quiet (login env) api.
Proof.
  unfold login. apply quiet_bind_closed; [exact api_closed | apply quiet_doRequest |].
  intros [r|]; now apply quiet_ret.
Qed.

Lemma quiet_getDeviceID : quiet (getDeviceID env) api.
Proof.
  unfold getDeviceID.
  apply quiet_bind_closed; [exact api_closed | now apply quiet_get_cachedDeviceID |].
  intros cached. destruct (negb _); [now apply quiet_ret|].
  apply quiet_bind_closed; [exact api_closed | apply quiet_now |]. intros t.
  apply quiet_bind_closed; [exact api_closed | apply quiet_doRequest |].
  intros [resp|]; [|now apply quiet_ret].
  destruct (decode_string_member _ _); [|now apply quiet_ret].
  apply quiet_bind_closed; [exact api_closed | now apply quiet_set_cachedDeviceID |].
  intros _. now apply quiet_ret.
Qed.

Lemma quiet_getDeviceSerial : quiet (getDeviceSerial env) api.
Proof.
  unfold getDeviceSerial.
  apply quiet_bind_closed; [exact api_closed | apply quiet_doRequest |].
  intros [resp|]; [|now apply quiet_ret].
  destruct (decode_string_member _ _); now apply quiet_ret.
Qed.

Lemma quiet_tryGetData appID deviceID : quiet (tryGetData env appID deviceID) api.
Proof.
  unfold tryGetData.
  apply quiet_bind_closed; [exact api_closed | apply quiet_now |]. intros t.
  apply quiet_bind_closed; [exact api_closed | apply quiet_doRequest |].
  intros [resp|]; [|now apply quiet_ret].
  destruct (decode_result _ _); now apply quiet_ret.
Qed.

Lemma quiet_probe appID id : quiet (probe env appID id) api.
Proof.
  unfold probe.
  apply quiet_bind_closed; [exact api_closed | apply quiet_tryGetData |].
  intros ok. now apply quiet_ret.
Qed.

Lemma quiet_probeTree appID orig siteType : quiet (probeTree env appID orig siteType) api.
Proof.
  unfold probeTree.
  apply quiet_bind_closed; [exact api_closed | apply quiet_doRequest |].
  intros [resp|]; [|now apply quiet_ret].
  destruct (decode_tree _); [|now apply quiet_ret].
  apply quiet_first_some; [exact api_closed | apply quiet_probe].
Qed.

Lemma quiet_fallbacks appID orig : quiet (fallbacks env appID orig) api.
Proof.
  unfold fallbacks.
  apply quiet_bind_closed; [exact api_closed | now apply quiet_get_cachedSites |].
  intros sites.
  apply quiet_bind_closed; [exact api_closed | |].
  { destruct (List.find _ _); [apply quiet_probe | now apply quiet_ret]. }
  intros [id|]; [now apply quiet_ret|].
  apply quiet_bind_closed; [exact api_closed | apply quiet_getDeviceID |].
  intros realDeviceID.
  apply quiet_bind_closed; [exact api_closed | |].
  { destruct (_ && _); [apply quiet_probe | now apply quiet_ret]. }
  intros [id|]; [now apply quiet_ret|].
  apply quiet_bind_closed; [exact api_closed | |].
  { apply quiet_first_some; [exact api_closed | apply quiet_probeTree]. }
  intros [id|]; [now apply quiet_ret|].
  apply quiet_bind_closed; [exact api_closed | apply quiet_getDeviceSerial |].
  intros serial.
  apply quiet_bind_closed; [exact api_closed | |].
  { destruct (_ && _); [apply quiet_probe | now apply quiet_ret]. }
  intros [id|]; now apply quiet_ret.
Qed.

Lemma quiet_findWorkingDeviceID appID orig :
  quiet (findWorkingDeviceID env appID orig) api.
Proof.
  unfold findWorkingDeviceID.
  apply quiet_bind_closed; [exact api_closed | |].
  { destruct (_ || _); [|now apply quiet_ret].
    apply quiet_bind_closed; [exact api_closed | apply quiet_getDeviceID |].
    intros id. now apply quiet_ret. }
  intros [id|]; [now apply quiet_ret |].
  apply quiet_bind_closed; [exact api_closed | apply quiet_tryGetData |].
  intros [|]; [now apply quiet_ret | apply quiet_fallbacks].
Qed.

End CollectorFacts.

(** ** The steps of the device identifier resolver *)

Section ResolverFacts.

Variable env : Env.

Lemma getDeviceID_cached (st : State) :
  cachedDeviceID st <> EmptyString -> getDeviceID env st = (cachedDeviceID st, st).
Proof.
  intros H. unfold getDeviceID. rewrite bind_eq. simpl.
  apply String.eqb_neq in H. now rewrite H.
Qed.

(** [getDeviceID] adds nothing to the trace or one clock reading and one
    request for the device name. *)
Lemma getDeviceID_trace (st : State) :
  trace (getDeviceID env st).2 = trace st
  \/ exists ts,
       trace (getDeviceID env st).2
       = EvRequest "GET" "/api/v1/device/name/" [("_ts", ts)] :: EvNow :: trace st.
Proof.
  unfold getDeviceID. rewrite bind_eq. simpl.
  destruct (negb _); [now left|]. right. eexists.
  unfold now, doRequest. rewrite !bind_eq. simpl.
  destruct (checkResponse _) as [resp|]; simpl; [|reflexivity].
  destruct (decode_string_member _ _); reflexivity.
Qed.

Lemma getDeviceID_no_probe (st : State) :
  exists evs, trace (getDeviceID env st).2 = evs ++ trace st
              /\ existsb is_traffic_request evs = false.
Proof.
  destruct (getDeviceID_trace st) as [H|[ts H]].
  - now exists [].
  - exists [EvRequest "GET" "/api/v1/device/name/" [("_ts", ts)]; EvNow]. now rewrite H.
Qed.

(** [tryGetData] starts with a clock reading and the minute-granularity
    traffic query for the identifier. *)
Lemma tryGetData_trace (appID deviceID : string) (st : State) :
  exists ts,
    trace (tryGetData env appID deviceID st).2
    = EvRequest "GET" "/api/v1/logs/traffic/"
        [("_ts", ts); ("app_id", appID); ("device_id", deviceID); ("type", "mins")]
      :: EvNow :: trace st.
Proof.
  eexists. unfold tryGetData, now, doRequest. rewrite !bind_eq. simpl.
  destruct (checkResponse _) as [resp|]; simpl; [|reflexivity].
  destruct (decode_result _ _); reflexivity.
Qed.

(** The part of [findWorkingDeviceID] after its first [if]. *)
Lemma probe_original_first (appID orig : string) (st : State) :
  exists evs ts,
    trace ((ok <- tryGetData env appID orig ;;
            if ok then ret orig else fallbacks env appID orig) st).2
    = evs ++ EvRequest "GET" "/api/v1/logs/traffic/"
               [("_ts", ts); ("app_id", appID); ("device_id", orig); ("type", "mins")]
             :: EvNow :: trace st.
Proof.
  rewrite bind_eq.
  destruct (tryGetData_trace appID orig st) as [ts T].
  destruct (tryGetData env appID orig st).1.
  - exists [], ts. exact T.
  - destruct (quiet_fallbacks env appID orig (tryGetData env appID orig st).2)
      as (_ & _ & evs & T' & _).
    exists evs, ts. now rewrite T', T.
Qed.

End ResolverFacts.

(** ** The resolver *)

(** C2, as the code has it.  For a candidate that is empty, 0 or auto:
    when the device's own identifier is available (cached, or fetched and
    not empty) the resolver returns it and issues no traffic query at
    all; when it is not available the resolver goes on and its next
    request is the probe of the candidate itself. *)
Theorem resolver_short_circuit (env : Env) (appID cand : string) (st : State) :
  cand = EmptyString \/ cand = "0" \/ cand = "auto" ->
  ((getDeviceID env st).1 <> EmptyString ->
     findWorkingDeviceID env appID cand st = getDeviceID env st
     /\ exists evs,
          trace (findWorkingDeviceID env appID cand st).2 = evs ++ trace st
          /\ existsb is_traffic_request evs = false)
  /\ ((getDeviceID env st).1 = EmptyString ->
      exists evs ts,
        trace (findWorkingDeviceID env appID cand st).2
        = evs ++ EvRequest "GET" "/api/v1/logs/traffic/"
                   [("_ts", ts); ("app_id", appID); ("device_id", cand); ("type", "mins")]
                 :: EvNow :: trace (getDeviceID env st).2).
Proof.
  intros Hc.
  assert (E : String.eqb cand EmptyString || String.eqb cand "0" || String.eqb cand "auto" = true).
  { destruct Hc as [->|[->| ->]]; reflexivity. }
  unfold findWorkingDeviceID. rewrite E, !bind_eq. simpl.
  split; intros H.
  - apply String.eqb_neq in H. rewrite H. simpl. split.
    + now destruct (getDeviceID env st).
    + apply getDeviceID_no_probe.
  - rewrite H. simpl. apply probe_original_first.
Qed.

Lemma resolver_short_circuit_witness :
  findWorkingDeviceID (env_up true true) "s3" "auto" (startState ∅)
  = getDeviceID (env_up true true) (startState ∅)
  /\ exists evs ts,
       trace (findWorkingDeviceID env_down "s3" "auto" (startState ∅)).2
       = evs ++ EvRequest "GET" "/api/v1/logs/traffic/"
                  [("_ts", ts); ("app_id", "s3"); ("device_id", "auto"); ("type", "mins")]
                :: EvNow :: trace (getDeviceID env_down (startState ∅)).2.
Proof.
  split.
  - apply (resolver_short_circuit (env_up true true) "s3" "auto" (startState ∅)).
    + right; right; reflexivity.
    + vm_compute. discriminate.
  - apply (resolver_short_circuit env_down "s3" "auto" (startState ∅)).
    + right; right; reflexivity.
    + vm_compute. reflexivity.
Defined.

(** C2, as stated, fails: with candidate 0 and an appliance that does not
    give its identifier, the resolver does call [tryGetData] (one
    traffic query, for the candidate) and ends up returning 0. *)
Lemma resolver_probes_when_identifier_unavailable :
  let r := findWorkingDeviceID env_down "s1" "0" (startState ∅) in
  r.1 = "0"
  /\ countb is_traffic_request (trace r.2) = 1%nat
  /\ In (EvRequest "GET" "/api/v1/logs/traffic/"
           [("_ts", "1718000002000"); ("app_id", "s1"); ("device_id", "0"); ("type", "mins")])
        (trace r.2).
Proof. vm_compute. repeat split. do 8 right. now left. Qed.

(** ** The traffic query and the per-site loop *)

Section TrafficFacts.

Variable env : Env.
Variable w : Config.

Lemma getTrafficData_split (appID deviceID : string) (st : State) :
  getTrafficData env w appID deviceID st
  = let '(wid, endTime, lastRunTime) := (windowOf env w appID deviceID st).1 in
    fetchTraffic env w appID wid (windowStart w lastRunTime endTime) endTime
      (windowOf env w appID deviceID st).2.
Proof.
  unfold getTrafficData, windowOf. rewrite !bind_eq. reflexivity.
Qed.

Lemma getLastRunTime_run (st : State) :
  getLastRunTime env w st
  = (storedLastRun env (files st !! lastRunFile w) (env_io_ok env (length (trace st))),
     push (EvReadFile (lastRunFile w)) st).
Proof.
  unfold getLastRunTime, storedLastRun, read_file. rewrite !bind_eq. simpl.
  destruct (files st !! lastRunFile w) as [d|]; [|reflexivity].
  destruct (negb _); [reflexivity|].
  destruct (decode_LastRunInfo d); reflexivity.
Qed.

(** The window of a query ends at the clock reading taken right after
    the resolution of the identifier, and the state file is read next. *)
Lemma windowOf_run (appID deviceID : string) (st : State) :
  let st1 := (findWorkingDeviceID env appID deviceID st).2 in
  windowOf env w appID deviceID st
  = (((findWorkingDeviceID env appID deviceID st).1,
      mkTime (env_clock env (length (trace st1))) Local,
      storedLastRun env (files st !! lastRunFile w) (env_io_ok env (S (length (trace st1))))),
     push (EvReadFile (lastRunFile w)) (push EvNow st1)).
Proof.
  cbv zeta. unfold windowOf. rewrite bind_eq.
  destruct (quiet_findWorkingDeviceID env appID deviceID st) as (F & _ & _).
  unfold now. rewrite !bind_eq. simpl. rewrite getLastRunTime_run. simpl.
  now rewrite F.
Qed.

Lemma dataPointsOf_invalid (records : list (gmap string value)) (st : State) :
  List.filter validData records = [] -> dataPointsOf env records st = ([], st).
Proof.
  induction records as [|r rs IH]; simpl; [reflexivity|].
  destruct (validData r) eqn:V; [discriminate|]. intros H.
  rewrite bind_eq. unfold dataPointOf. rewrite V. simpl.
  rewrite bind_eq, (IH H). reflexivity.
Qed.

Lemma fetchTraffic_fallback (appID wid : string) (startTime endTime : Time) (st : State) :
  let k := length (trace st) in
  let ts := mkTime (env_clock env k) Local in
  validSamples (env_http env (S k) "GET" "/api/v1/logs/traffic/"
                  (trafficParams env w appID wid startTime endTime ts)) = [] ->
  fetchTraffic env w appID wid startTime endTime st
  = ([zeroData (Unix (mkTime (env_clock env (S (S k))) Local))],
     afterEmptyQuery env w appID wid startTime endTime st).
Proof.
  cbv zeta.
  unfold validSamples, fetchTraffic, dataPointsOfResponse, afterEmptyQuery, now, doRequest,
    trafficParams.
  rewrite !bind_eq. simpl.
  destruct (checkResponse _) as [resp|]; [|reflexivity].
  destruct (decode_result decode_record (Data resp)) as [result|]; [|reflexivity].
  intros H. rewrite bind_eq, (dataPointsOf_invalid _ _ H). reflexivity.
Qed.

Lemma collectSites_app (deviceID : string) (timestamp : Z) (l1 l2 : list Site) (st : State) :
  collectSites env w deviceID timestamp (l1 ++ l2) st
  = let r1 := collectSites env w deviceID timestamp l1 st in
    let r2 := collectSites env w deviceID timestamp l2 r1.2 in
    (r1.1 ++ r2.1, r2.2).
Proof.
  revert st. induction l1 as [|s l1 IH]; intros st; simpl.
  - now destruct (collectSites env w deviceID timestamp l2 st).
  - unbind. rewrite IH. simpl. now rewrite app_assoc.
Qed.

Lemma collectSites_cons (deviceID : string) (timestamp : Z) (s : Site) (l : list Site)
    (st : State) :
  collectSites env w deviceID timestamp (s :: l) st
  = let r1 := collectSite env w deviceID timestamp s st in
    let r2 := collectSites env w deviceID timestamp l r1.2 in
    (r1.1 ++ r2.1, r2.2).
Proof. simpl. unbind. reflexivity. Qed.

(** C6. A disabled site, wherever it stands in the list, adds its status
    point and exactly ten metric points, one per metric, each with the
    integer value 0 and the collection timestamp as clock; its turn of
    the loop performs no action at all (the state, with its trace of
    requests, is handed unchanged to the sites after it). *)
Theorem disabled_site_zero_points (deviceID : string) (timestamp : Z)
    (before after : list Site) (site : Site) (st : State) :
  Enabled site = false ->
  let r1 := collectSites env w deviceID timestamp before st in
  let r2 := collectSites env w deviceID timestamp after r1.2 in
  let pts := zeroPoints w (Name site) timestamp in
  collectSite env w deviceID timestamp site r1.2 = (statusPoint w timestamp site :: pts, r1.2)
  /\ collectSites env w deviceID timestamp (before ++ site :: after) st
     = (r1.1 ++ (statusPoint w timestamp site :: pts) ++ r2.1, r2.2)
  /\ length pts = 10%nat
  /\ map Key pts = map (fun metric => siteKey metric (Name site)) zeroKeys
  /\ Forall (fun p => Value p = IntV 0 /\ Clock p = timestamp /\ Host p = zabbixHost w) pts.
Proof.
  intros D. cbv zeta.
  assert (E : forall s, collectSite env w deviceID timestamp site s
                        = (statusPoint w timestamp site :: zeroPoints w (Name site) timestamp, s)).
  { intros s. unfold collectSite, statusPoint. rewrite D. reflexivity. }
  split; [apply E|]. split.
  - rewrite collectSites_app. cbv zeta. rewrite collectSites_cons. cbv zeta.
    rewrite E. reflexivity.
  - split; [reflexivity|]. split; [reflexivity|].
    unfold zeroPoints, zeroKeys. simpl. repeat constructor.
Qed.

End TrafficFacts.

Lemma disabled_site_zero_points_witness :
  let site := mkSite "s2" "beta" false "c9" in
  let st := startState ∅ in
  collectSite (env_up true true) cfg_demo "dev-1" 1718000005 site st
  = (statusPoint cfg_demo 1718000005 site :: zeroPoints cfg_demo "beta" 1718000005, st).
Proof.
  intros site st.
  exact (proj1 (disabled_site_zero_points (env_up true true) cfg_demo
                  "dev-1" 1718000005 [] [] site st eq_refl)).
Defined.

Section SiteFacts.

Variable env : Env.
Variable w : Config.

(** C7. When the traffic query of an enabled site fails (transport
    error, bad status, bad envelope, undecodable data) or holds no record
    with valid data, [getTrafficData] returns exactly one sample, with
    all ten metrics 0 and the clock reading taken after the request as
    timestamp.  The site then adds its status point and ten points of
    value 0 with that timestamp, and the loop goes on with the remaining
    sites. *)
Theorem zero_sample_fallback (deviceID : string) (timestamp : Z) (site : Site)
    (rest : list Site) (st : State) :
  Enabled site = true ->
  let q := windowOf env w (ID site) (actualDeviceID deviceID site) st in
  let wid := q.1.1.1 in
  let endTime := q.1.1.2 in
  let startTime := windowStart w q.1.2 endTime in
  let k := length (trace q.2) in
  validSamples (env_http env (S k) "GET" "/api/v1/logs/traffic/"
                  (trafficParams env w (ID site) wid startTime endTime
                     (mkTime (env_clock env k) Local))) = [] ->
  let sample := zeroData (Unix (mkTime (env_clock env (S (S k))) Local)) in
  let st' := afterEmptyQuery env w (ID site) wid startTime endTime q.2 in
  let pts := trafficPoints w (Name site) sample in
  getTrafficData env w (ID site) (actualDeviceID deviceID site) st = ([sample], st')
  /\ sample = mkTrafficData (env_clock env (S (S k)) / 1000000000) 0 0 0 0 0 0 0 0 0 0
  /\ collectSite env w deviceID timestamp site st = (statusPoint w timestamp site :: pts, st')
  /\ length pts = 10%nat
  /\ map Key pts = map (fun metric => siteKey metric (Name site)) zeroKeys
  /\ Forall (fun p => Value p = FloatV 0 /\ Clock p = Timestamp sample) pts
  /\ collectSites env w deviceID timestamp (site :: rest) st
     = ((statusPoint w timestamp site :: pts)
          ++ (collectSites env w deviceID timestamp rest st').1,
        (collectSites env w deviceID timestamp rest st').2).
Proof.
  intros En. cbv zeta. intros H.
  assert (G : getTrafficData env w (ID site) (actualDeviceID deviceID site) st
              = ([zeroData (Unix (mkTime (env_clock env
                    (S (S (length (trace (windowOf env w (ID site)
                       (actualDeviceID deviceID site) st).2))))) Local))],
                 afterEmptyQuery env w (ID site)
                   (windowOf env w (ID site) (actualDeviceID deviceID site) st).1.1.1
                   (windowStart w
                      (windowOf env w (ID site) (actualDeviceID deviceID site) st).1.2
                      (windowOf env w (ID site) (actualDeviceID deviceID site) st).1.1.2)
                   (windowOf env w (ID site) (actualDeviceID deviceID site) st).1.1.2
                   (windowOf env w (ID site) (actualDeviceID deviceID site) st).2)).
  { rewrite getTrafficData_split.
    destruct (windowOf env w (ID site) (actualDeviceID deviceID site) st)
      as [[[wid endTime] last] st3].
    simpl in *. now apply fetchTraffic_fallback. }
  assert (C : collectSite env w deviceID timestamp site st
              = (statusPoint w timestamp site
                   :: trafficPoints w (Name site)
                        (zeroData (Unix (mkTime (env_clock env
                           (S (S (length (trace (windowOf env w (ID site)
                              (actualDeviceID deviceID site) st).2))))) Local))),
                 afterEmptyQuery env w (ID site)
                   (windowOf env w (ID site) (actualDeviceID deviceID site) st).1.1.1
                   (windowStart w
                      (windowOf env w (ID site) (actualDeviceID deviceID site) st).1.2
                      (windowOf env w (ID site) (actualDeviceID deviceID site) st).1.1.2)
                   (windowOf env w (ID site) (actualDeviceID deviceID site) st).1.1.2
                   (windowOf env w (ID site) (actualDeviceID deviceID site) st).2)).
  { unfold collectSite, statusPoint. rewrite En, bind_eq, G. reflexivity. }
  split; [exact G|]. split; [reflexivity|]. split; [exact C|].
  split; [reflexivity|]. split; [reflexivity|].
  split; [simpl; repeat constructor|].
  rewrite collectSites_cons. cbv zeta. rewrite C. reflexivity.
Qed.

(** C10. For an enabled site with an empty struct_pk the collector hands
    the empty string to [getTrafficData], and so to the resolver, as the
    candidate identifier (only a struct_pk of 0 is replaced by the
    device identifier there), while the discovery record of the same
    site carries the device identifier for an empty struct_pk as it does
    for 0. *)
Theorem empty_structId_asymmetry (deviceID : string) (timestamp : Z) (site : Site) :
  Enabled site = true -> StructID site = EmptyString ->
  actualDeviceID deviceID site = EmptyString
  /\ collectSite env w deviceID timestamp site
     = (trafficDataPoints <- getTrafficData env w (ID site) EmptyString ;;
        ret (statusPoint w timestamp site
               :: flat_map (trafficPoints w (Name site)) trafficDataPoints))
  /\ (forall st,
        getTrafficData env w (ID site) EmptyString st
        = (workingDeviceID <- findWorkingDeviceID env (ID site) EmptyString ;;
           endTime <- now env ;;
           lastRunTime <- getLastRunTime env w ;;
           fetchTraffic env w (ID site) workingDeviceID
             (windowStart w lastRunTime endTime) endTime) st)
  /\ siteDeviceID deviceID site = deviceID
  /\ discoveryRecord deviceID site !! "{#DEVICE_ID}" = Some deviceID
  /\ discoveryRecord deviceID site !! "{#STRUCT_ID}" = Some deviceID
  /\ discoveryRecord deviceID site !! "{#STRUCT_PK}" = Some EmptyString
  /\ (forall site0, StructID site0 = "0" ->
        actualDeviceID deviceID site0 = deviceID
        /\ siteDeviceID deviceID site0 = deviceID
        /\ discoveryRecord deviceID site0 !! "{#DEVICE_ID}" = Some deviceID)
  /\ (forall site1, StructID site1 <> "0" ->
        actualDeviceID deviceID site1 = StructID site1).
Proof.
  intros En SE. destruct site as [id name en sid]. simpl in *. subst.
  split; [reflexivity|]. split; [reflexivity|]. split; [reflexivity|].
  split; [reflexivity|]. split; [vm_compute; reflexivity|].
  split; [vm_compute; reflexivity|]. split; [vm_compute; reflexivity|].
  split.
  - intros [id0 name0 en0 sid0] S0. simpl in S0. subst.
    split; [reflexivity|]. split; [reflexivity|]. vm_compute. reflexivity.
  - intros site1 N. unfold actualDeviceID.
    apply String.eqb_neq in N. now rewrite N.
Qed.

End SiteFacts.

Lemma zero_sample_fallback_witness :
  let site := mkSite "s3" "gamma" true EmptyString in
  (getTrafficData (env_up false true) cfg_demo "s3" EmptyString (startState ∅)).1
  = [zeroData 1718000006].
Proof.
  intros site.
  pose proof (zero_sample_fallback (env_up false true) cfg_demo "dev-1" 1718000000
                site [] (startState ∅) eq_refl) as H.
  cbv zeta in H.
  assert (V : validSamples
                (env_http (env_up false true)
                   (S (length (trace (windowOf (env_up false true) cfg_demo (ID site)
                                        (actualDeviceID "dev-1" site) (startState ∅)).2)))
                   "GET" "/api/v1/logs/traffic/"
                   (trafficParams (env_up false true) cfg_demo (ID site)
                      (windowOf (env_up false true) cfg_demo (ID site)
                         (actualDeviceID "dev-1" site) (startState ∅)).1.1.1
                      (windowStart cfg_demo
                         (windowOf (env_up false true) cfg_demo (ID site)
                            (actualDeviceID "dev-1" site) (startState ∅)).1.2
                         (windowOf (env_up false true) cfg_demo (ID site)
                            (actualDeviceID "dev-1" site) (startState ∅)).1.1.2)
                      (windowOf (env_up false true) cfg_demo (ID site)
                         (actualDeviceID "dev-1" site) (startState ∅)).1.1.2
                      (mkTime
                         (env_clock (env_up false true)
                            (length (trace (windowOf (env_up false true) cfg_demo (ID site)
                                              (actualDeviceID "dev-1" site)
                                              (startState ∅)).2))) Local))) = [])
    by (vm_compute; reflexivity).
  destruct (H V) as [G _].
  change (actualDeviceID "dev-1" site) with EmptyString in G. change (ID site) with "s3" in G.
  rewrite G. vm_compute. reflexivity.
Defined.

Lemma empty_structId_asymmetry_witness :
  let site := mkSite "s3" "gamma" true EmptyString in
  actualDeviceID "dev-1" site = EmptyString
  /\ discoveryRecord "dev-1" site !! "{#DEVICE_ID}" = Some "dev-1".
Proof.
  intros site.
  pose proof (empty_structId_asymmetry (env_up true true) cfg_demo "dev-1" 1718000000
                site eq_refl eq_refl) as (H1 & _ & _ & _ & H5 & _).
  split; [exact H1 | exact H5].
Defined.

(** ** Counting the accesses to the state file *)

Lemma countb_app (P : Event -> bool) (a b : list Event) :
  countb P (a ++ b) = (countb P a + countb P b)%nat.
Proof. unfold countb. now rewrite List.filter_app, length_app. Qed.

Lemma countb_none (P R : Event -> bool) (evs : list Event) :
  (forall e, P e = true -> R e = false) -> all_events P evs -> countb R evs = 0%nat.
Proof.
  intros PR. unfold all_events, countb. induction evs as [|e evs IH]; simpl; [reflexivity|].
  intros H. apply andb_true_iff in H as [He H]. rewrite (PR e He). auto.
Qed.

Lemma api_not_read path e : api_event e = true -> is_read path e = false.
Proof. now destruct e. Qed.
Lemma api_not_write path e : api_event e = true -> is_write path e = false.
Proof. now destruct e. Qed.
Lemma sender_not_read path e : sender_event e = true -> is_read path e = false.
Proof. now destruct e. Qed.
Lemma sender_not_write path e : sender_event e = true -> is_write path e = false.
Proof. now destruct e. Qed.

Lemma reads_app (path : string) (n1 n2 : nat) (e1 e2 : list Event) :
  reads path n1 e1 -> reads path n2 e2 -> reads path (n1 + n2) (e2 ++ e1).
Proof.
  intros [R1 W1] [R2 W2]. split; rewrite countb_app; lia.
Qed.

Lemma api_reads0 (path : string) (evs : list Event) :
  all_events api_event evs -> reads path 0 evs.
Proof.
  intros H. split; [apply (countb_none api_event) | apply (countb_none api_event)];
    auto using api_not_read, api_not_write.
Qed.

Lemma sender_reads0 (path : string) (evs : list Event) :
  all_events sender_event evs -> reads path 0 evs.
Proof.
  intros H. split; [apply (countb_none sender_event) | apply (countb_none sender_event)];
    auto using sender_not_read, sender_not_write.
Qed.

Section RunFacts.

Variable env : Env.
Variable w : Config.

Let api := all_events api_event.
Let api_closed : closed api := closed_all api_event.
Let snd_closed : closed (all_events sender_event) := closed_all sender_event.

Lemma quiet_dataPointOf record : quiet (dataPointOf env record) api.
Proof.
  unfold dataPointOf. destruct (negb _); [now apply quiet_ret|].
  apply quiet_bind_closed; [exact api_closed | | intros ts; now apply quiet_ret].
  assert (N : quiet (t <- now env ;; ret (Unix t)) api).
  { apply quiet_bind_closed; [exact api_closed | apply quiet_now |].
    intros t. now apply quiet_ret. }
  destruct (record !! "timestamp") as [[| | |s| |]|]; try exact N.
  destruct (negb _); [|exact N].
  destruct (Parse _ _ _); [now apply quiet_ret | exact N].
Qed.

Lemma quiet_dataPointsOf records : quiet (dataPointsOf env records) api.
Proof.
  induction records as [|r rs IH]; simpl; [now apply quiet_ret|].
  apply quiet_bind_closed; [exact api_closed | apply quiet_dataPointOf |]. intros p.
  apply quiet_bind_closed; [exact api_closed | exact IH |]. intros ps.
  now apply quiet_ret.
Qed.

Lemma quiet_dataPointsOfResponse resp : quiet (dataPointsOfResponse env resp) api.
Proof.
  assert (QN : quiet (t <- now env ;; ret [zeroData (Unix t)]) api).
  { apply quiet_bind_closed; [exact api_closed | apply quiet_now |].
    intros t. now apply quiet_ret. }
  unfold dataPointsOfResponse.
  destruct resp as [r|]; [|exact QN].
  destruct (decode_result _ _); [|exact QN].
  apply quiet_bind_closed; [exact api_closed | apply quiet_dataPointsOf |].
  intros dps. cbv zeta. destruct (Nat.eqb _ _); [exact QN | now apply quiet_ret].
Qed.

(** The second half of [getTrafficData] starts with the clock reading for
    the cache-busting parameter and the traffic query for the window;
    what follows are clock readings only. *)
Lemma fetchTraffic_trace (appID wid : string) (startTime endTime : Time) (st : State) :
  let ts := mkTime (env_clock env (length (trace st))) Local in
  files (fetchTraffic env w appID wid startTime endTime st).2 = files st
  /\ cachedSites (fetchTraffic env w appID wid startTime endTime st).2 = cachedSites st
  /\ exists evs,
       trace (fetchTraffic env w appID wid startTime endTime st).2
       = evs ++ EvRequest "GET" "/api/v1/logs/traffic/"
                  (trafficParams env w appID wid startTime endTime ts)
                :: EvNow :: trace st
       /\ api evs.
Proof.
  cbv zeta. unfold fetchTraffic, now, doRequest. unbind. simpl emit. cbn [fst snd].
  match goal with
  | |- context [dataPointsOfResponse env ?r ?s] =>
      destruct (quiet_dataPointsOfResponse r s) as (F & S & evs & T & A)
  end.
  split; [exact F|]. split; [exact S|]. exists evs. split; [exact T | exact A].
Qed.

(** Building the data points from the answer reads the clock and does
    nothing else. *)
Lemma clock_dataPointOf record : quiet (dataPointOf env record) (all_events is_now).
Proof.
  pose proof (closed_all is_now) as C.
  assert (Q : quiet (now env) (all_events is_now)).
  { intros st. unfold now. rewrite bind_eq. simpl. repeat split. now exists [EvNow]. }
  unfold dataPointOf. destruct (negb _); [now apply quiet_ret|].
  apply quiet_bind_closed; [exact C | | intros ts; now apply quiet_ret].
  assert (N : quiet (t <- now env ;; ret (Unix t)) (all_events is_now)).
  { apply quiet_bind_closed; [exact C | exact Q |]. intros t. now apply quiet_ret. }
  destruct (record !! "timestamp") as [[| | |s| |]|]; try exact N.
  destruct (negb _); [|exact N].
  destruct (Parse _ _ _); [now apply quiet_ret | exact N].
Qed.

Lemma clock_dataPointsOf records : quiet (dataPointsOf env records) (all_events is_now).
Proof.
  pose proof (closed_all is_now) as C.
  induction records as [|r rs IH]; simpl; [now apply quiet_ret|].
  apply quiet_bind_closed; [exact C | apply clock_dataPointOf |]. intros p.
  apply quiet_bind_closed; [exact C | exact IH |]. intros ps.
  now apply quiet_ret.
Qed.

Lemma clock_dataPointsOfResponse resp :
  quiet (dataPointsOfResponse env resp) (all_events is_now).
Proof.
  pose proof (closed_all is_now) as C.
  assert (QN : quiet (t <- now env ;; ret [zeroData (Unix t)]) (all_events is_now)).
  { apply quiet_bind_closed; [exact C | |].
    - intros st. unfold now. rewrite bind_eq. simpl. repeat split. now exists [EvNow].
    - intros t. now apply quiet_ret. }
  unfold dataPointsOfResponse.
  destruct resp as [r|]; [|exact QN].
  destruct (decode_result _ _); [|exact QN].
  apply quiet_bind_closed; [exact C | apply clock_dataPointsOf |].
  intros dps. cbv zeta. destruct (Nat.eqb _ _); [exact QN | now apply quiet_ret].
Qed.

(** The order of the actions of [getTrafficData]: the resolution of the
    identifier (clock readings and requests), the clock reading for the
    end of the window, the read of the state file, the clock reading for
    the cache-busting parameter, the traffic query for the window, and
    then clock readings only. *)
Lemma getTrafficData_order (appID deviceID : string) (st : State) :
  let r := findWorkingDeviceID env appID deviceID st in
  let endTime := mkTime (env_clock env (length (trace r.2))) Local in
  let lastRunTime :=
    storedLastRun env (files st !! lastRunFile w)
      (env_io_ok env (S (length (trace r.2)))) in
  let ts := mkTime (env_clock env (S (S (length (trace r.2))))) Local in
  exists resolution rest,
    trace r.2 = resolution ++ trace st
    /\ all_events api_event resolution
    /\ trace (getTrafficData env w appID deviceID st).2
       = rest
         ++ EvRequest "GET" "/api/v1/logs/traffic/"
              (trafficParams env w appID r.1 (windowStart w lastRunTime endTime) endTime ts)
         :: EvNow :: EvReadFile (lastRunFile w) :: EvNow :: trace r.2
    /\ all_events is_now rest.
Proof.
  cbv zeta.
  destruct (quiet_findWorkingDeviceID env appID deviceID st) as (_ & _ & e1 & T1 & A1).
  exists e1. rewrite getTrafficData_split, windowOf_run. cbn [fst snd].
  unfold fetchTraffic, now, doRequest. unbind. simpl emit. cbn [fst snd].
  match goal with
  | |- context [dataPointsOfResponse env ?r ?s] =>
      destruct (clock_dataPointsOfResponse r s) as (_ & _ & evs & T & A)
  end.
  exists evs. split; [exact T1|]. split; [exact A1|]. split; [exact T | exact A].
Qed.

Lemma quiet_getLastRunTime :
  quiet (getLastRunTime env w) (fun evs => evs = [EvReadFile (lastRunFile w)]).
Proof.
  intros st. rewrite getLastRunTime_run. simpl. repeat split. now eexists.
Qed.

Lemma one_read_reads (evs : list Event) : one_read w evs -> reads (lastRunFile w) 1 evs.
Proof.
  intros (a & b & -> & A & B).
  apply (reads_app _ 1 0 (EvReadFile (lastRunFile w) :: b) a).
  - apply (reads_app _ 0 1 b [EvReadFile (lastRunFile w)]); [now apply api_reads0 |].
    split; unfold countb; simpl; [now rewrite String.eqb_refl | reflexivity].
  - now apply api_reads0.
Qed.

Lemma quiet_getTrafficData appID deviceID :
  quiet (getTrafficData env w appID deviceID) (one_read w).
Proof.
  intros st. rewrite getTrafficData_split, windowOf_run. cbn [fst snd].
  destruct (quiet_findWorkingDeviceID env appID deviceID st) as (F1 & S1 & e1 & T1 & A1).
  match goal with
  | |- context [fetchTraffic env w ?a ?b ?c ?d ?s] =>
      destruct (fetchTraffic_trace a b c d s) as (F2 & S2 & e2 & T2 & A2)
  end.
  cbv zeta in T2. simpl in F2, S2, T2.
  match type of T2 with _ = _ ++ ?r :: _ => set (req := r) in * end.
  split; [congruence|]. split; [congruence|].
  exists ((e2 ++ [req; EvNow]) ++ EvReadFile (lastRunFile w) :: (EvNow :: e1)). split.
  - rewrite T2, T1. rewrite <- !app_assoc. reflexivity.
  - exists (e2 ++ [req; EvNow]), (EvNow :: e1). split; [reflexivity|]. split.
    + unfold api, all_events in *. rewrite forallb_app, A2. reflexivity.
    + unfold api, all_events in *. simpl. exact A1.
Qed.

Lemma quiet_collectSite deviceID timestamp site :
  quiet (collectSite env w deviceID timestamp site)
        (reads (lastRunFile w) (if Enabled site then 1 else 0)).
Proof.
  unfold collectSite. destruct (Enabled site).
  - apply (quiet_bind _ _ (one_read w) (reads (lastRunFile w) 0) (reads (lastRunFile w) 1)).
    + apply quiet_getTrafficData.
    + intros tdp. now apply quiet_ret.
    + intros e1 e2 H1 H2. apply (reads_app _ 1 0); [now apply one_read_reads | exact H2].
  - now apply quiet_ret.
Qed.

Lemma quiet_collectSites deviceID timestamp sites :
  quiet (collectSites env w deviceID timestamp sites) (reads (lastRunFile w) (enabledSites sites)).
Proof.
  induction sites as [|s sites IH]; simpl; [now apply quiet_ret|].
  apply (quiet_bind _ _ (reads (lastRunFile w) (if Enabled s then 1 else 0)) (reads (lastRunFile w) (enabledSites sites))
           (reads (lastRunFile w) (enabledSites (s :: sites)))).
  - apply quiet_collectSite.
  - intros pts.
    apply (quiet_bind _ _ (reads (lastRunFile w) (enabledSites sites))
             (reads (lastRunFile w) 0) (reads (lastRunFile w) (enabledSites sites))).
    + exact IH.
    + intros more. now apply quiet_ret.
    + intros e1 e2 H1 H2. replace (enabledSites sites) with (enabledSites sites + 0)%nat by lia.
      now apply reads_app.
  - intros e1 e2 H1 H2. unfold enabledSites in *. simpl.
    pose proof (reads_app _ _ _ e1 e2 H1 H2) as [R W].
    destruct (Enabled s); simpl in *; split; auto.
Qed.

Lemma quiet_writeLines lines : quiet (writeLines env lines) (all_events sender_event).
Proof.
  induction lines as [|l lines IH]; simpl; [now apply quiet_ret|].
  apply quiet_bind_closed; [exact snd_closed | now apply quiet_emit |].
  intros k. destruct (negb _); [now apply quiet_ret | exact IH].
Qed.

Lemma quiet_sendToZabbix data : quiet (sendToZabbix env w data) (all_events sender_event).
Proof.
  unfold sendToZabbix. destruct (Nat.eqb _ _); [now apply quiet_ret|].
  apply quiet_bind_closed; [exact snd_closed | now apply quiet_emit |].
  intros k. destruct (negb _); [now apply quiet_ret|].
  apply quiet_bind_closed; [exact snd_closed | apply quiet_writeLines |].
  intros ok. destruct (negb _); [now apply quiet_ret|].
  apply quiet_bind_closed; [exact snd_closed | now apply quiet_emit |].
  intros k'. destruct (negb _); [now apply quiet_ret|].
  apply quiet_bind_closed; [exact snd_closed | now apply quiet_emit |].
  intros k''. now apply quiet_ret.
Qed.

Lemma quiet_sendCollectorStatus status :
  quiet (sendCollectorStatus env w status) (all_events sender_event).
Proof.
  unfold sendCollectorStatus, now.
  apply quiet_bind_closed; [exact snd_closed | |].
  { apply quiet_bind_closed; [exact snd_closed | now apply quiet_emit |].
    intros k. now apply quiet_ret. }
  intros t. apply quiet_bind_closed; [exact snd_closed | apply quiet_sendToZabbix |].
  intros ok. now apply quiet_ret.
Qed.

(** [getSites] leaves the files alone, adds a clock reading and a
    request, and a fresh collector has the sites it returns in its cache
    afterwards. *)
Lemma getSites_run (st : State) :
  files (getSites env st).2 = files st
  /\ (exists evs, trace (getSites env st).2 = evs ++ trace st /\ api evs)
  /\ (cachedSites st = [] -> cachedSites (getSites env st).2 = (getSites env st).1).
Proof.
  unfold getSites, now, doRequest. unbind. simpl emit. cbn [fst snd].
  destruct (checkResponse _) as [resp|]; simpl.
  - destruct (decode_result decode_site (Data resp)) as [sites|]; simpl.
    + split; [reflexivity|]. split; [|reflexivity]. eexists [_; _]. now split.
    + split; [reflexivity|]. split; [|auto]. eexists [_; _]. now split.
  - split; [reflexivity|]. split; [|auto]. eexists [_; _]. now split.
Qed.

(** [collectAllData] never touches the state file's content and never
    writes it; a fresh collector reads it once for every enabled site of
    the list it enumerated. *)
Lemma collectAllData_accesses (st : State) :
  files (collectAllData env w st).2 = files st
  /\ exists evs,
       trace (collectAllData env w st).2 = evs ++ trace st
       /\ countb (is_write (lastRunFile w)) evs = 0%nat
       /\ (cachedSites st = [] ->
           countb (is_read (lastRunFile w)) evs = enabledSites (cachedSites (collectAllData env w st).2)).
Proof.
  unfold collectAllData. rewrite bind_eq.
  destruct (quiet_login env st) as (F1 & S1 & e1 & T1 & A1).
  destruct (login env st).1; simpl.
  2:{ split; [exact F1|]. exists e1. split; [exact T1|].
      destruct (api_reads0 (lastRunFile w) e1 A1) as [R W]. split; [exact W|].
      intros C. rewrite S1, C. exact R. }
  rewrite bind_eq.
  destruct (quiet_getDeviceID env (login env st).2) as (F2 & S2 & e2 & T2 & A2).
  set (st2 := (getDeviceID env (login env st).2).2) in *.
  set (deviceID := if String.eqb _ _ then _ else _).
  rewrite bind_eq.
  destruct (getSites_run st2) as (F3 & (e3 & T3 & A3) & C3).
  set (st3 := (getSites env st2).2) in *.
  set (sites := (getSites env st2).1) in *.
  assert (A123 : all_events api_event (e3 ++ e2 ++ e1)).
  { unfold all_events in *. unfold api in *. unfold all_events in *.
    now rewrite !forallb_app, A1, A2, A3. }
  assert (T123 : trace st3 = (e3 ++ e2 ++ e1) ++ trace st).
  { rewrite T3, T2, T1. now rewrite <- !app_assoc. }
  destruct (Nat.eqb (length sites) 0) eqn:Len; simpl.
  - split; [congruence|]. exists (e3 ++ e2 ++ e1). split; [exact T123|].
    destruct (api_reads0 (lastRunFile w) _ A123) as [R W]. split; [exact W|].
    intros C. rewrite C3 by congruence. fold sites.
    destruct sites; [exact R | discriminate].
  - unfold now. unbind. simpl emit. cbn [fst snd].
    match goal with
    | |- context [collectSites env w ?d ?t ?l ?s] =>
        destruct (quiet_collectSites d t l s) as (F4 & S4 & e4 & T4 & R4 & W4)
    end.
    simpl in F4, S4, T4. simpl.
    split; [congruence|]. exists (e4 ++ EvNow :: e3 ++ e2 ++ e1). split.
    + rewrite T4, T123. list_eq.
    + destruct (api_reads0 (lastRunFile w) _ A123) as [R W].
      split.
      * rewrite countb_app. change (EvNow :: e3 ++ e2 ++ e1) with ([EvNow] ++ e3 ++ e2 ++ e1).
        rewrite countb_app, W4, W. reflexivity.
      * intros C. rewrite S4, C3 by congruence. fold sites.
        rewrite countb_app. change (EvNow :: e3 ++ e2 ++ e1) with ([EvNow] ++ e3 ++ e2 ++ e1).
        rewrite countb_app, R4, R. simpl. lia.
Qed.

Lemma saveLastRunTime_run (runTime : Time) (st : State) :
  let data := marshal_LastRunInfo
                (mkLastRunInfo (Format (env_tz env) runTime RFC3339) (dataType w) (zabbixHost w)) in
  trace (saveLastRunTime env w runTime st).2 = EvWriteFile (lastRunFile w) data :: trace st
  /\ cachedSites (saveLastRunTime env w runTime st).2 = cachedSites st
  /\ files (saveLastRunTime env w runTime st).2
     = (if env_io_ok env (length (trace st))
        then <[lastRunFile w := data]> (files st) else files st).
Proof.
  cbv zeta. unfold saveLastRunTime. unbind. unfold emit, ret, store_file, push. simpl.
  destruct (env_io_ok env (length (trace st))); simpl; auto.
Qed.

Lemma decode_marshal_LastRunInfo (info : LastRunInfo) :
  decode_LastRunInfo (marshal_LastRunInfo info) = Some info.
Proof.
  destruct info as [t d h]. unfold marshal_LastRunInfo, decode_LastRunInfo, dec_string. simpl.
  rewrite lookup_insert_eq.
  rewrite lookup_insert_ne by discriminate. rewrite lookup_insert_eq.
  rewrite lookup_insert_ne by discriminate. rewrite lookup_insert_ne by discriminate.
  rewrite lookup_insert_eq. reflexivity.
Qed.

End RunFacts.

(** ** The run and the state file *)

Section RunTheorems.

Variable env : Env.
Variable w : Config.

Lemma run_unfold (st : State) :
  run env w st
  = let t := mkTime (env_clock env (length (trace st))) Local in
    let c := collectAllData env w (push EvNow st) in
    if Nat.ltb 0 (length c.1) then
      let s := sendToZabbix env w c.1 c.2 in
      if s.1 then (true, (saveLastRunTime env w t s.2).2)
      else (false, (sendCollectorStatus env w 0 s.2).2)
    else (false, (sendCollectorStatus env w 0 c.2).2).
Proof.
  unfold run, now, bind, emit, ret. simpl.
  destruct (collectAllData env w (push EvNow st)) as [d st1]. simpl.
  destruct (Nat.ltb 0 (length d)).
  - destruct (sendToZabbix env w d st1) as [[|] st2]; simpl.
    + now destruct (saveLastRunTime env w _ st2).
    + now destruct (sendCollectorStatus env w 0 st2).
  - now destruct (sendCollectorStatus env w 0 st1).
Qed.

(** The accesses of a run to the state file. *)
Lemma run_accesses (st : State) :
  let currentRunTime := mkTime (env_clock env (length (trace st))) Local in
  let data := marshal_LastRunInfo (stateOf env w currentRunTime) in
  let r := run env w st in
  r.1 = delivered env w st
  /\ cachedSites r.2 = cachedSites (collectAllData env w (push EvNow st)).2
  /\ exists evs,
       countb (is_write (lastRunFile w)) evs = 0%nat
       /\ (cachedSites st = [] ->
           countb (is_read (lastRunFile w)) evs = enabledSites (cachedSites r.2))
       /\ if delivered env w st
          then trace r.2 = EvWriteFile (lastRunFile w) data :: evs ++ trace st
               /\ files r.2 = (if env_io_ok env (length (evs ++ trace st))
                               then <[lastRunFile w := data]> (files st) else files st)
          else trace r.2 = evs ++ trace st /\ files r.2 = files st.
Proof.
  cbv zeta. unfold delivered. rewrite run_unfold. cbv zeta.
  destruct (collectAllData_accesses env w (push EvNow st)) as (Fc & ec & Tc & Wc & Rc).
  set (c := collectAllData env w (push EvNow st)) in *.
  simpl in Fc, Tc, Rc.
  assert (Fail : forall s e,
             files s = files st -> cachedSites s = cachedSites c.2 ->
             trace s = e ++ ec ++ EvNow :: trace st ->
             all_events sender_event e ->
             cachedSites (sendCollectorStatus env w 0 s).2 = cachedSites c.2
             /\ exists evs,
                  countb (is_write (lastRunFile w)) evs = 0%nat
                  /\ (cachedSites st = [] ->
                      countb (is_read (lastRunFile w)) evs
                      = enabledSites (cachedSites (sendCollectorStatus env w 0 s).2))
                  /\ trace (sendCollectorStatus env w 0 s).2 = evs ++ trace st
                  /\ files (sendCollectorStatus env w 0 s).2 = files st).
  { intros s e Fs Cs Ts As.
    destruct (quiet_sendCollectorStatus env w 0 s) as (F & S & e' & T & A).
    split; [congruence|].
    exists (e' ++ e ++ ec ++ [EvNow]).
    destruct (sender_reads0 (lastRunFile w) e' A) as [R1 W1].
    destruct (sender_reads0 (lastRunFile w) e As) as [R2 W2].
    split; [|split; [|split]].
    - rewrite !countb_app, W1, W2, Wc. reflexivity.
    - intros C. rewrite !countb_app, R1, R2, (Rc C), S, Cs. simpl.
      unfold countb. simpl. lia.
    - rewrite T, Ts. list_eq.
    - congruence. }
  destruct (Nat.ltb 0 (length c.1)); simpl.
  - destruct (quiet_sendToZabbix env w c.1 c.2) as (Fs & Ss & es & Ts & As).
    destruct (sendToZabbix env w c.1 c.2).1 eqn:Ok; cbn [fst snd].
    + destruct (saveLastRunTime_run env w
                  (mkTime (env_clock env (length (trace st))) Local)
                  (sendToZabbix env w c.1 c.2).2) as (T & S & F).
      split; [reflexivity|]. split; [congruence|].
      exists (es ++ ec ++ [EvNow]).
      destruct (sender_reads0 (lastRunFile w) es As) as [R2 W2].
      split; [|split; [|split]].
      * rewrite !countb_app, W2, Wc. reflexivity.
      * intros C. rewrite !countb_app, R2, (Rc C), S, Ss. unfold countb. simpl. lia.
      * rewrite T, Ts, Tc. f_equal. list_eq.
      * rewrite F, Fs, Fc. simpl.
        replace (length (trace (sendToZabbix env w c.1 c.2).2))
          with (length ((es ++ ec ++ [EvNow]) ++ trace st)); [reflexivity|].
        rewrite Ts, Tc. f_equal. list_eq.
    + split; [reflexivity|]. apply (Fail _ es); auto; [congruence | now rewrite Ts, Tc].
  - split; [reflexivity|]. apply (Fail _ []); auto. reflexivity.
Qed.

(** C1. The run reports success exactly when its delivery to the sink
    succeeded.  In that case its last action is the write of the state
    file, and what it writes carries the clock reading taken by the
    first action of the run (the file then holds it, unless the write
    itself fails, which leaves the file as it was); nothing else wrote
    the file.  In every other case (no data, or the sender failed) the
    file is as it was and no write was attempted. *)
Theorem state_advanced_only_after_delivery (st : State) :
  let currentRunTime := mkTime (env_clock env (length (trace st))) Local in
  let data := marshal_LastRunInfo (stateOf env w currentRunTime) in
  let r := run env w st in
  r.1 = delivered env w st
  /\ decode_LastRunInfo data
     = Some (mkLastRunInfo (Format (env_tz env) currentRunTime RFC3339)
               (dataType w) (zabbixHost w))
  /\ if delivered env w st
     then exists evs,
            trace r.2 = EvWriteFile (lastRunFile w) data :: evs ++ trace st
            /\ countb (is_write (lastRunFile w)) evs = 0%nat
            /\ files r.2 = (if env_io_ok env (length (evs ++ trace st))
                            then <[lastRunFile w := data]> (files st) else files st)
     else files r.2 = files st
          /\ exists evs, trace r.2 = evs ++ trace st
                         /\ countb (is_write (lastRunFile w)) evs = 0%nat.
Proof.
  cbv zeta. destruct (run_accesses st) as (R & _ & evs & W & _ & H).
  split; [exact R|]. split; [apply decode_marshal_LastRunInfo|].
  destruct (delivered env w st).
  - destruct H as [T F]. exists evs. auto.
  - destruct H as [T F]. split; [exact F|]. exists evs. auto.
Qed.

(** C8, as the code has it.  A run of a fresh collector reads the state
    file once for every enabled site of the list it enumerated (the
    cached list; none if the run did not get that far), each time inside
    that site's [getTrafficData]; it writes the file at most once, as
    its very last action and only when the delivery succeeded.  Inside
    [getTrafficData] the actions come in this order (the trace has the
    newest first): the resolution of the device identifier, which only
    reads the clock and sends requests; the clock reading for the end of
    the window; the read of the state file; the clock reading for the
    cache-busting parameter and the traffic query for the window that
    the file and the end-of-window reading give; clock readings only
    after that. *)
Theorem state_file_accesses (fs : gmap string FileData) :
  let r := run env w (startState fs) in
  countb (is_read (lastRunFile w)) (trace r.2) = enabledSites (cachedSites r.2)
  /\ (forall appID deviceID st,
        exists a b,
          trace (getTrafficData env w appID deviceID st).2
          = (a ++ EvReadFile (lastRunFile w) :: b) ++ trace st
          /\ countb (is_read (lastRunFile w)) (a ++ b) = 0%nat)
  /\ (forall appID deviceID st,
        let d := findWorkingDeviceID env appID deviceID st in
        let endTime := mkTime (env_clock env (length (trace d.2))) Local in
        let lastRunTime :=
          storedLastRun env (files st !! lastRunFile w)
            (env_io_ok env (S (length (trace d.2)))) in
        let ts := mkTime (env_clock env (S (S (length (trace d.2))))) Local in
        exists resolution rest,
          trace d.2 = resolution ++ trace st
          /\ all_events api_event resolution
          /\ trace (getTrafficData env w appID deviceID st).2
             = rest
               ++ EvRequest "GET" "/api/v1/logs/traffic/"
                    (trafficParams env w appID d.1
                       (windowStart w lastRunTime endTime) endTime ts)
               :: EvNow :: EvReadFile (lastRunFile w) :: EvNow :: trace d.2
          /\ all_events is_now rest)
  /\ if r.1
     then exists data evs,
            trace r.2 = EvWriteFile (lastRunFile w) data :: evs
            /\ countb (is_write (lastRunFile w)) evs = 0%nat
     else countb (is_write (lastRunFile w)) (trace r.2) = 0%nat.
Proof.
  cbv zeta. destruct (run_accesses (startState fs)) as (R & _ & evs & W & Rd & H).
  simpl in H. rewrite app_nil_r in H. rewrite R. split; [|split; [|split]].
  3: { intros appID deviceID st. exact (getTrafficData_order env w appID deviceID st). }
  - specialize (Rd eq_refl).
    destruct (delivered env w (startState fs)); destruct H as [T _]; rewrite T; [|exact Rd].
    change (EvWriteFile (lastRunFile w)
              (marshal_LastRunInfo (stateOf env w (mkTime (env_clock env 0) Local))) :: evs)
      with ([EvWriteFile (lastRunFile w)
               (marshal_LastRunInfo (stateOf env w (mkTime (env_clock env 0) Local)))] ++ evs).
    rewrite countb_app, Rd. reflexivity.
  - intros appID deviceID st.
    destruct (quiet_getTrafficData env w appID deviceID st)
      as (_ & _ & e & T & a & b & -> & A & B).
    exists a, b. split; [exact T|].
    rewrite countb_app.
    destruct (api_reads0 (lastRunFile w) a A) as [-> _].
    destruct (api_reads0 (lastRunFile w) b B) as [-> _]. reflexivity.
  - destruct (delivered env w (startState fs)); destruct H as [T _]; rewrite T.
    + eexists _, evs. split; [reflexivity | exact W].
    + exact W.
Qed.

(** C3. When the state file gives the time of the last run, the window
    of the traffic query ends at the clock reading taken right after the
    resolution of the identifier and starts at the time of the last run,
    moved forward to the ceiling of the granularity before the end if it
    lies further back; the window is therefore never longer than the
    ceiling (minutes 24h, hours 7d, days 30d, anything else 24h).  With
    granularity hours and a last run exactly ten days before the end, it
    starts seven days before the end. *)
Theorem window_clipping (appID deviceID : string) (st : State)
    (wid : string) (endTime lastRun : Time) (st3 : State) :
  windowOf env w appID deviceID st = ((wid, endTime, Some lastRun), st3) ->
  let start := windowStart w (Some lastRun) endTime in
  endTime = mkTime (env_clock env
                      (length (trace (findWorkingDeviceID env appID deviceID st).2))) Local
  /\ (exists evs,
        trace (getTrafficData env w appID deviceID st).2
        = evs ++ EvRequest "GET" "/api/v1/logs/traffic/"
                   (trafficParams env w appID wid start endTime
                      (mkTime (env_clock env (length (trace st3))) Local))
                 :: EvNow :: trace st3)
  /\ start = (if Before lastRun (Add endTime (- ceilingOf (dataType w)))
              then Add endTime (- ceilingOf (dataType w)) else lastRun)
  /\ unixNano start = Z.max (unixNano lastRun) (unixNano endTime - ceilingOf (dataType w))
  /\ Sub endTime start <= ceilingOf (dataType w)
  /\ (dataType w = "hours" -> unixNano lastRun = unixNano endTime - 10 * (24 * Hour) ->
      start = Add endTime (- (7 * (24 * Hour)))).
Proof.
  intros Hq. cbv zeta.
  destruct (windowStart_clipped w lastRun endTime) as (E1 & E2 & E3). cbv zeta in *.
  split; [|split; [|split; [|split; [|split]]]].
  - pose proof (windowOf_run env w appID deviceID st) as Q. cbv zeta in Q.
    rewrite Hq in Q. now inversion Q.
  - rewrite getTrafficData_split, Hq. cbn [fst snd].
    destruct (fetchTraffic_trace env w appID wid (windowStart w (Some lastRun) endTime)
                endTime st3) as (_ & _ & evs & T & _).
    exists evs. exact T.
  - rewrite E1. unfold Before, Add. cbn [unixNano].
    now replace (unixNano endTime + - ceilingOf (dataType w))
      with (unixNano endTime - ceilingOf (dataType w)) by lia.
  - exact E2.
  - exact E3.
  - intros Hh Hl. rewrite E1, Hh.
    change (ceilingOf "hours") with (7 * (24 * Hour)).
    destruct (Z.ltb_spec (unixNano lastRun) (unixNano endTime - 7 * (24 * Hour))) as [_|L];
      [reflexivity|].
    exfalso. unfold Hour, Minute, Second in *. lia.
Qed.

End RunTheorems.

Lemma window_clipping_witness :
  let endTime := mkTime 1718000002000000000 Local in
  windowStart cfg_demo (Some (mkTime 1717136002000000000 UTC)) endTime
  = Add endTime (- (7 * (24 * Hour))).
Proof.
  intros endTime.
  refine (proj2 (proj2 (proj2 (proj2 (proj2
            (window_clipping env_utc cfg_demo "s3" EmptyString (startState fs_ten_days_ago)
               "dev-1" endTime (mkTime 1717136002000000000 UTC)
               (push (EvReadFile (lastRunFile cfg_demo))
                  (push EvNow
                     (findWorkingDeviceID env_utc "s3" EmptyString
                        (startState fs_ten_days_ago)).2)) _))))) _ _).
  - vm_compute. reflexivity.
  - reflexivity.
  - reflexivity.
Defined.

(** C8, as stated, fails: in a run over three sites of which two are
    enabled the state file is read twice, and neither read is the first
    action of the run. *)
Lemma state_file_read_once_per_enabled_site :
  let r := run (env_up true true) cfg_demo (startState ∅) in
  r.1 = true
  /\ countb (is_read (lastRunFile cfg_demo)) (trace r.2) = 2%nat
  /\ last (trace r.2) = Some EvNow.
Proof. vm_compute. repeat split. Qed.


(** ** The calendar *)

Lemma isLeap_spec (y : Z) :
  isLeap y = true <-> (y mod 4 = 0 /\ (y mod 100 <> 0 \/ y mod 400 = 0)).
Proof.
  unfold isLeap. rewrite andb_true_iff, orb_true_iff, negb_true_iff.
  rewrite !Z.eqb_eq, Z.eqb_neq. tauto.
Qed.

(** A year has 365 days, or 366 when it is a leap year. *)
Lemma year_length (y : Z) :
  days_before_year (y + 1) = days_before_year y + 365 + (if isLeap y then 1 else 0).
Proof.
  unfold days_before_year.
  destruct (isLeap y) eqn:L.
  - apply isLeap_spec in L. Z.to_euclidean_division_equations. lia.
  - assert (N : ~ (y mod 4 = 0 /\ (y mod 100 <> 0 \/ y mod 400 = 0)))
      by (rewrite <- isLeap_spec; congruence).
    Z.to_euclidean_division_equations. lia.
Qed.

Lemma year_of_day_bounds (D : Z) :
  days_before_year (year_of_day D) <= D < days_before_year (year_of_day D + 1).
Proof.
  unfold year_of_day. cbv zeta.
  assert (E : days_before_year (400 * D / 146097 - 1) <= D
              < days_before_year (400 * D / 146097 + 2)).
  { unfold days_before_year. Z.to_euclidean_division_equations. lia. }
  pose proof (year_length (400 * D / 146097 - 1)) as Y0.
  pose proof (year_length (400 * D / 146097)) as Y1.
  pose proof (year_length (400 * D / 146097 + 1)) as Y2.
  replace (400 * D / 146097 - 1 + 1) with (400 * D / 146097) in * by lia.
  replace (400 * D / 146097 + 1 + 1) with (400 * D / 146097 + 2) in * by lia.
  destruct (Z.leb_spec (days_before_year (400 * D / 146097 + 1)) D).
  - replace (400 * D / 146097 + 1 + 1) with (400 * D / 146097 + 2) by lia. lia.
  - destruct (Z.leb_spec (days_before_year (400 * D / 146097)) D).
    + lia.
    + replace (400 * D / 146097 - 1 + 1) with (400 * D / 146097) by lia. lia.
Qed.

Lemma days_before_year_mono (y1 y2 : Z) :
  y1 <= y2 -> days_before_year y1 <= days_before_year y2.
Proof. unfold days_before_year. intros H. Z.to_euclidean_division_equations. lia. Qed.

(** The civil date of every day is a valid date and [days_from_civil]
    leads back from it to the day. *)
Lemma civil_from_days_inverse (z : Z) :
  let '(y, m, d) := civil_from_days z in
  valid_date y m d = true /\ days_from_civil y m d = z.
Proof.
  unfold civil_from_days. cbv zeta.
  pose proof (year_of_day_bounds (z + 719528)) as B.
  rewrite year_length in B.
  set (y := year_of_day (z + 719528)) in *.
  set (yday := z + 719528 - days_before_year y).
  assert (Y : 0 <= yday < 365 + (if isLeap y then 1 else 0)) by (unfold yday; lia).
  unfold valid_date, days_from_civil, daysIn, month_of_yday.
  destruct (isLeap y); cbv zeta;
    repeat match goal with
    | |- context [if ?a <? ?b then _ else _] => destruct (Z.ltb_spec a b)
    end; cbn; split; try lia;
    repeat (apply andb_true_iff; split); try (apply Z.leb_le); unfold yday in *; lia.
Qed.

(** Years 0000 to 9999 are the days from -719528 up to 2932896. *)
Lemma civil_from_days_year (z : Z) :
  -719528 <= z < 2932897 -> 0 <= (civil_from_days z).1.1 <= 9999.
Proof.
  intros Hz. unfold civil_from_days. cbv zeta. cbn [fst].
  pose proof (year_of_day_bounds (z + 719528)) as B.
  set (y := year_of_day (z + 719528)) in *.
  assert (D0 : days_before_year 0 = 0) by reflexivity.
  assert (D1 : days_before_year 10000 = 3652425) by reflexivity.
  split.
  - destruct (Z_lt_le_dec y 0) as [L|]; [|lia].
    pose proof (days_before_year_mono (y + 1) 0 ltac:(lia)). lia.
  - destruct (Z_lt_le_dec 9999 y) as [L|]; [|lia].
    pose proof (days_before_year_mono 10000 y ltac:(lia)). lia.
Qed.

(** ** Decimal digits *)

Lemma digit_cases (d : Z) :
  0 <= d <= 9 ->
  d = 0 \/ d = 1 \/ d = 2 \/ d = 3 \/ d = 4 \/ d = 5 \/ d = 6 \/ d = 7 \/ d = 8 \/ d = 9.
Proof. lia. Qed.

Ltac each_digit d H :=
  destruct (digit_cases d H) as [->|[->|[->|[->|[->|[->|[->|[->|[->| ->]]]]]]]]].

Lemma is_digit_digit_char (d : Z) : 0 <= d <= 9 -> is_digit (digit_char d) = true.
Proof. intros H. each_digit d H; reflexivity. Qed.

Lemma digit_val_digit_char (d : Z) : 0 <= d <= 9 -> digit_val (digit_char d) = d.
Proof. intros H. each_digit d H; reflexivity. Qed.

Lemma mod10_digit (n : Z) : 0 <= n mod 10 <= 9.
Proof. pose proof (Z.mod_pos_bound n 10). lia. Qed.

(** A digit is none of the bytes the parser gives a meaning of its own. *)
Lemma is_digit_not_special (c : ascii) :
  is_digit c = true ->
  Ascii.eqb c " " = false /\ Ascii.eqb c "-" = false /\ Ascii.eqb c "+" = false
  /\ Ascii.eqb c "." = false /\ Ascii.eqb c "," = false /\ Ascii.eqb c "Z" = false
  /\ Ascii.eqb c "0" = (digit_val c =? 0).
Proof.
  destruct c as [[] [] [] [] [] [] [] []]; intros H; try discriminate H;
    repeat split; reflexivity.
Qed.

Lemma fixed_digits_length (k : nat) (n : Z) : String.length (fixed_digits k n) = k.
Proof. induction k as [|k IH]; simpl; [reflexivity | now rewrite IH]. Qed.

Lemma fixed_digits_snoc (k : nat) (n : Z) :
  0 <= n ->
  fixed_digits (S k) n = fixed_digits k (n / 10) +:+ str1 (digit_char (n mod 10)).
Proof.
  intros Hn. induction k as [|k IH].
  - simpl. now rewrite Z.div_1_r.
  - change (fixed_digits (S (S k)) n)
      with (String (digit_char (n / 10 ^ Z.of_nat (S k) mod 10)) (fixed_digits (S k) n)).
    rewrite IH. simpl String.append. f_equal. f_equal.
    rewrite Nat2Z.inj_succ, Z.pow_succ_r by lia.
    rewrite Z.div_div by lia. reflexivity.
Qed.

Lemma utoa_fuel_digits (L : nat) :
  forall (fuel : nat) (n : Z) (acc : string),
    (1 <= L <= fuel)%nat -> 0 <= n < 10 ^ Z.of_nat L ->
    (L = 1%nat \/ 10 ^ (Z.of_nat L - 1) <= n) ->
    utoa_fuel fuel n acc = fixed_digits L n +:+ acc.
Proof.
  induction L as [|L IH]; intros fuel n acc HL Hn Hlow; [lia|].
  destruct fuel as [|fuel]; [lia|].
  destruct (Nat.eq_dec L 0%nat) as [->|NL].
  - simpl in Hn. simpl. destruct (Z.ltb_spec n 10); [|lia].
    now rewrite Z.div_1_r.
  - assert (P : 10 ^ Z.of_nat (S L) = 10 * 10 ^ Z.of_nat L)
      by (rewrite Nat2Z.inj_succ, Z.pow_succ_r; lia).
    assert (Q : 10 ^ (Z.of_nat (S L) - 1) = 10 ^ Z.of_nat L)
      by (f_equal; lia).
    assert (Q' : 10 ^ Z.of_nat L = 10 * 10 ^ (Z.of_nat L - 1)).
    { replace (Z.of_nat L) with (Z.succ (Z.of_nat L - 1)) at 1 by lia.
      rewrite Z.pow_succ_r; lia. }
    assert (Pos : 0 < 10 ^ (Z.of_nat L - 1)) by (apply Z.pow_pos_nonneg; lia).
    destruct Hlow as [E|Hlow]; [lia|]. rewrite Q in Hlow.
    simpl utoa_fuel. destruct (Z.ltb_spec n 10); [lia|].
    rewrite (IH fuel (n / 10)).
    + rewrite fixed_digits_snoc by lia. rewrite append_assoc. reflexivity.
    + lia.
    + split; [apply Z.div_pos; lia|]. apply Z.div_lt_upper_bound; lia.
    + destruct (Nat.eq_dec L 1%nat); [now left | right].
      apply Z.div_le_lower_bound; lia.
Qed.

(** Every non-negative integer has a number of digits. *)
Lemma digits_count (w : nat) (n : Z) :
  (1 <= w)%nat -> 0 <= n < 10 ^ Z.of_nat w ->
  exists L, (1 <= L <= w)%nat /\ n < 10 ^ Z.of_nat L
            /\ (L = 1%nat \/ 10 ^ (Z.of_nat L - 1) <= n).
Proof.
  induction w as [|w IH]; intros Hw Hn; [lia|].
  destruct (Nat.eq_dec w 0%nat) as [->|Nw].
  - exists 1%nat. split; [lia|]. split; [lia | now left].
  - destruct (Z_lt_le_dec n (10 ^ Z.of_nat w)) as [Lt|Ge].
    + destruct (IH ltac:(lia) ltac:(lia)) as (L & HL & H1 & H2).
      exists L. split; [lia|]. auto.
    + exists (S w). split; [lia|]. split; [lia|]. right.
      now replace (Z.of_nat (S w) - 1) with (Z.of_nat w) by lia.
Qed.

Lemma fixed_digits_pad (L w : nat) (n : Z) :
  (L <= w)%nat -> 0 <= n < 10 ^ Z.of_nat L ->
  zeros (w - L) +:+ fixed_digits L n = fixed_digits w n.
Proof.
  intros HL Hn. induction w as [|w IH].
  - replace L with 0%nat by lia. reflexivity.
  - destruct (Nat.eq_dec L (S w)) as [->|NL].
    + now rewrite Nat.sub_diag.
    + replace (S w - L)%nat with (S (w - L)) by lia.
      simpl. rewrite IH by lia. f_equal.
      assert (M : 10 ^ Z.of_nat L <= 10 ^ Z.of_nat w) by (apply Z.pow_le_mono_r; lia).
      rewrite Z.div_small by lia. reflexivity.
Qed.

(** [appendInt] of an integer that fits the width writes exactly that
    many digits. *)
Lemma appendInt_fixed (w : nat) (n : Z) :
  (1 <= w)%nat -> 0 <= n < 10 ^ Z.of_nat w -> appendInt n w = fixed_digits w n.
Proof.
  intros Hw Hn. unfold appendInt.
  destruct (Z.ltb_spec n 0); [lia|]. rewrite Z.abs_eq by lia.
  destruct (digits_count w n Hw Hn) as (L & HL & H1 & H2).
  assert (U : utoa n = fixed_digits L n).
  { unfold utoa. rewrite (utoa_fuel_digits L) ; [apply append_nil_r | | lia | exact H2].
    split; [lia|].
    destruct H2 as [->|H2]; [lia|].
    assert (2 ^ (Z.of_nat L - 1) <= n).
    { etransitivity; [|exact H2]. apply Z.pow_le_mono_l. lia. }
    assert (Z.of_nat L - 1 <= Z.log2 n) by (apply Z.log2_le_pow2; lia).
    lia. }
  rewrite U, fixed_digits_length. simpl. apply fixed_digits_pad; lia.
Qed.

Lemma appendInt_2 (n : Z) :
  0 <= n < 100 ->
  appendInt n 2 = String (digit_char (n / 10)) (String (digit_char (n mod 10)) EmptyString).
Proof.
  intros H. rewrite appendInt_fixed by (simpl; lia). simpl.
  rewrite Z.div_1_r. rewrite (Z.mod_small (n / 10)); [reflexivity|].
  split; [apply Z.div_pos; lia | apply Z.div_lt_upper_bound; lia].
Qed.

Lemma appendInt_4 (n : Z) :
  0 <= n < 10000 ->
  appendInt n 4
  = String (digit_char (n / 1000)) (String (digit_char (n / 100 mod 10))
      (String (digit_char (n / 10 mod 10)) (String (digit_char (n mod 10)) EmptyString))).
Proof.
  intros H. rewrite appendInt_fixed by (simpl; lia). simpl.
  rewrite Z.div_1_r. rewrite (Z.mod_small (n / 1000)); [reflexivity|].
  split; [apply Z.div_pos; lia | apply Z.div_lt_upper_bound; lia].
Qed.

(** ** Digit strings and their values *)

Lemma leadingInt_digits (s : string) (acc : Z) :
  all_digits s = true -> leadingInt acc s = (digits_val acc s, EmptyString).
Proof.
  revert acc. induction s as [|c s IH]; intros acc H; simpl in *; [reflexivity|].
  apply andb_true_iff in H as [Hc Hs]. rewrite Hc. now apply IH.
Qed.

Lemma span_digits_all (s : string) : all_digits s = true -> span_digits s = String.length s.
Proof.
  induction s as [|c s IH]; simpl; [reflexivity|]. intros H.
  apply andb_true_iff in H as [Hc Hs]. rewrite Hc. now rewrite IH.
Qed.

Lemma atoi_digits (c : ascii) (s : string) :
  is_digit c = true ->
  atoi (String c s)
  = match leadingInt 0 (String c s) with
    | (q, EmptyString) => Some q
    | _ => None
    end.
Proof.
  destruct c as [[] [] [] [] [] [] [] []]; intros H; try discriminate H; reflexivity.
Qed.

Lemma all_digits_fixed (k : nat) (n : Z) : all_digits (fixed_digits k n) = true.
Proof.
  induction k as [|k IH]; simpl; [reflexivity|].
  rewrite is_digit_digit_char by apply mod10_digit. exact IH.
Qed.

Lemma digits_val_fixed (k : nat) (n acc : Z) :
  0 <= n ->
  digits_val acc (fixed_digits k n) = acc * 10 ^ Z.of_nat k + n mod 10 ^ Z.of_nat k.
Proof.
  intros Hn. revert acc. induction k as [|k IH]; intros acc.
  - simpl. rewrite Z.mod_1_r. lia.
  - simpl fixed_digits. simpl digits_val.
    rewrite IH, digit_val_digit_char by apply mod10_digit.
    rewrite Nat2Z.inj_succ, Z.pow_succ_r by lia.
    assert (P : 0 < 10 ^ Z.of_nat k) by (apply Z.pow_pos_nonneg; lia).
    rewrite (Z.mul_comm 10 (10 ^ Z.of_nat k)).
    rewrite (Z.rem_mul_r n (10 ^ Z.of_nat k) 10) by lia. lia.
Qed.

Lemma take_str_app (a b : string) : take_str (String.length a) (a +:+ b) = a.
Proof. induction a as [|c a IH]; simpl; [now destruct b | now rewrite IH]. Qed.

Lemma drop_str_app (a b : string) : drop_str (String.length a) (a +:+ b) = b.
Proof. induction a as [|c a IH]; simpl; [now destruct b | exact IH]. Qed.

Lemma take_str_all (a : string) : take_str (String.length a) a = a.
Proof. induction a as [|c a IH]; simpl; [reflexivity | now rewrite IH]. Qed.

Lemma drop_str_all (a : string) : drop_str (String.length a) a = EmptyString.
Proof. induction a as [|c a IH]; simpl; [reflexivity | exact IH]. Qed.

(** The first [k] of [k + j] digits are the digits of the quotient. *)
Lemma take_fixed_digits (k j : nat) (n : Z) :
  0 <= n ->
  take_str k (fixed_digits (k + j) n) = fixed_digits k (n / 10 ^ Z.of_nat j).
Proof.
  intros Hn. induction k as [|k IH]; simpl.
  - now destruct (fixed_digits j n).
  - rewrite IH. f_equal. f_equal.
    rewrite Nat2Z.inj_add, Z.pow_add_r by lia.
    assert (Pj : 0 < 10 ^ Z.of_nat j) by (apply Z.pow_pos_nonneg; lia).
    assert (Pk : 0 < 10 ^ Z.of_nat k) by (apply Z.pow_pos_nonneg; lia).
    rewrite Z.div_div by lia. now rewrite Z.mul_comm.
Qed.

(** Trimming the trailing zeros of a digit string divides its value by
    a power of ten. *)
Lemma trim_zeros_spec (s : string) :
  all_digits s = true ->
  all_digits (trim_zeros s) = true
  /\ (String.length (trim_zeros s) <= String.length s)%nat
  /\ forall acc,
       digits_val acc (trim_zeros s)
         * 10 ^ Z.of_nat (String.length s - String.length (trim_zeros s))
       = digits_val acc s.
Proof.
  induction s as [|c s IH]; intros H.
  - simpl. repeat split; auto. intros acc. lia.
  - simpl in H. apply andb_true_iff in H as [Hc Hs].
    destruct (IH Hs) as (A & L & V). simpl trim_zeros.
    destruct (trim_zeros s) as [|c' r] eqn:T.
    + destruct (is_digit_not_special c Hc) as (_ & _ & _ & _ & _ & _ & Z0).
      rewrite Z0. destruct (Z.eqb_spec (digit_val c) 0) as [E|N].
      * simpl. split; [reflexivity|]. split; [lia|]. intros acc.
        specialize (V (acc * 10 + digit_val c)). simpl in V. rewrite Nat.sub_0_r in V.
        rewrite <- V, E.
        rewrite Nat2Z.inj_succ, Z.pow_succ_r by lia. lia.
      * simpl. rewrite Hc. split; [reflexivity|]. split; [lia|]. intros acc.
        specialize (V (acc * 10 + digit_val c)). simpl in V. rewrite Nat.sub_0_r in V.
        rewrite Nat.sub_0_r. exact V.
    + simpl. rewrite Hc. simpl in A. rewrite A. split; [reflexivity|].
      simpl in L. split; [lia|]. intros acc.
      specialize (V (acc * 10 + digit_val c)). simpl in V. exact V.
Qed.

Lemma trim_zeros_nil_val (s : string) (acc : Z) :
  all_digits s = true -> trim_zeros s = EmptyString ->
  digits_val acc s = acc * 10 ^ Z.of_nat (String.length s).
Proof.
  intros A T. destruct (trim_zeros_spec s A) as (_ & _ & V).
  specialize (V acc). rewrite T in V. simpl in V. now rewrite Nat.sub_0_r in V.
Qed.

(** ** Parsing what [Format] wrote *)

Lemma appendInt_2_app (n : Z) (v : string) :
  0 <= n < 100 -> appendInt n 2 +:+ v = wire2 n v.
Proof. intros H. now rewrite appendInt_2. Qed.

Lemma appendInt_4_app (n : Z) (v : string) :
  0 <= n < 10000 -> appendInt n 4 +:+ v = wire4 n v.
Proof. intros H. now rewrite appendInt_4. Qed.

Lemma div10_digit (n : Z) : 0 <= n < 100 -> 0 <= n / 10 <= 9.
Proof. intros H. Z.to_euclidean_division_equations. lia. Qed.

Lemma getnum_wire2 (n : Z) (v : string) (fixed : bool) :
  0 <= n < 100 -> getnum (wire2 n v) fixed = Some (n, v).
Proof.
  intros H. unfold getnum, wire2.
  rewrite !is_digit_digit_char by (apply div10_digit || apply mod10_digit; lia).
  rewrite !digit_val_digit_char by (apply div10_digit || apply mod10_digit; lia).
  do 2 f_equal. Z.to_euclidean_division_equations. lia.
Qed.

Lemma cutspace_digit (c : ascii) (s : string) :
  is_digit c = true -> cutspace (String c s) = String c s.
Proof.
  destruct c as [[] [] [] [] [] [] [] []]; intros H; try discriminate H; reflexivity.
Qed.

Lemma skip_space_wire2 (n : Z) (v : string) :
  0 <= n < 100 -> skip (String " " (wire2 n v)) " " = Some (wire2 n v).
Proof.
  intros H.
  change (skip (String " " (wire2 n v)) " ")
    with (skip_fuel 0 (cutspace (wire2 n v)) EmptyString).
  unfold wire2. rewrite cutspace_digit; [reflexivity|].
  apply is_digit_digit_char, div10_digit, H.
Qed.

Lemma parse_chunks_cons (k : Chunk) (rest : list Chunk) (f : Fields) (v : string) :
  parse_chunks (k :: rest) f v
  = match parse_chunk k rest f v with
    | Some (f', v') => parse_chunks rest f' v'
    | None => None
    end.
Proof. reflexivity. Qed.

Lemma parse_lit_dash (rest : list Chunk) (f : Fields) (v : string) :
  parse_chunk (Lit "-") rest f (String "-" v) = Some (f, v).
Proof. reflexivity. Qed.

Lemma parse_lit_colon (rest : list Chunk) (f : Fields) (v : string) :
  parse_chunk (Lit ":") rest f (String ":" v) = Some (f, v).
Proof. reflexivity. Qed.

Lemma parse_lit_T (rest : list Chunk) (f : Fields) (v : string) :
  parse_chunk (Lit "T") rest f (String "T" v) = Some (f, v).
Proof. reflexivity. Qed.

Lemma parse_lit_T_space (rest : list Chunk) (f : Fields) (v : string) :
  parse_chunk (Lit "T") rest f (String " " v) = None.
Proof. reflexivity. Qed.

Lemma parse_lit_space (rest : list Chunk) (f : Fields) (n : Z) (v : string) :
  0 <= n < 100 ->
  parse_chunk (Lit " ") rest f (String " " (wire2 n v)) = Some (f, wire2 n v).
Proof.
  intros H. unfold parse_chunk. now rewrite skip_space_wire2.
Qed.

Lemma parse_year (rest : list Chunk) (f : Fields) (y : Z) (v : string) :
  0 <= y < 10000 ->
  parse_chunk stdLongYear rest f (wire4 y v)
  = Some (mkFields y (f_month f) (f_day f) (f_hour f) (f_min f) (f_sec f)
            (f_nsec f) (f_utc f) (f_zoneOffset f), v).
Proof.
  intros H. unfold wire4.
  assert (D3 : 0 <= y / 1000 <= 9) by (Z.to_euclidean_division_equations; lia).
  pose proof (mod10_digit (y / 100)) as D2.
  pose proof (mod10_digit (y / 10)) as D1.
  pose proof (mod10_digit y) as D0.
  unfold parse_chunk. cbn [String.length Nat.ltb Nat.leb isDigit String.get take_str drop_str].
  rewrite (is_digit_digit_char _ D3). cbn [negb orb].
  rewrite atoi_digits by (now apply is_digit_digit_char).
  rewrite leadingInt_digits.
  2:{ simpl. now rewrite !is_digit_digit_char. }
  simpl digits_val. rewrite !digit_val_digit_char by assumption.
  do 3 f_equal. Z.to_euclidean_division_equations. lia.
Qed.

(** The date part of the four layouts. *)
Lemma parse_date (rest : list Chunk) (f : Fields) (y m d : Z) (v : string) :
  0 <= y < 10000 -> 1 <= m <= 12 -> 0 <= d < 100 ->
  parse_chunks (stdLongYear :: Lit "-" :: stdZeroMonth :: Lit "-" :: stdZeroDay :: rest) f
    (wire4 y (String "-" (wire2 m (String "-" (wire2 d v)))))
  = parse_chunks rest
      (mkFields y m d (f_hour f) (f_min f) (f_sec f) (f_nsec f) (f_utc f) (f_zoneOffset f))
      v.
Proof.
  intros Hy Hm Hd.
  rewrite parse_chunks_cons, parse_year by assumption.
  rewrite parse_chunks_cons, parse_lit_dash.
  rewrite parse_chunks_cons. unfold parse_chunk at 1.
  rewrite getnum_wire2 by lia.
  destruct (Z.leb_spec m 0); [lia|]. destruct (Z.ltb_spec 12 m); [lia|]. cbn [orb].
  rewrite parse_chunks_cons, parse_lit_dash.
  rewrite parse_chunks_cons. unfold parse_chunk at 1.
  rewrite getnum_wire2 by lia. reflexivity.
Qed.

(** Hours and minutes. *)
Lemma parse_hour_min (rest : list Chunk) (f : Fields) (h mi : Z) (v : string) :
  0 <= h < 24 -> 0 <= mi < 60 ->
  parse_chunks (stdHour :: Lit ":" :: stdZeroMinute :: Lit ":" :: rest) f
    (wire2 h (String ":" (wire2 mi (String ":" v))))
  = parse_chunks rest
      (mkFields (f_year f) (f_month f) (f_day f) h mi (f_sec f) (f_nsec f) (f_utc f)
         (f_zoneOffset f))
      v.
Proof.
  intros Hh Hmi.
  rewrite parse_chunks_cons. unfold parse_chunk at 1.
  rewrite getnum_wire2 by lia.
  destruct (Z.ltb_spec h 0); [lia|]. destruct (Z.leb_spec 24 h); [lia|]. cbn [orb].
  rewrite parse_chunks_cons, parse_lit_colon.
  rewrite parse_chunks_cons. unfold parse_chunk at 1.
  rewrite getnum_wire2 by lia.
  destruct (Z.ltb_spec mi 0); [lia|]. destruct (Z.leb_spec 60 mi); [lia|]. cbn [orb].
  rewrite parse_chunks_cons, parse_lit_colon. reflexivity.
Qed.

(** Seconds, when no fractional second has to be read behind them. *)
Lemma parse_sec_plain (rest : list Chunk) (f : Fields) (s : Z) (v : string) :
  0 <= s < 60 ->
  has_fraction v && negb (is_frac (nextStd rest)) = false ->
  parse_chunk stdZeroSecond rest f (wire2 s v)
  = Some (mkFields (f_year f) (f_month f) (f_day f) (f_hour f) (f_min f) s (f_nsec f)
            (f_utc f) (f_zoneOffset f), v).
Proof.
  intros Hs Hf. unfold parse_chunk. rewrite getnum_wire2 by lia.
  destruct (Z.ltb_spec s 0); [lia|]. destruct (Z.leb_spec 60 s); [lia|]. cbn [orb].
  now rewrite Hf.
Qed.

(** Seconds followed by a fractional second that the layout does not
    name: the fraction is read with them. *)
Lemma parse_sec_frac (rest : list Chunk) (f : Fields) (s : Z) (v : string) :
  0 <= s < 60 ->
  has_fraction v = true -> is_frac (nextStd rest) = false ->
  parse_chunk stdZeroSecond rest f (wire2 s v)
  = match parseNanoseconds v (S (span_digits (drop_str 1 v))) with
    | Some ns =>
        Some (mkFields (f_year f) (f_month f) (f_day f) (f_hour f) (f_min f) s ns
                (f_utc f) (f_zoneOffset f),
              drop_str (S (span_digits (drop_str 1 v))) v)
    | None => None
    end.
Proof.
  intros Hs Hf Hn. unfold parse_chunk. rewrite getnum_wire2 by lia.
  destruct (Z.ltb_spec s 0); [lia|]. destruct (Z.leb_spec 60 s); [lia|]. cbn [orb].
  rewrite Hf, Hn. reflexivity.
Qed.

Lemma format_zone_wire (off : Z) :
  off <> 0 -> zone_ok off ->
  format_zone off
  = String (if off <? 0 then "-"%char else "+"%char)
      (wire2 (Z.abs off / 3600) (String ":" (wire2 (Z.abs off / 60 mod 60) EmptyString))).
Proof.
  intros N [M R]. unfold format_zone.
  destruct (Z.eqb_spec off 0); [contradiction|].
  assert (E : Z.quot off 60 = off / 60).
  { assert (X : off = off / 60 * 60) by (Z.to_euclidean_division_equations; lia).
    rewrite X at 1. apply Z.quot_mul. lia. }
  assert (Q : Z.abs (Z.quot off 60) = Z.abs off / 60).
  { rewrite E. Z.to_euclidean_division_equations. lia. }
  assert (S : (Z.quot off 60 <? 0) = (off <? 0)).
  { rewrite E. destruct (Z.ltb_spec off 0); [apply Z.ltb_lt | apply Z.ltb_ge];
      Z.to_euclidean_division_equations; lia. }
  rewrite Q, S.
  assert (HH : Z.abs off / 60 / 60 = Z.abs off / 3600)
    by (rewrite Z.div_div by lia; reflexivity).
  rewrite HH.
  rewrite (appendInt_2 (Z.abs off / 3600))
    by (Z.to_euclidean_division_equations; lia).
  rewrite (appendInt_2 (Z.abs off / 60 mod 60))
    by (Z.to_euclidean_division_equations; lia).
  unfold wire2. destruct (off <? 0); reflexivity.
Qed.

Lemma parse_zone (rest : list Chunk) (f : Fields) (off : Z) :
  off <> 0 -> zone_ok off ->
  parse_chunk stdISO8601ColonTZ rest f (format_zone off)
  = Some (mkFields (f_year f) (f_month f) (f_day f) (f_hour f) (f_min f) (f_sec f)
            (f_nsec f) (f_utc f) off, EmptyString).
Proof.
  intros N Z. rewrite format_zone_wire by assumption. destruct Z as [M R].
  assert (H1 : 0 <= Z.abs off / 3600 < 100) by (Z.to_euclidean_division_equations; lia).
  assert (H2 : 0 <= Z.abs off / 60 mod 60 < 100) by (Z.to_euclidean_division_equations; lia).
  assert (V : (Z.abs off / 3600 * 60 + Z.abs off / 60 mod 60) * 60 = Z.abs off)
    by (Z.to_euclidean_division_equations; lia).
  assert (G1 : forall v, getnum (String (digit_char (Z.abs off / 3600 / 10))
                                  (String (digit_char ((Z.abs off / 3600) mod 10)) v)) true
                         = Some (Z.abs off / 3600, v))
    by (intros v; apply (getnum_wire2 _ v true H1)).
  assert (G2 : forall v, getnum (String (digit_char (Z.abs off / 60 mod 60 / 10))
                                  (String (digit_char ((Z.abs off / 60 mod 60) mod 10)) v)) true
                         = Some (Z.abs off / 60 mod 60, v))
    by (intros v; apply (getnum_wire2 _ v true H2)).
  destruct (Z.ltb_spec off 0) as [L|L]; unfold wire2, parse_chunk;
    cbn [String.length Nat.ltb Nat.leb String.get take_str drop_str];
    rewrite G1, G2;
    (destruct (Z.ltb_spec 24 (Z.abs off / 3600));
       [exfalso; Z.to_euclidean_division_equations; lia|]);
    (destruct (Z.ltb_spec 60 (Z.abs off / 60 mod 60));
       [exfalso; Z.to_euclidean_division_equations; lia|]);
    cbn [orb]; rewrite V; do 3 f_equal; lia.
Qed.

Lemma has_fraction_zone (off : Z) : zone_ok off -> has_fraction (format_zone off) = false.
Proof.
  intros Z. destruct (Z.eq_dec off 0) as [->|N]; [reflexivity|].
  rewrite format_zone_wire by assumption. now destruct (off <? 0).
Qed.

(** The fractional second. *)
Lemma appendNano_cases (ns : Z) :
  0 <= ns < 1000000000 ->
  (appendNano ns 6 = EmptyString /\ ns / 1000 = 0)
  \/ exists c r,
       appendNano ns 6 = String "." (String c r)
       /\ all_digits (String c r) = true
       /\ (String.length (String c r) <= 6)%nat
       /\ digits_val 0 (String c r) * 10 ^ Z.of_nat (6 - String.length (String c r))
          = ns / 1000.
Proof.
  intros H. unfold appendNano. cbn [Nat.eqb orb].
  assert (D : take_str 6 (appendInt ns 9) = fixed_digits 6 (ns / 1000)).
  { rewrite appendInt_fixed by (simpl; lia).
    exact (take_fixed_digits 6 3 ns ltac:(lia)). }
  assert (R : 0 <= ns / 1000 < 1000000) by (Z.to_euclidean_division_equations; lia).
  assert (V : digits_val 0 (fixed_digits 6 (ns / 1000)) = ns / 1000).
  { rewrite digits_val_fixed by lia. simpl. rewrite Z.mod_small; lia. }
  pose proof (all_digits_fixed 6 (ns / 1000)) as A.
  pose proof (fixed_digits_length 6 (ns / 1000)) as Len.
  destruct (Z.eqb_spec ns 0) as [->|N].
  { left. split; reflexivity. }
  rewrite D.
  destruct (trim_zeros_spec _ A) as (A' & L' & V').
  destruct (trim_zeros (fixed_digits 6 (ns / 1000))) as [|c r] eqn:T.
  - left. split; [reflexivity|].
    pose proof (trim_zeros_nil_val _ 0 A T) as W. rewrite V in W. lia.
  - right. exists c, r. split; [reflexivity|]. split; [exact A'|].
    rewrite Len in *. split; [exact L'|]. rewrite V', V. reflexivity.
Qed.

Lemma digits_val_nonneg (s : string) (acc : Z) :
  all_digits s = true -> 0 <= acc -> 0 <= digits_val acc s.
Proof.
  revert acc. induction s as [|c s IH]; intros acc A H; simpl in *; [exact H|].
  apply andb_true_iff in A as [Ac As]. apply IH; [exact As|].
  assert (0 <= digit_val c).
  { unfold is_digit, digit_val in *. apply andb_true_iff in Ac as [A1 _].
    apply Nat.leb_le in A1. lia. }
  lia.
Qed.

(** Reading a fraction of up to nine digits that ends the value. *)
Lemma parse_fraction (c : ascii) (r : string) :
  all_digits (String c r) = true -> (String.length (String c r) <= 9)%nat ->
  let v := String "." (String c r) in
  has_fraction v = true
  /\ parseNanoseconds v (S (span_digits (drop_str 1 v)))
     = Some (digits_val 0 (String c r) * 10 ^ Z.of_nat (9 - String.length (String c r)))
  /\ drop_str (S (span_digits (drop_str 1 v))) v = EmptyString.
Proof.
  intros A L. cbv zeta.
  assert (Ac : is_digit c = true) by (simpl in A; now apply andb_true_iff in A as [? _]).
  cbn [drop_str]. rewrite (span_digits_all _ A).
  split; [|split].
  - simpl. exact Ac.
  - unfold parseNanoseconds. cbn [commaOrPeriod Ascii.eqb orb].
    replace (Nat.min (S (String.length (String c r))) 10)
      with (S (String.length (String c r))) by lia.
    cbn [take_str drop_str]. rewrite take_str_all.
    rewrite (atoi_digits c r Ac), (leadingInt_digits _ 0 A).
    pose proof (digits_val_nonneg _ 0 A ltac:(lia)) as NN.
    destruct (Z.ltb_spec (digits_val 0 (String c r)) 0); [lia|].
    change (commaOrPeriod ".") with true. cbv iota.
    do 3 f_equal.
  - cbn [drop_str]. apply drop_str_all.
Qed.

(** ** The four layouts *)

Lemma valid_date_ranges (y m d : Z) :
  valid_date y m d = true -> 1 <= m <= 12 /\ 1 <= d <= daysIn m y /\ d < 100.
Proof.
  unfold valid_date. intros H.
  apply andb_true_iff in H as [H H4]. apply andb_true_iff in H as [H H3].
  apply andb_true_iff in H as [H1 H2].
  apply Z.leb_le in H1, H2, H3, H4.
  assert (daysIn m y <= 31).
  { unfold daysIn. destruct (m =? 2); [destruct (isLeap y); lia|].
    destruct (_ || _); lia. }
  lia.
Qed.

Lemma civil_of_spec (tz : Z -> Z) (t : Time) :
  wall_ok tz t ->
  let c := civil_of tz t in
  let off := zone_offset tz (loc t) (Unix t) in
  civil_ok c /\ c_offset c = off /\ c_nsec c = Nanosecond t
  /\ date_utc (c_year c) (c_month c) (c_day c) (c_hour c) (c_min c) (c_sec c) 0
     = (Unix t + off) * 1000000000.
Proof.
  unfold wall_ok. intros W. cbv zeta. unfold civil_of.
  set (off := zone_offset tz (loc t) (Unix t)) in *.
  set (a := Unix t + off) in *.
  pose proof (civil_from_days_inverse (a / 86400)) as I.
  pose proof (civil_from_days_year (a / 86400)) as Y.
  destruct (civil_from_days (a / 86400)) as [[y m] d]. cbn [fst] in Y.
  destruct I as [V D]. cbn [c_year c_month c_day c_hour c_min c_sec c_nsec c_offset].
  assert (R : -719528 <= a / 86400 < 2932897) by (Z.to_euclidean_division_equations; lia).
  specialize (Y R).
  split; [|split; [reflexivity|split; [reflexivity|]]].
  - unfold civil_ok. cbn [c_year c_month c_day c_hour c_min c_sec c_nsec].
    split; [lia|]. split; [exact V|].
    unfold Nanosecond.
    repeat split; Z.to_euclidean_division_equations; lia.
  - unfold date_utc. rewrite D. Z.to_euclidean_division_equations. lia.
Qed.

Lemma layouts_datetime :
  RFC3339 = datetime "T" [stdISO8601ColonTZ]
  /\ layoutISOMicro = datetime "T" [stdFracSecond9 6]
  /\ layoutISO = datetime "T" []
  /\ layoutDateTime = datetime " " [].
Proof. repeat split. Qed.

Lemma format_datetime (c : Civil) (sep : ascii) (rest : list Chunk) :
  civil_ok c ->
  format_chunks c (datetime (str1 sep) rest) = written c sep (format_chunks c rest).
Proof.
  intros (Hy & V & Hh & Hmi & Hs & _).
  destruct (valid_date_ranges _ _ _ V) as (Hm & Hd & Hd').
  unfold datetime, written. cbn [format_chunks format_chunk].
  rewrite appendInt_4_app by lia.
  cbn [String.append str1].
  rewrite !appendInt_2_app by lia. reflexivity.
Qed.

Lemma parse_written_T (c : Civil) (rest : list Chunk) (f : Fields) (tail : string) :
  civil_ok c ->
  parse_chunks (datetime "T" rest) f (written c "T" tail)
  = parse_chunks (stdZeroSecond :: rest) (fields_of c f) (wire2 (c_sec c) tail).
Proof.
  intros (Hy & V & Hh & Hmi & Hs & _).
  destruct (valid_date_ranges _ _ _ V) as (Hm & Hd & Hd').
  unfold datetime, written.
  rewrite parse_date by lia.
  rewrite parse_chunks_cons, parse_lit_T.
  rewrite parse_hour_min by lia. reflexivity.
Qed.

Lemma parse_written_space (c : Civil) (rest : list Chunk) (f : Fields) (tail : string) :
  civil_ok c ->
  parse_chunks (datetime " " rest) f (written c " " tail)
  = parse_chunks (stdZeroSecond :: rest) (fields_of c f) (wire2 (c_sec c) tail).
Proof.
  intros (Hy & V & Hh & Hmi & Hs & _).
  destruct (valid_date_ranges _ _ _ V) as (Hm & Hd & Hd').
  unfold datetime, written.
  rewrite parse_date by lia.
  rewrite parse_chunks_cons, parse_lit_space by lia.
  rewrite parse_hour_min by lia. reflexivity.
Qed.

(** A value written with a space does not parse with a layout that
    wants a T. *)
Lemma parse_written_mismatch (c : Civil) (rest : list Chunk) (f : Fields) (tail : string) :
  civil_ok c ->
  parse_chunks (datetime "T" rest) f (written c " " tail) = None.
Proof.
  intros (Hy & V & Hh & Hmi & Hs & _).
  destruct (valid_date_ranges _ _ _ V) as (Hm & Hd & Hd').
  unfold datetime, written.
  rewrite parse_date by lia.
  rewrite parse_chunks_cons, parse_lit_T_space. reflexivity.
Qed.

(** The end of the parse for fields that came from a civil time. *)
Lemma parse_finish_civil (tz : Z -> Z) (c : Civil) (ns : Z) (utc : bool) (zo : Z) :
  civil_ok c ->
  parse_finish tz (mkFields (c_year c) (c_month c) (c_day c) (c_hour c) (c_min c)
                     (c_sec c) ns utc zo)
  = let wall := date_utc (c_year c) (c_month c) (c_day c) (c_hour c) (c_min c)
                  (c_sec c) 0 + ns in
    if utc then Some (mkTime wall UTC)
    else if negb (zo =? -1) then
      if tz ((wall - zo * 1000000000) / 1000000000) =? zo
      then Some (mkTime (wall - zo * 1000000000) Local)
      else Some (mkTime (wall - zo * 1000000000) (FixedZone zo))
    else Some (mkTime wall UTC).
Proof.
  intros (Hy & V & _).
  destruct (valid_date_ranges _ _ _ V) as (Hm & Hd & Hd').
  unfold parse_finish. cbn [f_year f_month f_day f_hour f_min f_sec f_nsec f_utc f_zoneOffset].
  destruct (Z.ltb_spec (c_month c) 0); [lia|].
  destruct (Z.ltb_spec (c_day c) 0); [lia|].
  destruct (Z.ltb_spec (c_day c) 1); [lia|].
  destruct (Z.ltb_spec (daysIn (c_month c) (c_year c)) (c_day c)); [lia|].
  cbn [orb]. unfold date_utc.
  replace ((days_from_civil (c_year c) (c_month c) (c_day c) * 86400 + c_hour c * 3600 +
            c_min c * 60 + c_sec c) * 1000000000 + 0 + ns)
    with ((days_from_civil (c_year c) (c_month c) (c_day c) * 86400 + c_hour c * 3600 +
           c_min c * 60 + c_sec c) * 1000000000 + ns) by lia.
  reflexivity.
Qed.

Ltac proj_fields :=
  cbn [f_year f_month f_day f_hour f_min f_sec f_nsec f_utc f_zoneOffset].

Section LayoutFacts.

Variable tz : Z -> Z.
Variable t : Time.
Hypothesis W : wall_ok tz t.

Let c := civil_of tz t.
Let off := zone_offset tz (loc t) (Unix t).

Let C : civil_ok c := proj1 (civil_of_spec tz t W).
Let Coff : c_offset c = off := proj1 (proj2 (civil_of_spec tz t W)).
Let Cns : c_nsec c = Nanosecond t := proj1 (proj2 (proj2 (civil_of_spec tz t W))).
Let Cwall :
  date_utc (c_year c) (c_month c) (c_day c) (c_hour c) (c_min c) (c_sec c) 0
  = (Unix t + off) * 1000000000 := proj2 (proj2 (proj2 (civil_of_spec tz t W))).

Lemma Format_written (sep : ascii) (rest : list Chunk) :
  Format tz t (datetime (str1 sep) rest) = written c sep (format_chunks c rest).
Proof. unfold Format. now apply format_datetime. Qed.

(** The canonical layout reads back what it wrote: the same instant, to
    the second, at the same offset. *)
Lemma Parse_RFC3339_Format :
  zone_ok off ->
  Parse tz RFC3339 (Format tz t RFC3339)
  = Some (mkTime (Unix t * 1000000000) (parsedLoc tz off (Unix t))).
Proof.
  intros Z.
  change RFC3339 with (datetime (str1 "T") [stdISO8601ColonTZ]).
  rewrite Format_written. unfold Parse.
  change (datetime (str1 "T") [stdISO8601ColonTZ]) with (datetime "T" [stdISO8601ColonTZ]).
  rewrite (parse_written_T c _ _ _ C).
  cbn [format_chunks format_chunk]. rewrite append_nil_r, Coff.
  destruct C as (_ & _ & _ & _ & Hs & _).
  rewrite parse_chunks_cons, parse_sec_plain;
    [| exact Hs | now rewrite has_fraction_zone].
  rewrite parse_chunks_cons. unfold fields_of, fields0.
  cbn [f_year f_month f_day f_hour f_min f_sec f_nsec f_utc f_zoneOffset].
  unfold parsedLoc.
  destruct (Z.eqb_spec off 0) as [E|N].
  - rewrite E. cbn [format_zone Z.eqb parse_chunk parse_chunks]. proj_fields.
    rewrite (parse_finish_civil tz c 0 true (-1) C). cbv zeta. cbv iota.
    rewrite Cwall, E. do 2 f_equal. lia.
  - rewrite (parse_zone _ _ off N Z).
    cbn [f_year f_month f_day f_hour f_min f_sec f_nsec f_utc f_zoneOffset parse_chunks].
    rewrite (parse_finish_civil tz c 0 false off C). cbv zeta. cbv iota.
    rewrite Cwall.
    destruct Z as [M R].
    destruct (Z.eqb_spec off (-1)) as [E1|_]; [rewrite E1 in M; discriminate M|].
    cbn [negb].
    replace ((Unix t + off) * 1000000000 + 0 - off * 1000000000)
      with (Unix t * 1000000000) by lia.
    rewrite Z.div_mul by lia. destruct (tz (Unix t) =? off); reflexivity.
Qed.

(** The layout without a zone reads what it wrote as a wall clock in
    UTC. *)
Lemma Parse_plain_T (rest : list Chunk) :
  rest = [] \/ rest = [stdFracSecond9 6] ->
  Parse tz (datetime "T" rest) (Format tz t layoutISO)
  = Some (mkTime ((Unix t + off) * 1000000000) UTC).
Proof.
  intros Hr.
  change layoutISO with (datetime (str1 "T") []).
  rewrite Format_written. unfold Parse.
  rewrite (parse_written_T c _ _ _ C).
  cbn [format_chunks].
  destruct C as (_ & _ & _ & _ & Hs & _).
  rewrite parse_chunks_cons, parse_sec_plain; [| exact Hs | reflexivity].
  assert (E : parse_chunks rest
                (mkFields (f_year (fields_of c fields0)) (f_month (fields_of c fields0))
                   (f_day (fields_of c fields0)) (f_hour (fields_of c fields0))
                   (f_min (fields_of c fields0)) (c_sec c) (f_nsec (fields_of c fields0))
                   (f_utc (fields_of c fields0)) (f_zoneOffset (fields_of c fields0)))
                EmptyString
              = Some (mkFields (c_year c) (c_month c) (c_day c) (c_hour c) (c_min c)
                        (c_sec c) 0 false (-1))).
  { destruct Hr as [-> | ->]; reflexivity. }
  rewrite E, (parse_finish_civil tz c 0 false (-1) C). cbv zeta. cbv iota.
  rewrite Cwall. cbn [negb Z.eqb]. do 2 f_equal. lia.
Qed.

Lemma Parse_ISO_Format :
  Parse tz layoutISO (Format tz t layoutISO)
  = Some (mkTime ((Unix t + off) * 1000000000) UTC).
Proof. apply (Parse_plain_T []). now left. Qed.

Lemma Parse_ISOMicro_Format_ISO :
  Parse tz layoutISOMicro (Format tz t layoutISO)
  = Some (mkTime ((Unix t + off) * 1000000000) UTC).
Proof. apply (Parse_plain_T [stdFracSecond9 6]). now right. Qed.

Lemma Parse_DateTime_Format :
  Parse tz layoutDateTime (Format tz t layoutDateTime)
  = Some (mkTime ((Unix t + off) * 1000000000) UTC).
Proof.
  change layoutDateTime with (datetime (str1 " ") []).
  rewrite Format_written. unfold Parse.
  change (datetime (str1 " ") []) with (datetime " " []).
  rewrite (parse_written_space c _ _ _ C).
  cbn [format_chunks].
  destruct C as (_ & _ & _ & _ & Hs & _).
  rewrite parse_chunks_cons, parse_sec_plain; [| exact Hs | reflexivity].
  cbn [parse_chunks]. unfold fields_of, fields0.
  cbn [f_year f_month f_day f_hour f_min f_sec f_nsec f_utc f_zoneOffset].
  rewrite (parse_finish_civil tz c 0 false (-1) C). cbv zeta. cbv iota.
  rewrite Cwall. cbn [negb Z.eqb]. do 2 f_equal. lia.
Qed.

(** The layout with a fractional second reads what it wrote: the wall
    clock in UTC, to the microsecond. *)
Lemma Parse_ISOMicro_Format :
  Parse tz layoutISOMicro (Format tz t layoutISOMicro)
  = Some (mkTime ((Unix t + off) * 1000000000 + Nanosecond t / 1000 * 1000) UTC).
Proof.
  change layoutISOMicro with (datetime (str1 "T") [stdFracSecond9 6]).
  rewrite Format_written. unfold Parse.
  change (datetime (str1 "T") [stdFracSecond9 6]) with (datetime "T" [stdFracSecond9 6]).
  rewrite (parse_written_T c _ _ _ C).
  cbn [format_chunks format_chunk]. rewrite append_nil_r, Cns.
  destruct C as (_ & _ & _ & _ & Hs & Hn). rewrite Cns in Hn.
  rewrite parse_chunks_cons, parse_sec_plain;
    [| exact Hs | cbn [nextStd is_frac negb]; apply andb_false_r].
  rewrite parse_chunks_cons. unfold fields_of, fields0.
  cbn [f_year f_month f_day f_hour f_min f_sec f_nsec f_utc f_zoneOffset].
  destruct (appendNano_cases (Nanosecond t) Hn) as [[E Z0] | (d & r & E & A & L & V)].
  - rewrite E. cbn [parse_chunk has_fraction parse_chunks]. proj_fields.
    rewrite (parse_finish_civil tz c 0 false (-1) C). cbv zeta. cbv iota.
    rewrite Cwall, Z0. cbn [negb Z.eqb]. do 2 f_equal.
  - rewrite E.
    destruct (parse_fraction d r A ltac:(lia)) as (F1 & F2 & F3). cbv zeta in *.
    unfold parse_chunk. rewrite F1, F2, F3. cbn [parse_chunks]. proj_fields.
    rewrite (parse_finish_civil tz c _ false (-1) C). cbv zeta. cbv iota.
    rewrite Cwall. cbn [negb Z.eqb]. do 3 f_equal.
    rewrite <- V.
    replace (Z.of_nat (9 - String.length (String d r)))
      with (Z.of_nat (6 - String.length (String d r)) + 3) by lia.
    rewrite Z.pow_add_r by lia. change (10 ^ 3) with 1000. lia.
Qed.

(** None of the three zoneless texts parses with the canonical layout:
    it finds no zone at their end. *)
Lemma Parse_RFC3339_zoneless (tail : string) :
  tail = EmptyString \/ tail = appendNano (Nanosecond t) 6 ->
  parse_chunks RFC3339 fields0 (written c "T" tail) = None.
Proof.
  intros Ht.
  change RFC3339 with (datetime "T" [stdISO8601ColonTZ]).
  rewrite (parse_written_T c _ _ _ C).
  destruct C as (_ & _ & _ & _ & Hs & Hn). rewrite Cns in Hn.
  rewrite parse_chunks_cons.
  assert (Plain : parse_chunks [stdISO8601ColonTZ]
                    (mkFields (f_year (fields_of c fields0)) (f_month (fields_of c fields0))
                       (f_day (fields_of c fields0)) (f_hour (fields_of c fields0))
                       (f_min (fields_of c fields0)) (c_sec c)
                       (f_nsec (fields_of c fields0)) (f_utc (fields_of c fields0))
                       (f_zoneOffset (fields_of c fields0))) EmptyString = None)
    by reflexivity.
  destruct Ht as [-> | ->].
  - rewrite parse_sec_plain; [exact Plain | exact Hs | reflexivity].
  - destruct (appendNano_cases (Nanosecond t) Hn) as [[E Z0] | (d & r & E & A & L & V)].
    + rewrite E, parse_sec_plain; [exact Plain | exact Hs | reflexivity].
    + rewrite E.
      destruct (parse_fraction d r A ltac:(lia)) as (F1 & F2 & F3). cbv zeta in *.
      rewrite parse_sec_frac; [| exact Hs | exact F1 | reflexivity].
      rewrite F2, F3. reflexivity.
Qed.

Lemma Parse_RFC3339_Format_ISO : Parse tz RFC3339 (Format tz t layoutISO) = None.
Proof.
  change layoutISO with (datetime (str1 "T") []).
  rewrite Format_written. unfold Parse. cbn [format_chunks].
  rewrite Parse_RFC3339_zoneless; [reflexivity | now left].
Qed.

Lemma Parse_RFC3339_Format_ISOMicro : Parse tz RFC3339 (Format tz t layoutISOMicro) = None.
Proof.
  change layoutISOMicro with (datetime (str1 "T") [stdFracSecond9 6]).
  rewrite Format_written. unfold Parse. cbn [format_chunks format_chunk].
  rewrite append_nil_r, Cns.
  rewrite Parse_RFC3339_zoneless; [reflexivity | now right].
Qed.

Lemma Parse_T_Format_DateTime (rest : list Chunk) :
  Parse tz (datetime "T" rest) (Format tz t layoutDateTime) = None.
Proof.
  change layoutDateTime with (datetime (str1 " ") []).
  rewrite Format_written. unfold Parse.
  now rewrite (parse_written_mismatch c _ _ _ C).
Qed.

(** The chain of [getLastRunTime] on the four kinds of text. *)
Lemma parseLastRunTime_formats :
  (zone_ok off ->
   parseLastRunTime tz (Format tz t RFC3339)
   = Some (mkTime (Unix t * 1000000000) (parsedLoc tz off (Unix t))))
  /\ parseLastRunTime tz (Format tz t layoutISOMicro)
     = Some (mkTime ((Unix t + off) * 1000000000 + Nanosecond t / 1000 * 1000) UTC)
  /\ parseLastRunTime tz (Format tz t layoutISO)
     = Some (mkTime ((Unix t + off) * 1000000000) UTC)
  /\ parseLastRunTime tz (Format tz t layoutDateTime)
     = Some (mkTime ((Unix t + off) * 1000000000) UTC).
Proof.
  unfold parseLastRunTime. split; [|split; [|split]].
  - intros Z. now rewrite (Parse_RFC3339_Format Z).
  - now rewrite Parse_RFC3339_Format_ISOMicro, Parse_ISOMicro_Format.
  - now rewrite Parse_RFC3339_Format_ISO, Parse_ISOMicro_Format_ISO.
  - change RFC3339 with (datetime "T" [stdISO8601ColonTZ]).
    change layoutISOMicro with (datetime "T" [stdFracSecond9 6]).
    change layoutISO with (datetime "T" []) at 1.
    rewrite !Parse_T_Format_DateTime. apply Parse_DateTime_Format.
Qed.

End LayoutFacts.

(** ** The state file written and read back *)

(** C4. For a run-start time whose wall clock lies in the years 0000 to
    9999 and whose zone offset is a whole number of minutes within a
    day: what [saveLastRunTime] writes, [getLastRunTime] reads back, by
    the first of its four layouts, as the same instant to the second at
    the same offset (given that the write and the read themselves
    succeed).  Each of the other three layouts parses, on its own and
    through the chain of [getLastRunTime], a text written in that
    layout, as the wall clock in UTC (to the microsecond for the layout
    with a fractional second); the canonical layout rejects these three
    texts, so that they do reach the later layouts. *)
Theorem state_timestamp_round_trip (env : Env) (w : Config) (t : Time) (st : State) :
  wall_ok (env_tz env) t ->
  zone_ok (zone_offset (env_tz env) (loc t) (Unix t)) ->
  let tz := env_tz env in
  let off := zone_offset tz (loc t) (Unix t) in
  let canonical := mkTime (Unix t * 1000000000) (parsedLoc tz off (Unix t)) in
  let wall ns := mkTime ((Unix t + off) * 1000000000 + ns) UTC in
  (env_io_ok env (length (trace st)) = true ->
   env_io_ok env (S (length (trace st))) = true ->
   (getLastRunTime env w (saveLastRunTime env w t st).2).1 = Some canonical)
  /\ Parse tz RFC3339 (Format tz t RFC3339) = Some canonical
  /\ parseLastRunTime tz (Format tz t RFC3339) = Some canonical
  /\ Unix canonical = Unix t
  /\ zone_offset tz (loc canonical) (Unix canonical) = off
  /\ Parse tz layoutISOMicro (Format tz t layoutISOMicro)
     = Some (wall (Nanosecond t / 1000 * 1000))
  /\ Parse tz layoutISO (Format tz t layoutISO) = Some (wall 0)
  /\ Parse tz layoutDateTime (Format tz t layoutDateTime) = Some (wall 0)
  /\ parseLastRunTime tz (Format tz t layoutISOMicro)
     = Some (wall (Nanosecond t / 1000 * 1000))
  /\ parseLastRunTime tz (Format tz t layoutISO) = Some (wall 0)
  /\ parseLastRunTime tz (Format tz t layoutDateTime) = Some (wall 0)
  /\ Parse tz RFC3339 (Format tz t layoutISOMicro) = None
  /\ Parse tz RFC3339 (Format tz t layoutISO) = None
  /\ Parse tz RFC3339 (Format tz t layoutDateTime) = None.
Proof.
  intros W Z. cbv zeta.
  destruct (parseLastRunTime_formats (env_tz env) t W) as (C1 & C2 & C3 & C4).
  assert (U : Unix (mkTime (Unix t * 1000000000)
                      (parsedLoc (env_tz env) (zone_offset (env_tz env) (loc t) (Unix t))
                         (Unix t))) = Unix t).
  { unfold Unix at 1. cbn [unixNano]. apply Z.div_mul. lia. }
  repeat apply conj.
  - intros Io1 Io2.
    destruct (saveLastRunTime_run env w t st) as (T & _ & F). cbv zeta in *.
    rewrite Io1 in F. rewrite getLastRunTime_run. cbn [fst].
    rewrite F, T, lookup_insert_eq. cbn [length]. rewrite Io2.
    unfold storedLastRun. cbn [negb]. rewrite decode_marshal_LastRunInfo.
    cbn [LastRunTime]. exact (C1 Z).
  - exact (Parse_RFC3339_Format _ _ W Z).
  - exact (C1 Z).
  - exact U.
  - rewrite U. cbn [loc]. unfold parsedLoc.
    destruct (Z.eqb_spec (zone_offset (env_tz env) (loc t) (Unix t)) 0) as [E|N].
    + now rewrite E.
    + destruct (Z.eqb_spec (env_tz env (Unix t)) (zone_offset (env_tz env) (loc t) (Unix t)))
        as [E|N']; [exact E | reflexivity].
  - exact (Parse_ISOMicro_Format _ _ W).
  - rewrite Z.add_0_r. exact (Parse_ISO_Format _ _ W).
  - rewrite Z.add_0_r. exact (Parse_DateTime_Format _ _ W).
  - exact C2.
  - rewrite Z.add_0_r. exact C3.
  - rewrite Z.add_0_r. exact C4.
  - exact (Parse_RFC3339_Format_ISOMicro _ _ W).
  - exact (Parse_RFC3339_Format_ISO _ _ W).
  - exact (Parse_T_Format_DateTime _ _ W [stdISO8601ColonTZ]).
Qed.

Lemma state_timestamp_round_trip_witness :
  let t := mkTime 1718000000123456789 Local in
  (getLastRunTime (env_up true true) cfg_demo
     (saveLastRunTime (env_up true true) cfg_demo t (startState ∅)).2).1
  = Some (mkTime 1718000000000000000 Local)
  /\ Parse (fun _ => 28800) layoutISOMicro "2024-06-10T14:13:20.123456"
     = Some (mkTime 1718028800123456000 UTC).
Proof.
  intros t.
  assert (W : wall_ok (env_tz (env_up true true)) t)
    by (vm_compute; split; [discriminate | reflexivity]).
  assert (Z : zone_ok (zone_offset (env_tz (env_up true true)) (loc t) (Unix t)))
    by (vm_compute; repeat split; discriminate).
  pose proof (state_timestamp_round_trip (env_up true true) cfg_demo t (startState ∅) W Z)
    as (H1 & _ & _ & _ & _ & H6 & _).
  split.
  - exact (H1 eq_refl eq_refl).
  - exact H6.
Defined.

(* ================================================================== *)
(** * Part III. Further properties of the code *)
(* ================================================================== *)

(** ** The configuration made by [NewWAFCollector] *)

Lemma has_byte_app (c : ascii) (a b : string) :
  has_byte c (a +:+ b) <-> has_byte c a \/ has_byte c b.
Proof.
  unfold has_byte. induction a as [|x a IH]; simpl; [tauto|]. rewrite IH. tauto.
Qed.

Lemma has_byte_dec (c : ascii) (s : string) : has_byte c s \/ ~ has_byte c s.
Proof.
  destruct (Contains s (str1 c)) eqn:E;
    [left; now apply Contains_byte | right; now apply Contains_byte_false].
Qed.

Lemma append_inv_l (p a b : string) : p +:+ a = p +:+ b -> a = b.
Proof. induction p as [|x p IH]; simpl; [auto|]. intros H. injection H. auto. Qed.

Lemma append_inv_r (a b s : string) : a +:+ s = b +:+ s -> a = b.
Proof.
  revert b. induction a as [|x a IH]; intros [|y b] H; simpl in H.
  - reflexivity.
  - exfalso. assert (L : String.length s = String.length (String y (b +:+ s))) by now rewrite <- H.
    simpl in L. rewrite length_append in L. lia.
  - exfalso. assert (L : String.length (String x (a +:+ s)) = String.length s) by now rewrite H.
    simpl in L. rewrite length_append in L. lia.
  - injection H as -> H. f_equal. now apply IH.
Qed.

(** Replacing every slash by an underscore leaves no slash, keeps the
    length, and changes nothing in a string without a slash. *)
Lemma safeHost_no_slash (h : string) : ~ has_byte "/" (ReplaceAll h "/" "_").
Proof.
  change "/" with (str1 "/"). rewrite ReplaceAll_byte.
  unfold has_byte. induction h as [|c h IH]; simpl; [tauto|].
  destruct (Ascii.eqb c "/") eqn:E; simpl.
  - intros [H|H]; [discriminate | tauto].
  - apply Ascii.eqb_neq in E. intros [H|H]; [congruence | tauto].
Qed.

Lemma safeHost_length (h : string) :
  String.length (ReplaceAll h "/" "_") = String.length h.
Proof.
  change "/" with (str1 "/"). rewrite ReplaceAll_byte.
  induction h as [|c h IH]; simpl; [reflexivity|].
  destruct (Ascii.eqb c "/"); simpl; now rewrite IH.
Qed.

Lemma safeHost_id (h : string) : ~ has_byte "/" h -> ReplaceAll h "/" "_" = h.
Proof.
  change "/" with (str1 "/"). rewrite ReplaceAll_byte.
  unfold has_byte. induction h as [|c h IH]; simpl; [reflexivity|].
  intros H. destruct (Ascii.eqb c "/") eqn:E.
  - apply Ascii.eqb_eq in E. subst. tauto.
  - simpl. rewrite IH by tauto. reflexivity.
Qed.

(** X1. The state file of a collector lies directly in /tmp: its path is
    /tmp/ followed by a name without any slash, made of
    waf_sender_last_run_, the Zabbix host name with every slash replaced
    by an underscore, and .json; a host name without a slash appears in
    it unchanged. *)
Theorem state_file_in_tmp (wafHost token zabbixServer zabbixHost dataType : string) :
  let w := NewWAFCollector wafHost token zabbixServer zabbixHost dataType in
  let name := "waf_sender_last_run_" +:+ ReplaceAll zabbixHost "/" "_" +:+ ".json" in
  lastRunFile w = "/tmp/" +:+ name
  /\ ~ has_byte "/" name
  /\ String.length name = (25 + String.length zabbixHost)%nat
  /\ (~ has_byte "/" zabbixHost ->
      lastRunFile w = "/tmp/waf_sender_last_run_" +:+ zabbixHost +:+ ".json").
Proof.
  cbv zeta. unfold NewWAFCollector. cbn [lastRunFile].
  split; [reflexivity|]. split; [|split].
  - rewrite !has_byte_app. intros [H|[H|H]].
    + unfold has_byte in H. simpl in H. repeat (destruct H as [H|H]; [discriminate H|]). exact H.
    + now apply safeHost_no_slash in H.
    + unfold has_byte in H. simpl in H. repeat (destruct H as [H|H]; [discriminate H|]). exact H.
  - rewrite !length_append, safeHost_length. simpl. lia.
  - intros H. now rewrite safeHost_id.
Qed.

(** X2. The path of the state file depends on the Zabbix host name only:
    two collectors share it exactly when their host names agree after
    the replacement of slashes by underscores, whatever their WAF
    address, token, server and data type are.  Collectors for one host
    with different data types therefore share one state file, and host
    names without a slash share it only when they are equal. *)
Theorem state_file_shared (wafHost1 token1 server1 host1 dataType1
                           wafHost2 token2 server2 host2 dataType2 : string) :
  let w1 := NewWAFCollector wafHost1 token1 server1 host1 dataType1 in
  let w2 := NewWAFCollector wafHost2 token2 server2 host2 dataType2 in
  (lastRunFile w1 = lastRunFile w2
   <-> ReplaceAll host1 "/" "_" = ReplaceAll host2 "/" "_")
  /\ (host1 = host2 -> lastRunFile w1 = lastRunFile w2)
  /\ (~ has_byte "/" host1 -> ~ has_byte "/" host2 ->
      lastRunFile w1 = lastRunFile w2 -> host1 = host2).
Proof.
  cbv zeta. unfold NewWAFCollector. cbn [lastRunFile].
  assert (I : "/tmp/waf_sender_last_run_" +:+ ReplaceAll host1 "/" "_" +:+ ".json"
              = "/tmp/waf_sender_last_run_" +:+ ReplaceAll host2 "/" "_" +:+ ".json"
              <-> ReplaceAll host1 "/" "_" = ReplaceAll host2 "/" "_").
  { split; [|now intros ->]. intros H.
    apply append_inv_l in H. now apply append_inv_r in H. }
  split; [exact I|]. split.
  - intros ->. reflexivity.
  - intros N1 N2 H. apply I in H. now rewrite !safeHost_id in H.
Qed.

Lemma slashes_snoc (k : nat) : slashes (S k) = slashes k +:+ "/".
Proof. induction k as [|k IH]; [reflexivity|]. simpl in *. now rewrite <- IH. Qed.

Lemma TrimRight_slash_spec (s : string) :
  exists n, s = TrimRight_slash s +:+ slashes n
            /\ (forall r, TrimRight_slash s <> r +:+ "/").
Proof.
  induction s as [|c s (n & E & N)].
  - exists 0%nat. split; [reflexivity|]. intros [|x r]; discriminate.
  - simpl. destruct (TrimRight_slash s) as [|y t] eqn:T.
    + destruct (Ascii.eqb c "/") eqn:Ec.
      * apply Ascii.eqb_eq in Ec. subst c. exists (S n). split.
        -- simpl. simpl in E. now rewrite <- E.
        -- intros [|x r]; discriminate.
      * exists n. split; [simpl; simpl in E; now rewrite <- E|].
        intros [|x [|z r]] H; simpl in H; try discriminate.
        injection H as ->. now rewrite Ascii.eqb_refl in Ec.
    + exists n. split; [simpl in *; now f_equal|].
      intros [|x r] H; simpl in H; [discriminate|].
      injection H as -> H. now apply (N r).
Qed.

(** X3. The WAF address kept by the collector is the given one without
    its trailing slashes, all of them: it does not end in a slash, the
    given address is it followed by slashes only, and trimming it again
    changes nothing. *)
Theorem wafHost_trimmed (wafHost0 token zabbixServer zabbixHost dataType : string) :
  let w := NewWAFCollector wafHost0 token zabbixServer zabbixHost dataType in
  (exists n, wafHost0 = wafHost w +:+ slashes n)
  /\ (forall r, wafHost w <> r +:+ "/")
  /\ wafHost (NewWAFCollector (wafHost w) token zabbixServer zabbixHost dataType) = wafHost w.
Proof.
  cbv zeta. unfold NewWAFCollector. cbn [wafHost].
  destruct (TrimRight_slash_spec wafHost0) as (n & E & N).
  split; [now exists n|]. split; [exact N|].
  destruct (TrimRight_slash_spec (TrimRight_slash wafHost0)) as ([|k] & E' & N').
  - simpl in E'. now rewrite append_nil_r in E'.
  - exfalso. apply (N (TrimRight_slash (TrimRight_slash wafHost0) +:+ slashes k)).
    rewrite E' at 1. rewrite append_assoc. f_equal. apply slashes_snoc.
Qed.

(** ** Requests and the two caches *)

Section RequestFacts.

Variable env : Env.

(** X4. [doRequest] makes one attempt at the exchange and hands its
    caller a response only when the exchange gave status 200, a body
    that is an envelope, and the code SUCCESS in it; a failure to get an
    answer, any other status, any other body and any other code are all
    the same error to the caller. *)
Theorem doRequest_accepts (method path : string) (params : list (string * string))
    (st : State) :
  let o := env_http env (length (trace st)) method path params in
  let r := doRequest env method path params st in
  r.2 = push (EvRequest method path params) st
  /\ (forall resp, r.1 = Some resp <-> o = Reply 200 (Some resp) /\ Code resp = "SUCCESS")
  /\ (r.1 = None <-> o = TransportError
                     \/ (exists status body, o = Reply status body /\ status <> 200)
                     \/ o = Reply 200 None
                     \/ exists resp, o = Reply 200 (Some resp) /\ Code resp <> "SUCCESS").
Proof.
  cbv zeta. unfold doRequest. unbind. unfold emit, ret. cbn [fst snd].
  split; [reflexivity|].
  destruct (env_http env (length (trace st)) method path params) as [|status [resp0|]];
    cbn [checkResponse].
  - split; [intros resp; split; [discriminate | intros [? _]; discriminate]|].
    split; auto.
  - destruct (Z.eqb_spec status 200) as [->|N]; cbn [negb].
    + destruct (String.eqb (Code resp0) "SUCCESS") eqn:E; cbn [negb].
      * apply String.eqb_eq in E. split.
        -- intros resp. split; [intros [= <-]; now split | intros [[= <-] _]; reflexivity].
        -- split; [discriminate|].
           intros [H|[(s & b & [= <- <-] & N)|[H|(r & [= <-] & N)]]];
             try discriminate; contradiction.
      * apply String.eqb_neq in E. split.
        -- intros resp. split; [discriminate | intros [[= <-] C]; contradiction].
        -- split; [|reflexivity]. intros _. right; right; right. now exists resp0.
    + split.
      * intros resp. split; [discriminate | intros [[= -> _] _]; contradiction].
      * split; [|reflexivity]. intros _. right; left. now exists status, (Some resp0).
  - destruct (Z.eqb_spec status 200) as [->|N]; cbn [negb].
    + split; [intros resp; split; [discriminate | intros [? _]; discriminate]|].
      split; auto.
    + split; [intros resp; split; [discriminate | intros [? _]; discriminate]|].
      split; [|reflexivity]. intros _. right; left. now exists status, None.
Qed.

(** X5. After [getDeviceID] the cached identifier is the returned one,
    and the files and the site cache are as before.  Once it has
    returned an identifier that is not empty, every later call, in any
    state with that cache, returns it without any action, whatever the
    appliance would answer then; after an empty result (no answer, or an
    answer without an identifier) the next call asks the appliance
    again. *)
Theorem getDeviceID_cache (st : State) :
  let r := getDeviceID env st in
  cachedDeviceID r.2 = r.1
  /\ files r.2 = files st /\ cachedSites r.2 = cachedSites st
  /\ (r.1 <> EmptyString ->
      forall st', cachedDeviceID st' = r.1 -> getDeviceID env st' = (r.1, st'))
  /\ (r.1 = EmptyString ->
      exists ts, trace (getDeviceID env r.2).2
                 = EvRequest "GET" "/api/v1/device/name/" [("_ts", ts)] :: EvNow :: trace r.2).
Proof.
  cbv zeta.
  assert (C : cachedDeviceID (getDeviceID env st).2 = (getDeviceID env st).1).
  { unfold getDeviceID. rewrite bind_eq. simpl.
    destruct (String.eqb (cachedDeviceID st) EmptyString) eqn:E; simpl; [|reflexivity].
    apply String.eqb_eq in E.
    unfold now, doRequest. rewrite !bind_eq. simpl.
    destruct (checkResponse _) as [resp|]; simpl; [|exact E].
    destruct (decode_string_member _ _); simpl; [reflexivity | exact E]. }
  destruct (quiet_getDeviceID env st) as (F & S & _).
  split; [exact C|]. split; [exact F|]. split; [exact S|]. split.
  - intros N st' E. rewrite <- E. apply getDeviceID_cached. congruence.
  - intros E.
    destruct (getDeviceID_trace env (getDeviceID env st).2) as [H|H]; [|exact H].
    exfalso. revert H. unfold getDeviceID at 1. rewrite bind_eq. simpl.
    rewrite C, E. simpl. unfold now, doRequest. rewrite !bind_eq. simpl.
    destruct (checkResponse _) as [resp|]; simpl.
    + destruct (decode_string_member _ _); simpl; intros H;
        apply (f_equal (@length Event)) in H; simpl in H; lia.
    + intros H. apply (f_equal (@length Event)) in H; simpl in H; lia.
Qed.

(** X6. When the appliance answers the site list query with an array of
    entries, [getSites] decodes all of them or none: if every entry
    decodes, it returns the sites in the order of the array and caches
    exactly that list; if a single entry does not decode (a member of
    the wrong JSON type), it returns no site at all and leaves the cache
    as it was.  Either way it has made one clock reading and one
    request. *)
Theorem getSites_all_or_nothing (st : State) (msg : string) (m : gmap string value)
    (l : list value) :
  let ts := mkTime (env_clock env (length (trace st))) Local in
  let st' := push (EvRequest "GET" "/api/v1/website/site/" (sitesParams ts)) (push EvNow st) in
  env_http env (S (length (trace st))) "GET" "/api/v1/website/site/" (sitesParams ts)
  = Reply 200 (Some (mkAPIResponse "SUCCESS" msg (Some (VMap m)))) ->
  m !! "result" = Some (VSlice l) ->
  (forall sites, Forall2 (fun v s => decode_site v = Some s) l sites ->
     getSites env st = (sites, withSites sites st'))
  /\ (Exists (fun v => decode_site v = None) l -> getSites env st = ([], st')).
Proof.
  cbv zeta. intros H R.
  unfold getSites, now, doRequest. unbind. unfold emit, ret. cbn [fst snd push trace length].
  unfold sitesParams in H. rewrite H. cbn [checkResponse Z.eqb Pos.eqb negb Code].
  change (String.eqb "SUCCESS" "SUCCESS") with true. cbn [negb Data decode_result].
  rewrite R.
  split.
  - intros sites F. apply mapM_Some in F. rewrite F. reflexivity.
  - intros E. apply mapM_None in E. rewrite E. reflexivity.
Qed.

End RequestFacts.

Lemma getSites_all_or_nothing_witness :
  (getSites (env_up true true) (startState ∅)).1
  = [mkSite "s1" "alpha" true "0"; mkSite "s2" "beta" false "c9";
     mkSite "s3" "gamma" true EmptyString].
Proof.
  rewrite (proj1 (getSites_all_or_nothing (env_up true true) (startState ∅) EmptyString
                    {[ "result" := VSlice [site_value "s1" "alpha" true "0";
                                           site_value "s2" "beta" false "c9";
                                           site_value "s3" "gamma" true EmptyString] ]}
                    [site_value "s1" "alpha" true "0";
                     site_value "s2" "beta" false "c9";
                     site_value "s3" "gamma" true EmptyString]
                    eq_refl eq_refl)
             [mkSite "s1" "alpha" true "0"; mkSite "s2" "beta" false "c9";
              mkSite "s3" "gamma" true EmptyString]).
  - reflexivity.
  - repeat constructor.
Defined.

(** ** Valid records and the probe *)

Lemma is_sentinel_iff (v : value) : is_sentinel v = true <-> v = VString "-".
Proof.
  destruct v; simpl; try (split; [discriminate | discriminate]).
  rewrite String.eqb_eq. split; [now intros -> | now intros [= ->]].
Qed.

Lemma validData_lookup (record : gmap string value) :
  validData record = true
  <-> exists k v, record !! k = Some v /\ k <> "timestamp" /\ v <> VString "-".
Proof.
  unfold validData. rewrite existsb_exists. split.
  - intros ([k v] & I & H). apply andb_true_iff in H as [H1 H2].
    apply negb_true_iff in H1, H2. simpl in *.
    exists k, v. split; [|split].
    + apply elem_of_map_to_list. now apply list_elem_of_In.
    + now apply String.eqb_neq.
    + intros E. apply is_sentinel_iff in E. congruence.
  - intros (k & v & L & N & S). exists (k, v). split.
    + apply list_elem_of_In. now apply elem_of_map_to_list.
    + simpl. apply andb_true_iff. split; apply negb_true_iff.
      * now apply String.eqb_neq.
      * destruct (is_sentinel v) eqn:E; [|reflexivity]. apply is_sentinel_iff in E. contradiction.
Qed.

(** X7. Whether a record has valid data does not depend on the order in
    which its members are visited: it has, exactly when some member
    other than timestamp holds something else than the string of a
    single dash (a number, a boolean, null, any other string, an array
    or an object all count); it has not, exactly when every member is
    the timestamp or that string. *)
Theorem validData_iff (record : gmap string value) :
  (validData record = true
   <-> exists k v, record !! k = Some v /\ k <> "timestamp" /\ v <> VString "-")
  /\ (validData record = false
      <-> forall k v, record !! k = Some v -> k = "timestamp" \/ v = VString "-").
Proof.
  split; [apply validData_lookup|].
  split.
  - intros H k v L.
    destruct (decide (k = "timestamp")) as [|N]; [now left|]. right.
    destruct (is_sentinel v) eqn:E; [now apply is_sentinel_iff|].
    exfalso. assert (T : validData record = true).
    { apply validData_lookup. exists k, v. split; [exact L|]. split; [exact N|].
      intros E'. apply is_sentinel_iff in E'. congruence. }
    congruence.
  - intros H. destruct (validData record) eqn:V; [|reflexivity].
    apply validData_lookup in V as (k & v & L & N & S).
    destruct (H k v L); contradiction.
Qed.

Section ProbeFacts.

Variable env : Env.

Lemma tryGetData_run (appID deviceID : string) (st : State) :
  tryGetData env appID deviceID st
  = (match validSamples (probeOutcome env appID deviceID st) with [] => false | _ => true end,
     afterProbe env appID deviceID st).
Proof.
  unfold tryGetData, now, doRequest, validSamples, probeOutcome, afterProbe, probeParams.
  unbind. unfold emit, ret. cbn [fst snd push trace length].
  destruct (checkResponse _) as [resp|]; [|reflexivity].
  destruct (decode_result decode_record (Data resp)) as [result|]; [|reflexivity].
  f_equal. induction result as [|r rs IH]; simpl; [reflexivity|].
  destruct (validData r); simpl; [reflexivity | exact IH].
Qed.

(** X8. [tryGetData] reads the clock and sends one minute-granularity
    traffic query for the site and the identifier, and changes nothing
    else.  It answers true exactly when that query was accepted (status
    200, code SUCCESS), its data decoded, and one of the records has a
    member other than timestamp that is not the single dash; a failed
    request and undecodable data give false like an answer without
    valid data. *)
Theorem tryGetData_true_iff (appID deviceID : string) (st : State) :
  let r := tryGetData env appID deviceID st in
  r.2 = afterProbe env appID deviceID st
  /\ (r.1 = true
      <-> exists resp result record k v,
            checkResponse (probeOutcome env appID deviceID st) = Some resp
            /\ decode_result decode_record (Data resp) = Some result
            /\ In record result
            /\ record !! k = Some v /\ k <> "timestamp" /\ v <> VString "-").
Proof.
  cbv zeta. rewrite tryGetData_run. cbn [fst snd]. split; [reflexivity|].
  unfold validSamples.
  destruct (checkResponse _) as [resp|].
  2:{ split; [discriminate|]. intros (? & ? & ? & ? & ? & H & _). discriminate. }
  destruct (decode_result decode_record (Data resp)) as [result|] eqn:D.
  2:{ split; [discriminate|]. intros (? & ? & ? & ? & ? & [= <-] & H2 & _). congruence. }
  split.
  - intros H. destruct (List.filter validData result) as [|r rs] eqn:F; [discriminate|].
    assert (I : In r (List.filter validData result)) by (rewrite F; now left).
    apply List.filter_In in I as [I V]. apply validData_lookup in V as (k & v & V).
    exists resp, result, r, k, v. auto.
  - intros (resp' & result' & r & k & v & [= <-] & D' & I & V).
    rewrite D in D'. injection D' as <-.
    assert (I' : In r (List.filter validData result)).
    { apply List.filter_In. split; [exact I|]. apply validData_lookup. eauto. }
    destruct (List.filter validData result); [destruct I' | reflexivity].
Qed.

(** ** The resolver's fallback chain *)

Lemma later_refl (st : State) : later st st.
Proof. now exists []. Qed.

Lemma later_trans (a b c : State) : later a b -> later b c -> later a c.
Proof. intros [e1 H1] [e2 H2]. exists (e1 ++ e2). now rewrite H1, H2, app_assoc. Qed.

Lemma quiet_later {A} (m : M A) (Q : list Event -> Prop) (st : State) :
  quiet m Q -> later (m st).2 st.
Proof. intros H. destruct (H st) as (_ & _ & evs & T & _). now exists evs. Qed.

Lemma later_afterProbe (appID id : string) (st : State) :
  later (afterProbe env appID id st) st.
Proof. unfold later, afterProbe, push. cbn [trace]. now eexists [_; _]. Qed.

Lemma probed_later (appID : string) (st0 st : State) (r : option string) (st' : State) :
  later st0 st -> probed env appID st0 r st' -> probed env appID st r st'.
Proof.
  intros L. destruct r as [id|]; simpl.
  - intros (st1 & L1 & H). exists st1. split; [now apply (later_trans _ st0)|exact H].
  - intros H. now apply (later_trans _ st0).
Qed.

Lemma probe_probed (appID id : string) (st : State) :
  probed env appID st (probe env appID id st).1 (probe env appID id st).2.
Proof.
  unfold probe. rewrite bind_eq, tryGetData_run. cbn [fst snd ret].
  destruct (validSamples _) eqn:V; simpl.
  - apply later_afterProbe.
  - exists st. split; [apply later_refl|]. split; [reflexivity|]. now rewrite V.
Qed.

Lemma first_some_probed {A} (appID : string) (body : A -> M (option string)) (l : list A) :
  (forall x st, probed env appID st (body x st).1 (body x st).2) ->
  forall st, probed env appID st (first_some body l st).1 (first_some body l st).2.
Proof.
  intros Hb. induction l as [|x l IH]; intros st; simpl.
  - apply later_refl.
  - rewrite bind_eq. specialize (Hb x st).
    destruct (body x st).1 as [id|]; simpl; [exact Hb|].
    simpl in Hb. apply (probed_later _ _ _ _ _ Hb). apply IH.
Qed.

Lemma probeTree_probed (appID orig siteType : string) (st : State) :
  probed env appID st (probeTree env appID orig siteType st).1
    (probeTree env appID orig siteType st).2.
Proof.
  unfold probeTree. rewrite bind_eq.
  pose proof (quiet_later _ _ st (quiet_doRequest env "GET"
                ("/api/v1/website/tree/" +:+ siteType +:+ "/") [])) as L.
  destruct (doRequest env "GET" _ [] st).1 as [resp|]; [|exact L].
  destruct (decode_tree (Data resp)); [|exact L].
  apply (probed_later _ _ _ _ _ L). apply first_some_probed. intros x s. apply probe_probed.
Qed.

Lemma guarded_probe_probed (appID id : string) (b : bool) (st : State) :
  let m := if b then probe env appID id else ret None in
  probed env appID st (m st).1 (m st).2.
Proof. destruct b; simpl; [apply probe_probed | apply later_refl]. Qed.

Lemma fallbacks_sound (appID orig : string) (st : State) :
  let r := fallbacks env appID orig st in
  (r.1 = orig /\ later r.2 st) \/ probed env appID st (Some r.1) r.2.
Proof.
  cbv zeta. unfold fallbacks. rewrite bind_eq. cbn [get_cachedSites fst snd]. rewrite bind_eq.
  set (m1 := match List.find _ (cachedSites st) with Some site => _ | None => _ end).
  assert (P1 : probed env appID st (m1 st).1 (m1 st).2).
  { subst m1. destruct (List.find _ _); [apply probe_probed | apply later_refl]. }
  destruct (m1 st).1 as [id|]; [right; exact P1|]. simpl in P1.
  rewrite bind_eq.
  pose proof (quiet_later _ _ (m1 st).2 (quiet_getDeviceID env)) as L2.
  set (st2 := (getDeviceID env (m1 st).2).2) in *.
  set (real := (getDeviceID env (m1 st).2).1).
  rewrite bind_eq.
  pose proof (guarded_probe_probed appID real
                (negb (String.eqb real EmptyString) && negb (String.eqb real orig)) st2) as P2.
  cbv zeta in P2.
  set (m2 := if negb (String.eqb real EmptyString) && negb (String.eqb real orig)
             then probe env appID real else ret None) in *.
  assert (L02 : later st2 st) by now apply (later_trans _ (m1 st).2).
  destruct (m2 st2).1 as [id|]; [right; now apply (probed_later _ st2)|]. simpl in P2.
  rewrite bind_eq.
  pose proof (first_some_probed appID (probeTree env appID orig) siteTypes
                (probeTree_probed appID orig) (m2 st2).2) as P3.
  set (st3 := (first_some _ siteTypes (m2 st2).2).2) in *.
  assert (L03 : later (m2 st2).2 st) by now apply (later_trans _ st2).
  destruct (first_some _ siteTypes (m2 st2).2).1 as [id|];
    [right; now apply (probed_later _ (m2 st2).2)|]. simpl in P3.
  rewrite bind_eq.
  pose proof (quiet_later _ _ st3 (quiet_getDeviceSerial env)) as L4.
  set (st4 := (getDeviceSerial env st3).2) in *.
  set (serial := (getDeviceSerial env st3).1).
  rewrite bind_eq.
  pose proof (guarded_probe_probed appID serial
                (negb (String.eqb serial EmptyString) && negb (String.eqb serial orig)) st4) as P4.
  cbv zeta in P4.
  set (m4 := if negb (String.eqb serial EmptyString) && negb (String.eqb serial orig)
             then probe env appID serial else ret None) in *.
  assert (L04 : later st4 st).
  { apply (later_trans _ st3); [exact L4|]. now apply (later_trans _ (m2 st2).2). }
  destruct (m4 st4).1 as [id|]; [right; now apply (probed_later _ st4)|]. simpl in P4.
  left. split; [reflexivity|]. now apply (later_trans _ st4).
Qed.

(** X9. What [findWorkingDeviceID] returns is always one of three: the
    identifier it was given; for a given identifier that is empty, 0 or
    auto, the device's own identifier, not empty, exactly as
    [getDeviceID] returns it; or an identifier that its last two actions
    (a clock reading and a traffic query for that identifier) have
    probed, with an answer that held a record with valid data.  It never
    returns an identifier from the site list, the topology or the serial
    number that it has not just probed with success. *)
Theorem findWorkingDeviceID_sound (appID orig : string) (st : State) :
  let r := findWorkingDeviceID env appID orig st in
  r.1 = orig
  \/ (placeholderID orig /\ r.1 <> EmptyString /\ r = getDeviceID env st)
  \/ (exists st1, later st1 st /\ r.2 = afterProbe env appID r.1 st1
                  /\ validSamples (probeOutcome env appID r.1 st1) <> []).
Proof.
  cbv zeta. unfold findWorkingDeviceID. rewrite bind_eq.
  destruct (String.eqb orig EmptyString || String.eqb orig "0" || String.eqb orig "auto") eqn:S.
  - rewrite bind_eq. cbn [ret fst snd].
    pose proof (quiet_later _ _ st (quiet_getDeviceID env)) as L.
    destruct (String.eqb (getDeviceID env st).1 EmptyString) eqn:E; cbn [negb].
    + rewrite bind_eq, tryGetData_run. cbn [fst snd].
      destruct (validSamples _); [|now left].
      destruct (fallbacks_sound appID orig
                  (afterProbe env appID orig (getDeviceID env st).2)) as [[H _]|H]; [now left|].
      right; right. destruct H as (st1 & L1 & H). exists st1. split; [|exact H].
      apply (later_trans _ _ _ L1). apply (later_trans _ (getDeviceID env st).2); [|exact L].
      apply later_afterProbe.
    + right; left. split; [|split].
      * apply orb_true_iff in S as [S|S]; [apply orb_true_iff in S as [S|S]|];
          apply String.eqb_eq in S; unfold placeholderID; auto.
      * now apply String.eqb_neq.
      * now destruct (getDeviceID env st).
  - cbn [ret fst snd]. rewrite bind_eq, tryGetData_run. cbn [fst snd].
    destruct (validSamples _); [|now left].
    destruct (fallbacks_sound appID orig (afterProbe env appID orig st)) as [[H _]|H]; [now left|].
    right; right. destruct H as (st1 & L1 & H). exists st1. split; [|exact H].
    apply (later_trans _ _ _ L1). apply later_afterProbe.
Qed.

End ProbeFacts.

Lemma quiet_first_some_Forall {A B} (body : A -> M (option B)) (l : list A) Q :
  closed Q -> Forall (fun x => quiet (body x) Q) l -> quiet (first_some body l) Q.
Proof.
  intros HQ Hb. induction Hb as [|x l Hx Hl IH]; simpl.
  - apply quiet_ret, HQ.
  - apply quiet_bind_closed; auto. intros [b|]; [apply quiet_ret, HQ | exact IH].
Qed.

Section ReprobeFacts.

Variable env : Env.
Variable orig : string.

Let other (e : Event) : bool := negb (is_probe_of orig e).
Let np := all_events other.
Let np_closed : closed np := closed_all other.

Lemma np_now : quiet (now env) np.
Proof.
  unfold now. apply quiet_bind_closed; [exact np_closed | now apply quiet_emit |].
  intros k. now apply quiet_ret.
Qed.

Lemma np_doRequest method path params :
  is_probe_of orig (EvRequest method path params) = false ->
  quiet (doRequest env method path params) np.
Proof.
  intros H. unfold doRequest. apply quiet_bind_closed; [exact np_closed | |].
  - apply quiet_emit. unfold np, all_events, other. cbn [forallb]. now rewrite H.
  - intros k. now apply quiet_ret.
Qed.

Lemma np_getDeviceID : quiet (getDeviceID env) np.
Proof.
  unfold getDeviceID.
  apply quiet_bind_closed; [exact np_closed | now apply quiet_get_cachedDeviceID |].
  intros cached. destruct (negb _); [now apply quiet_ret|].
  apply quiet_bind_closed; [exact np_closed | apply np_now |]. intros t.
  apply quiet_bind_closed; [exact np_closed | now apply np_doRequest |].
  intros [resp|]; [|now apply quiet_ret].
  destruct (decode_string_member _ _); [|now apply quiet_ret].
  apply quiet_bind_closed; [exact np_closed | now apply quiet_set_cachedDeviceID |].
  intros _. now apply quiet_ret.
Qed.

Lemma np_getDeviceSerial : quiet (getDeviceSerial env) np.
Proof.
  unfold getDeviceSerial.
  apply quiet_bind_closed; [exact np_closed | now apply np_doRequest |].
  intros [resp|]; [|now apply quiet_ret].
  destruct (decode_string_member _ _); now apply quiet_ret.
Qed.

Lemma np_probe appID id : id <> orig -> quiet (probe env appID id) np.
Proof.
  intros N. unfold probe, tryGetData.
  apply quiet_bind_closed; [exact np_closed | | intros ok; now apply quiet_ret].
  apply quiet_bind_closed; [exact np_closed | apply np_now |]. intros t.
  apply quiet_bind_closed; [exact np_closed | |].
  - apply np_doRequest. apply String.eqb_neq in N. simpl. now rewrite N.
  - intros [resp|]; [|now apply quiet_ret].
    destruct (decode_result _ _); now apply quiet_ret.
Qed.

Lemma np_probeTree appID siteType : quiet (probeTree env appID orig siteType) np.
Proof.
  unfold probeTree.
  apply quiet_bind_closed; [exact np_closed | now apply np_doRequest |].
  intros [resp|]; [|now apply quiet_ret].
  destruct (decode_tree _); [|now apply quiet_ret].
  apply quiet_first_some_Forall; [exact np_closed|].
  apply Forall_forall. intros id I. apply list_elem_of_filter in I as [(_ & _ & _ & N) _].
  now apply np_probe.
Qed.

Lemma np_fallbacks appID : quiet (fallbacks env appID orig) np.
Proof.
  unfold fallbacks.
  apply quiet_bind_closed; [exact np_closed | now apply quiet_get_cachedSites |].
  intros sites.
  apply quiet_bind_closed; [exact np_closed | |].
  { destruct (List.find _ _) as [site|] eqn:F; [|now apply quiet_ret].
    apply List.find_some in F as [_ F]. apply bool_decide_eq_true in F as (_ & _ & N & _).
    now apply np_probe. }
  intros [id|]; [now apply quiet_ret|].
  apply quiet_bind_closed; [exact np_closed | apply np_getDeviceID |].
  intros realDeviceID.
  apply quiet_bind_closed; [exact np_closed | |].
  { destruct (negb (String.eqb realDeviceID EmptyString)); [|now apply quiet_ret].
    destruct (String.eqb realDeviceID orig) eqn:E; [now apply quiet_ret|].
    apply np_probe. now apply String.eqb_neq. }
  intros [id|]; [now apply quiet_ret|].
  apply quiet_bind_closed; [exact np_closed | |].
  { apply quiet_first_some; [exact np_closed | apply np_probeTree]. }
  intros [id|]; [now apply quiet_ret|].
  apply quiet_bind_closed; [exact np_closed | apply np_getDeviceSerial |].
  intros serial.
  apply quiet_bind_closed; [exact np_closed | |].
  { destruct (negb (String.eqb serial EmptyString)); [|now apply quiet_ret].
    destruct (String.eqb serial orig) eqn:E; [now apply quiet_ret|].
    apply np_probe. now apply String.eqb_neq. }
  intros [id|]; now apply quiet_ret.
Qed.

Lemma np_count (evs : list Event) : np evs -> countb (is_probe_of orig) evs = 0%nat.
Proof.
  apply (countb_none other). intros e. unfold other. now destruct (is_probe_of orig e).
Qed.

(** X10. In one call of [findWorkingDeviceID] the identifier it was
    given is probed at most once: among the actions of the call there is
    at most one traffic query with that identifier as device_id, and if
    there is one it is the probe of [tryGetData] for the site.  None of
    the fallback methods (site list, device identifier, topology, serial
    number) asks for it again. *)
Theorem original_probed_at_most_once (appID : string) (st : State) :
  exists evs,
    trace (findWorkingDeviceID env appID orig st).2 = evs ++ trace st
    /\ (countb (is_probe_of orig) evs <= 1)%nat
    /\ forall e, In e evs -> is_probe_of orig e = true ->
         exists ts, e = EvRequest "GET" "/api/v1/logs/traffic/" (probeParams appID orig ts).
Proof.
  unfold findWorkingDeviceID. rewrite bind_eq.
  set (m0 := if _ || _ then _ else ret None).
  assert (Q0 : quiet m0 np).
  { subst m0. destruct (_ || _); [|now apply quiet_ret].
    apply quiet_bind_closed; [exact np_closed | apply np_getDeviceID |].
    intros id. now apply quiet_ret. }
  destruct (Q0 st) as (_ & _ & e0 & T0 & N0).
  assert (NP : forall evs e, np evs -> In e evs -> is_probe_of orig e = true -> False).
  { intros evs e H I P. unfold np, all_events in H. rewrite forallb_forall in H.
    specialize (H e I). unfold other in H. rewrite P in H. discriminate. }
  destruct (m0 st).1 as [id|].
  - exists e0. split; [exact T0|]. split; [rewrite (np_count _ N0); lia|].
    intros e I P. exfalso. exact (NP _ _ N0 I P).
  - rewrite bind_eq, tryGetData_run. cbn [fst snd].
    set (req := EvRequest "GET" "/api/v1/logs/traffic/"
                  (probeParams appID orig
                     (mkTime (env_clock env (length (trace (m0 st).2))) Local))).
    assert (TA : trace (afterProbe env appID orig (m0 st).2) = [req; EvNow] ++ e0 ++ trace st).
    { rewrite <- T0. reflexivity. }
    assert (C1 : countb (is_probe_of orig) [req; EvNow] = 1%nat).
    { unfold countb. simpl. now rewrite String.eqb_refl. }
    assert (In1 : forall e, In e [req; EvNow] -> is_probe_of orig e = true ->
                    exists ts, e = EvRequest "GET" "/api/v1/logs/traffic/"
                                     (probeParams appID orig ts)).
    { intros e [<-|[<-|[]]] P; [subst req; eexists; reflexivity | discriminate]. }
    destruct (validSamples _); cbn [ret fst snd].
    + destruct (np_fallbacks appID (afterProbe env appID orig (m0 st).2))
        as (_ & _ & e1 & T1 & N1).
      exists (e1 ++ [req; EvNow] ++ e0). split; [|split].
      * rewrite T1, TA. now rewrite <- !app_assoc.
      * rewrite !countb_app, (np_count _ N1), (np_count _ N0), C1. lia.
      * intros e I P. apply in_app_or in I as [I|I]; [exfalso; exact (NP _ _ N1 I P)|].
        apply in_app_or in I as [I|I]; [now apply In1 | exfalso; exact (NP _ _ N0 I P)].
    + exists ([req; EvNow] ++ e0). split; [|split].
      * rewrite TA. now rewrite <- !app_assoc.
      * rewrite !countb_app, (np_count _ N0), C1. lia.
      * intros e I P. apply in_app_or in I as [I|I]; [now apply In1 | exfalso; exact (NP _ _ N0 I P)].
Qed.

End ReprobeFacts.

(** ** The query window of a first run and the data points *)


Lemma timeWindow_first (dt : string) :
  (let timeWindow := default 0 (timeWindows !! dt) in
   if timeWindow =? 0 then 5 * Minute else timeWindow) = firstWindowOf dt.
Proof.
  unfold timeWindows, firstWindowOf. simpl list_to_map.
  destruct (decide (dt = "mins")) as [->|N1]; [now rewrite lookup_insert_eq|].
  rewrite lookup_insert_ne by congruence.
  destruct (decide (dt = "hours")) as [->|N2]; [now rewrite lookup_insert_eq|].
  rewrite lookup_insert_ne by congruence.
  destruct (decide (dt = "days")) as [->|N3]; [now rewrite lookup_insert_eq|].
  rewrite lookup_insert_ne by congruence.
  now rewrite lookup_empty.
Qed.

Lemma insertByTimestamp_perm (d : TrafficData) (l : list TrafficData) :
  Permutation (insertByTimestamp d l) (d :: l).
Proof.
  induction l as [|x l IH]; simpl; [reflexivity|].
  destruct (Timestamp d <=? Timestamp x); [reflexivity|].
  rewrite IH. apply perm_swap.
Qed.

Lemma sortByTimestamp_perm (l : list TrafficData) : Permutation (sortByTimestamp l) l.
Proof.
  unfold sortByTimestamp. induction l as [|x l IH]; simpl; [reflexivity|].
  rewrite insertByTimestamp_perm. now rewrite IH.
Qed.

Lemma insertByTimestamp_Forall (P : TrafficData -> Prop) (d : TrafficData)
    (l : list TrafficData) :
  P d -> Forall P l -> Forall P (insertByTimestamp d l).
Proof.
  intros Hd Hl. induction Hl as [|x l Hx Hl IH]; simpl; [now repeat constructor|].
  destruct (Timestamp d <=? Timestamp x); repeat constructor; auto.
Qed.

Lemma insertByTimestamp_ascending (d : TrafficData) (l : list TrafficData) :
  ascending l -> ascending (insertByTimestamp d l).
Proof.
  induction l as [|x l IH]; simpl; intros S.
  - split; constructor.
  - destruct S as [Hx S]. destruct (Z.leb_spec (Timestamp d) (Timestamp x)); simpl.
    + split; [|now split]. constructor; [lia|].
      eapply Forall_impl; [exact Hx|]. intros y Hy. simpl in Hy. lia.
    + split; [|now apply IH]. apply insertByTimestamp_Forall; [lia | exact Hx].
Qed.

Lemma sortByTimestamp_ascending (l : list TrafficData) : ascending (sortByTimestamp l).
Proof.
  unfold sortByTimestamp. induction l as [|x l IH]; simpl; [exact I|].
  now apply insertByTimestamp_ascending.
Qed.

Lemma Forall2_Forall_In {A B} (R : A -> B -> Prop) (l : list A) (l' : list B) :
  Forall2 R l l' -> Forall (fun b => exists a, In a l /\ R a b) l'.
Proof.
  induction 1 as [|a b l l' H F IH]; constructor.
  - exists a. split; [now left | exact H].
  - eapply Forall_impl; [exact IH|]. intros b' (a' & I & H'). exists a'. split; [now right|exact H'].
Qed.

Section DataPointFacts.
Variable env : Env.
Variable w : Config.

Lemma dataPointOf_skip (record : gmap string value) (st : State) :
  validData record = false -> dataPointOf env record st = (None, st).
Proof. intros V. unfold dataPointOf. now rewrite V. Qed.

Lemma dataPointOf_point (record : gmap string value) (st : State) :
  validData record = true -> exists d, (dataPointOf env record st).1 = Some d.
Proof.
  intros V. unfold dataPointOf. rewrite V. cbn [negb]. rewrite bind_eq. cbn [ret fst].
  now eexists.
Qed.

Lemma dataPointsOf_filter (records : list (gmap string value)) (st : State) :
  dataPointsOf env records st = dataPointsOf env (List.filter validData records) st.
Proof.
  revert st. induction records as [|r rs IH]; intros st; simpl; [reflexivity|].
  destruct (validData r) eqn:V; simpl.
  - unbind. now rewrite IH.
  - unbind. rewrite (dataPointOf_skip r st V). cbn [fst snd]. rewrite <- IH.
    now destruct (dataPointsOf env rs st).
Qed.

Lemma dataPointsOf_length (records : list (gmap string value)) (st : State) :
  length (dataPointsOf env records st).1 = length (List.filter validData records).
Proof.
  revert st. induction records as [|r rs IH]; intros st; simpl; [reflexivity|]. unbind.
  destruct (validData r) eqn:V; simpl.
  - destruct (dataPointOf_point r st V) as [d ->]. simpl. now rewrite IH.
  - rewrite (dataPointOf_skip r st V). cbn [fst snd]. apply IH.
Qed.

Lemma filter_validData_idem (records : list (gmap string value)) :
  List.filter validData (List.filter validData records) = List.filter validData records.
Proof.
  induction records as [|r rs IH]; simpl; [reflexivity|].
  destruct (validData r) eqn:V; simpl; [now rewrite V, IH | exact IH].
Qed.

Lemma validSamples_valid (o : HttpOutcome) (v : gmap string value)
    (vs : list (gmap string value)) :
  validSamples o = v :: vs -> List.filter validData (v :: vs) = v :: vs.
Proof.
  intros <-. unfold validSamples.
  destruct (checkResponse o) as [resp|]; [|reflexivity].
  destruct (decode_result decode_record (Data resp)) as [result|]; [|reflexivity].
  apply filter_validData_idem.
Qed.

(** The data points of [getTrafficData], from the answer to its query. *)
Lemma fetchTraffic_result (appID wid : string) (startTime endTime : Time) (st : State) :
  let st2 := afterQuery env w appID wid startTime endTime st in
  (fetchTraffic env w appID wid startTime endTime st).1
  = match validSamples (queryOutcome env w appID wid startTime endTime st) with
    | [] => [zeroData (env_clock env (S (S (length (trace st)))) / 1000000000)]
    | vs =>
        let ps := (dataPointsOf env vs st2).1 in
        if Nat.ltb 1 (length ps) then sortByTimestamp ps else ps
    end.
Proof.
  cbv zeta.
  unfold validSamples, queryOutcome, afterQuery, fetchTraffic, dataPointsOfResponse, now,
    doRequest, trafficParams.
  unbind. unfold emit, ret. cbn [fst snd push trace length].
  destruct (checkResponse _) as [resp|]; [|reflexivity].
  destruct (decode_result decode_record (Data resp)) as [result|]; [|reflexivity].
  unbind.
  match goal with |- context [dataPointsOf env result ?s] => set (st2 := s) end.
  rewrite (dataPointsOf_filter result st2).
  destruct (List.filter validData result) as [|v vs] eqn:F.
  - reflexivity.
  - pose proof (dataPointsOf_length (v :: vs) st2) as L.
    assert (FF : List.filter validData (v :: vs) = v :: vs).
    { rewrite <- F. apply filter_validData_idem. }
    rewrite FF in L.
    set (ps := (dataPointsOf env (v :: vs) st2).1) in *.
    change (length (v :: vs)) with (S (length vs)) in L.
    assert (E : Nat.eqb (length (if Nat.ltb 1 (length ps) then sortByTimestamp ps else ps)) 0
                = false).
    { apply Nat.eqb_neq. destruct (Nat.ltb 1 (length ps)).
      - rewrite (Permutation_length (sortByTimestamp_perm ps)). lia.
      - lia. }
    rewrite E. reflexivity.
Qed.

Lemma getTrafficData_result (appID deviceID : string) (st : State) :
  let q := windowOf env w appID deviceID st in
  (getTrafficData env w appID deviceID st).1
  = (fetchTraffic env w appID q.1.1.1 (windowStart w q.1.2 q.1.1.2) q.1.1.2 q.2).1.
Proof.
  cbv zeta. rewrite getTrafficData_split.
  now destruct (windowOf env w appID deviceID st) as [[[wid endTime] last] st3].
Qed.


Lemma storedLastRun_none (data : option FileData) (io_ok : bool) :
  data ≫= decode_LastRunInfo = None -> storedLastRun env data io_ok = None.
Proof.
  unfold storedLastRun. destruct data as [d|]; simpl; [|reflexivity].
  intros ->. now destruct io_ok.
Qed.

(** X11. When there is no state file, or one that does not decode,
    [getLastRunTime] gives no time and the traffic query of
    [getTrafficData] covers the first-run look-back of the granularity
    before the end of the window: 5 minutes for mins, 2 hours for hours,
    2 days for days and 5 minutes for anything else.  The query with
    that start is the request [getTrafficData] sends after reading the
    state file. *)
Theorem first_run_window (appID deviceID : string) (st : State) :
  files st !! lastRunFile w ≫= decode_LastRunInfo = None ->
  let q := windowOf env w appID deviceID st in
  let endTime := q.1.1.2 in
  let start := Add endTime (- firstWindowOf (dataType w)) in
  q.1.2 = None
  /\ windowStart w None endTime = start
  /\ Sub endTime start = firstWindowOf (dataType w)
  /\ exists evs,
       trace (getTrafficData env w appID deviceID st).2
       = evs ++ trace (afterQuery env w appID q.1.1.1 start endTime q.2).
Proof.
  intros H. cbv zeta.
  assert (N : (windowOf env w appID deviceID st).1.2 = None).
  { pose proof (windowOf_run env w appID deviceID st) as Q. cbv zeta in Q. rewrite Q.
    cbn [fst snd]. now apply storedLastRun_none. }
  assert (S : forall endTime, windowStart w None endTime
                              = Add endTime (- firstWindowOf (dataType w))).
  { intros endTime. unfold windowStart.
    pose proof (timeWindow_first (dataType w)) as E. cbv zeta in E. now rewrite E. }
  split; [exact N|]. split; [apply S|]. split.
  - unfold Sub, Add. cbn [unixNano]. lia.
  - rewrite getTrafficData_split.
    destruct (windowOf env w appID deviceID st) as [[[wid endTime] last] st3].
    cbn [fst snd] in *. subst last. rewrite S.
    destruct (fetchTraffic_trace env w appID wid (Add endTime (- firstWindowOf (dataType w)))
                endTime st3) as (_ & _ & evs & T & _).
    exists evs. exact T.
Qed.

Lemma getTrafficData_length (appID deviceID : string) (st : State) :
  let q := windowOf env w appID deviceID st in
  let o := queryOutcome env w appID q.1.1.1 (windowStart w q.1.2 q.1.1.2) q.1.1.2 q.2 in
  length (getTrafficData env w appID deviceID st).1 = Nat.max 1 (length (validSamples o)).
Proof.
  cbv zeta.
  pose proof (getTrafficData_result appID deviceID st) as R. cbv zeta in R. rewrite R.
  pose proof (fetchTraffic_result appID (windowOf env w appID deviceID st).1.1.1
                (windowStart w (windowOf env w appID deviceID st).1.2
                   (windowOf env w appID deviceID st).1.1.2)
                (windowOf env w appID deviceID st).1.1.2
                (windowOf env w appID deviceID st).2) as F.
  cbv zeta in F. rewrite F.
  destruct (validSamples _) as [|v vs] eqn:V; [reflexivity|].
  match goal with |- context [dataPointsOf env (v :: vs) ?s] => set (st2 := s) end.
  pose proof (dataPointsOf_length (v :: vs) st2) as L.
  rewrite (validSamples_valid _ _ _ V) in L.
  destruct (Nat.ltb 1 _); [rewrite (Permutation_length (sortByTimestamp_perm _))|];
    rewrite L; simpl; lia.
Qed.

Lemma getTrafficData_nonempty (appID deviceID : string) (st : State) :
  (getTrafficData env w appID deviceID st).1 <> [].
Proof.
  intros E. pose proof (getTrafficData_length appID deviceID st) as L. cbv zeta in L.
  rewrite E in L. simpl in L. lia.
Qed.

(** X12. [getTrafficData] never returns an empty list: it returns one
    data point for every record of the answer that has valid data, and
    exactly one (the synthetic one) when there is none, be it that the
    request failed, the data did not decode, or no record was valid. *)
Theorem getTrafficData_count (appID deviceID : string) (st : State) :
  let q := windowOf env w appID deviceID st in
  let o := queryOutcome env w appID q.1.1.1 (windowStart w q.1.2 q.1.1.2) q.1.1.2 q.2 in
  length (getTrafficData env w appID deviceID st).1 = Nat.max 1 (length (validSamples o))
  /\ (getTrafficData env w appID deviceID st).1 <> [].
Proof.
  split; [apply getTrafficData_length | apply getTrafficData_nonempty].
Qed.

Lemma dataPointOf_metrics (record : gmap string value) (st : State) :
  validData record = true ->
  exists d, (dataPointOf env record st).1 = Some d
            /\ metricsOf d = map (getFloatValue record) zeroKeys.
Proof.
  intros V. unfold dataPointOf. rewrite V. cbn [negb]. rewrite bind_eq. cbn [ret fst].
  eexists. split; reflexivity.
Qed.

Lemma dataPointsOf_metrics (records : list (gmap string value)) (st : State) :
  Forall2 (fun record d => metricsOf d = map (getFloatValue record) zeroKeys)
    (List.filter validData records) (dataPointsOf env records st).1.
Proof.
  revert st. induction records as [|r rs IH]; intros st; simpl; [constructor|]. unbind.
  destruct (validData r) eqn:V; simpl.
  - destruct (dataPointOf_metrics r st V) as (d & -> & M).
    constructor; [exact M | apply IH].
  - rewrite (dataPointOf_skip r st V). cbn [fst snd]. apply IH.
Qed.

(** X13. The data points [getTrafficData] returns are in ascending
    order of their timestamps.  When the answer holds valid records they
    are, up to that order, the points built from these records one by
    one; every point then carries, metric by metric, what
    [getFloatValue] finds in one of the valid records under the ten
    metric names, and the single synthetic point carries ten zeros. *)
Theorem getTrafficData_ascending (appID deviceID : string) (st : State) :
  let q := windowOf env w appID deviceID st in
  let startTime := windowStart w q.1.2 q.1.1.2 in
  let o := queryOutcome env w appID q.1.1.1 startTime q.1.1.2 q.2 in
  let st2 := afterQuery env w appID q.1.1.1 startTime q.1.1.2 q.2 in
  ascending (getTrafficData env w appID deviceID st).1
  /\ (validSamples o <> [] ->
      Permutation (getTrafficData env w appID deviceID st).1
                  (dataPointsOf env (validSamples o) st2).1)
  /\ Forall (fun d =>
              (validSamples o = [] /\ metricsOf d = map (fun _ => 0%float) zeroKeys)
              \/ exists record, In record (validSamples o)
                                /\ metricsOf d = map (getFloatValue record) zeroKeys)
            (getTrafficData env w appID deviceID st).1.
Proof.
  cbv zeta.
  pose proof (getTrafficData_result appID deviceID st) as R. cbv zeta in R. rewrite R.
  pose proof (fetchTraffic_result appID (windowOf env w appID deviceID st).1.1.1
                (windowStart w (windowOf env w appID deviceID st).1.2
                   (windowOf env w appID deviceID st).1.1.2)
                (windowOf env w appID deviceID st).1.1.2
                (windowOf env w appID deviceID st).2) as F.
  cbv zeta in F. rewrite F.
  destruct (validSamples _) as [|v vs] eqn:V.
  - split; [simpl; split; constructor|]. split; [congruence|].
    constructor; [|constructor]. left. split; reflexivity.
  - match goal with |- context [dataPointsOf env (v :: vs) ?s] => set (st2 := s) end.
    set (ps := (dataPointsOf env (v :: vs) st2).1).
    assert (P : Permutation (if Nat.ltb 1 (length ps) then sortByTimestamp ps else ps) ps).
    { destruct (Nat.ltb 1 (length ps)); [apply sortByTimestamp_perm | reflexivity]. }
    split; [|split; [intros _; exact P|]].
    + destruct (Nat.ltb 1 (length ps)) eqn:L; [apply sortByTimestamp_ascending|].
      apply Nat.ltb_ge in L.
      destruct ps as [|a [|b ps']]; simpl in L; [exact I | | lia].
      split; constructor.
    + rewrite P. subst ps.
      pose proof (dataPointsOf_metrics (v :: vs) st2) as M.
      rewrite (validSamples_valid _ _ _ V) in M.
      apply Forall2_Forall_In in M.
      eapply Forall_impl; [exact M|]. intros d (record & I & H). right. now exists record.
Qed.


(** X14. The timestamp of the data point of a valid record.  A
    timestamp text that parses with the layout 2006-01-02 15:04:05 gives
    the Unix time of the parsed time and no clock reading; as the layout
    has no zone, a text that shows the wall clock of an instant in some
    zone is read as that wall clock in UTC, so the point is stamped with
    the instant's Unix time plus the zone's offset.  A record whose
    timestamp is missing, not a string, empty, or does not parse is
    stamped with a fresh clock reading. *)
Theorem sample_timestamp (record : gmap string value) (st : State) :
  validData record = true ->
  let tz := env_tz env in
  let r := dataPointOf env record st in
  let clock := env_clock env (length (trace st)) / 1000000000 in
  (forall t, wall_ok tz t ->
     record !! "timestamp" = Some (VString (Format tz t layoutDateTime)) ->
     r.2 = st
     /\ Timestamp <$> r.1 = Some (Unix t + zone_offset tz (loc t) (Unix t)))
  /\ (forall s t, record !! "timestamp" = Some (VString s) -> s <> EmptyString ->
        Parse tz layoutDateTime s = Some t ->
        r.2 = st /\ Timestamp <$> r.1 = Some (Unix t))
  /\ ((forall s, record !! "timestamp" <> Some (VString s))
      \/ record !! "timestamp" = Some (VString EmptyString)
      \/ (exists s, record !! "timestamp" = Some (VString s)
                    /\ Parse tz layoutDateTime s = None) ->
      r.2 = push EvNow st /\ Timestamp <$> r.1 = Some clock).
Proof.
  intros V. cbv zeta.
  assert (Now : forall st, (t <- now env ;; ret (Unix t)) st
                           = (env_clock env (length (trace st)) / 1000000000, push EvNow st)).
  { intros s. unfold now. unbind. reflexivity. }
  assert (P : forall s t, record !! "timestamp" = Some (VString s) -> s <> EmptyString ->
                Parse (env_tz env) layoutDateTime s = Some t ->
                (dataPointOf env record st).2 = st
                /\ Timestamp <$> (dataPointOf env record st).1 = Some (Unix t)).
  { intros s t R N E. unfold dataPointOf. rewrite V. cbn [negb]. rewrite bind_eq, R.
    apply String.eqb_neq in N. rewrite N. cbn [negb]. rewrite E. split; reflexivity. }
  split; [|split].
  - intros t W R.
    assert (N : Format (env_tz env) t layoutDateTime <> EmptyString).
    { change layoutDateTime with (datetime (str1 " ") []).
      rewrite (Format_written (env_tz env) t W). discriminate. }
    destruct (P _ _ R N (Parse_DateTime_Format (env_tz env) t W)) as [P1 P2].
    split; [exact P1|]. rewrite P2. f_equal. unfold Unix at 1. cbn [unixNano].
    apply Z.div_mul. lia.
  - intros s t R N E. destruct (P s t R N E) as [P1 P2]. split; [exact P1|].
    exact P2.
  - intros H. unfold dataPointOf. rewrite V. cbn [negb]. rewrite bind_eq.
    destruct H as [H|[H|(s & H & E)]].
    + destruct (record !! "timestamp") as [[| | |s| |]|]; try (rewrite Now; split; reflexivity).
      exfalso. now apply (H s).
    + rewrite H. cbn [String.eqb negb]. rewrite Now. split; reflexivity.
    + rewrite H, E. destruct (negb _); rewrite Now; split; reflexivity.
Qed.

End DataPointFacts.

Lemma first_run_window_witness :
  let q := windowOf (env_up true true) cfg_demo "s3" EmptyString (startState ∅) in
  q.1.2 = None
  /\ windowStart cfg_demo None q.1.1.2 = Add q.1.1.2 (- (2 * Hour)).
Proof.
  intros q.
  assert (H0 : files (startState ∅) !! lastRunFile cfg_demo ≫= decode_LastRunInfo = None)
    by (vm_compute; reflexivity).
  destruct (first_run_window (env_up true true) cfg_demo "s3" EmptyString (startState ∅)
              H0) as (H1 & H2 & _).
  split; [exact H1 | exact H2].
Defined.

Lemma sample_timestamp_witness :
  let record : gmap string value :=
    list_to_map [("timestamp", VString "2024-06-10 06:13:00");
                 ("conn_cur_avg", VFloat 3.5%float)] in
  Timestamp <$> (dataPointOf (env_up true true) record (startState ∅)).1
  = Some 1717999980.
Proof.
  intros record.
  assert (V : validData record = true) by (vm_compute; reflexivity).
  destruct (sample_timestamp (env_up true true) record (startState ∅) V) as (_ & H & _).
  assert (P : Parse (env_tz (env_up true true)) layoutDateTime "2024-06-10 06:13:00"
              = Some (mkTime 1717999980000000000 UTC)) by (vm_compute; reflexivity).
  assert (R : record !! "timestamp" = Some (VString "2024-06-10 06:13:00"))
    by (vm_compute; reflexivity).
  assert (N : "2024-06-10 06:13:00" <> EmptyString) by discriminate.
  exact (proj2 (H _ _ R N P)).
Defined.

(** ** The collected data *)

Section CollectFacts.
Variable env : Env.
Variable w : Config.

Lemma collectAllData_unfold (st : State) :
  collectAllData env w st
  = let l := login env st in
    if negb l.1 then ([], l.2)
    else
      let g := getDeviceID env l.2 in
      let s := getSites env g.2 in
      if Nat.eqb (length s.1) 0 then ([], s.2)
      else
        let timestamp := env_clock env (length (trace s.2)) / 1000000000 in
        let c := collectSites env w (deviceIDOf env st) timestamp s.1 (push EvNow s.2) in
        (headerItems env w (deviceIDOf env st) s.1 timestamp ++ c.1, c.2).
Proof.
  cbv zeta. unfold collectAllData, deviceIDOf. rewrite bind_eq.
  destruct (negb (login env st).1); [reflexivity|]. rewrite !bind_eq.
  destruct (Nat.eqb _ 0); [reflexivity|].
  unfold now. unbind. unfold emit, ret. cbn [fst snd].
  reflexivity.
Qed.

Lemma login_run (st : State) :
  (login env st).2 = push (EvRequest "GET" "/api/v1/device/name/" []) st.
Proof.
  unfold login, doRequest. unbind. unfold emit, ret. cbn [fst snd].
  now destruct (checkResponse _).
Qed.

Lemma getSites_cached (st : State) :
  (getSites env st).1 <> [] -> cachedSites (getSites env st).2 = (getSites env st).1.
Proof.
  unfold getSites, now, doRequest. unbind. unfold emit, ret. cbn [fst snd].
  destruct (checkResponse _) as [resp|]; [|intros E; now elim E].
  destruct (decode_result decode_site (Data resp)); [reflexivity | intros E; now elim E].
Qed.

(** X15. [collectAllData] returns no data in exactly two cases: the
    login request failed, or the site list came out empty (the request
    failed, its data did not decode, or there is no site).  After a
    failed login it has done nothing but that one request.  When it does
    return data, the collector's site cache holds the sites it
    enumerated. *)
Theorem collectAllData_empty_iff (st : State) :
  let r := collectAllData env w st in
  (r.1 = [] <-> (login env st).1 = false \/ sitesOf env st = [])
  /\ ((login env st).1 = false ->
      r.2 = push (EvRequest "GET" "/api/v1/device/name/" []) st)
  /\ (r.1 <> [] -> cachedSites r.2 = sitesOf env st).
Proof.
  cbv zeta. rewrite collectAllData_unfold. cbv zeta. unfold sitesOf.
  destruct (login env st).1 eqn:L; cbn [negb].
  - set (s := getSites env (getDeviceID env (login env st).2).2).
    destruct (Nat.eqb (length s.1) 0) eqn:E.
    + apply Nat.eqb_eq in E. destruct s.1; [|discriminate]. cbn [fst snd].
      split; [split; auto|]. split; [discriminate|]. congruence.
    + apply Nat.eqb_neq in E. cbn [fst snd headerItems app]. split; [|split].
      * split; [discriminate|]. intros [H|H]; [discriminate|]. rewrite H in E. now elim E.
      * discriminate.
      * intros _.
        destruct (quiet_collectSites env w (deviceIDOf env st)
                    (env_clock env (length (trace s.2)) / 1000000000) s.1 (push EvNow s.2))
          as (_ & S & _).
        rewrite S. cbn [push cachedSites]. subst s. apply getSites_cached.
        intros H. apply E. now rewrite H.
  - cbn [fst snd]. split; [split; auto|]. split; [intros _; apply login_run | congruence].
Qed.


Lemma collectSite_block (deviceID : string) (timestamp : Z) (site : Site) (st : State) :
  siteBlock w timestamp site (collectSite env w deviceID timestamp site st).1.
Proof.
  unfold siteBlock, collectSite, statusPoint. destruct (Enabled site); [|reflexivity].
  rewrite bind_eq. cbn [ret fst].
  eexists. split; [apply (getTrafficData_nonempty env w) | reflexivity].
Qed.

Lemma collectSite_query (deviceID : string) (timestamp : Z) (site : Site) (st : State) :
  siteQuery env w deviceID timestamp site (collectSite env w deviceID timestamp site st).1.
Proof.
  unfold siteQuery, collectSite, statusPoint. intros ->.
  rewrite bind_eq. cbn [ret fst]. now exists st.
Qed.

Lemma collectSites_blocks (deviceID : string) (timestamp : Z) (sites : list Site) (st : State) :
  exists blocks,
    (collectSites env w deviceID timestamp sites st).1 = concat blocks
    /\ Forall2 (siteBlock w timestamp) sites blocks
    /\ Forall2 (siteQuery env w deviceID timestamp) sites blocks.
Proof.
  revert st. induction sites as [|s sites IH]; intros st.
  - exists []. split; [reflexivity|]. split; constructor.
  - rewrite collectSites_cons. cbv zeta. cbn [fst].
    destruct (IH (collectSite env w deviceID timestamp s st).2) as (blocks & E & F & G).
    exists ((collectSite env w deviceID timestamp s st).1 :: blocks). split; [|split].
    + simpl. now rewrite E.
    + constructor; [apply collectSite_block | exact F].
    + constructor; [apply collectSite_query | exact G].
Qed.

(** The identifier handed to [getTrafficData] is the fallback identifier
    for struct_pk 0 and the struct_pk itself otherwise, the empty one
    included. *)
Lemma actualDeviceID_cases (deviceID : string) (site : Site) :
  deviceID <> EmptyString ->
  actualDeviceID deviceID site
  = (if String.eqb (StructID site) "0" then deviceID else StructID site)
  /\ (actualDeviceID deviceID site = EmptyString <-> StructID site = EmptyString).
Proof.
  intros N. unfold actualDeviceID.
  destruct (String.eqb (StructID site) "0") eqn:E; cbn [negb].
  - apply String.eqb_eq in E. split; [reflexivity|]. rewrite E.
    split; [intros H; now elim N | discriminate].
  - split; reflexivity.
Qed.

Lemma siteBlock_hosts (timestamp : Z) (site : Site) (block : list ZabbixData) :
  siteBlock w timestamp site block -> Forall (fun item => Host item = zabbixHost w) block.
Proof.
  unfold siteBlock. destruct (Enabled site).
  - intros (samples & _ & ->). constructor; [reflexivity|].
    apply Forall_flat_map. apply Forall_forall. intros d _. unfold trafficPoints.
    repeat constructor.
  - intros ->. constructor; [reflexivity|]. unfold zeroPoints, zeroKeys. simpl.
    repeat constructor.
Qed.

Lemma siteBlock_length (timestamp : Z) (site : Site) (block : list ZabbixData) :
  siteBlock w timestamp site block ->
  exists n, (1 <= n)%nat /\ length block = (1 + 10 * n)%nat.
Proof.
  unfold siteBlock. destruct (Enabled site).
  - intros (samples & N & ->). exists (length samples). split.
    + destruct samples; [congruence | simpl; lia].
    + simpl. f_equal. clear N. induction samples as [|d ds IH]; simpl; [reflexivity|].
      rewrite IH. lia.
  - intros ->. exists 1%nat. split; [lia | reflexivity].
Qed.

(** X16. The shape of the data of [collectAllData].  When there are
    data, they are the three header items (collector status 1, collector
    timestamp, site discovery) followed by one block per site in the
    order of the site list: the site's status item, then ten metric
    items for each sample of an enabled site (at least one sample) or
    the ten zero items of a disabled site.  The fallback identifier that
    the discovery item is built from (the device's own, or the word
    default) is never empty.  The samples of an enabled site are those
    of [getTrafficData] called with the identifier of that site, which
    is the fallback identifier when the site's struct_pk is 0 and the
    struct_pk itself otherwise: that identifier is empty exactly when
    the struct_pk is.  Every item carries the configured Zabbix host,
    and the number of items is three plus the number of sites plus ten
    times a number that is at least the number of sites. *)
Theorem collectAllData_blocks (st : State) :
  let r := collectAllData env w st in
  let sites := sitesOf env st in
  r.1 = []
  \/ exists timestamp blocks,
       r.1 = headerItems env w (deviceIDOf env st) sites timestamp ++ concat blocks
       /\ Forall2 (siteBlock w timestamp) sites blocks
       /\ deviceIDOf env st <> EmptyString
       /\ Forall2 (siteQuery env w (deviceIDOf env st) timestamp) sites blocks
       /\ Forall (fun site =>
                    actualDeviceID (deviceIDOf env st) site
                    = (if String.eqb (StructID site) "0"
                       then deviceIDOf env st else StructID site)
                    /\ (actualDeviceID (deviceIDOf env st) site = EmptyString
                        <-> StructID site = EmptyString)) sites
       /\ Forall (fun item => Host item = zabbixHost w) r.1
       /\ exists n, (length sites <= n)%nat
                    /\ length r.1 = (3 + length sites + 10 * n)%nat.
Proof.
  cbv zeta. rewrite collectAllData_unfold. cbv zeta. fold (sitesOf env st).
  destruct (negb (login env st).1); [now left|].
  destruct (Nat.eqb (length (sitesOf env st)) 0); [now left|]. right.
  set (timestamp := env_clock env _ / 1000000000).
  destruct (collectSites_blocks (deviceIDOf env st) timestamp (sitesOf env st)
              (push EvNow (getSites env (getDeviceID env (login env st).2).2).2))
    as (blocks & E & F & G).
  assert (N : deviceIDOf env st <> EmptyString).
  { unfold deviceIDOf. cbv zeta.
    destruct (String.eqb _ EmptyString) eqn:D; [discriminate | now apply String.eqb_neq]. }
  exists timestamp, blocks. cbn [fst]. rewrite E.
  split; [reflexivity|]. split; [exact F|]. split; [exact N|]. split; [exact G|].
  split; [|split].
  - apply List.Forall_forall. intros site _. now apply actualDeviceID_cases.
  - apply Forall_app. split; [repeat constructor|].
    clear E G. induction F as [|s b ss bs H F IH]; simpl; [constructor|].
    apply Forall_app. split; [now apply (siteBlock_hosts timestamp s) | exact IH].
  - assert (L : exists n, (length (sitesOf env st) <= n)%nat
                          /\ length (concat blocks) = (length (sitesOf env st) + 10 * n)%nat).
    { clear E G. induction F as [|s b ss bs H F (n & Ln & IH)]; simpl.
      - exists 0%nat. split; [lia | reflexivity].
      - destruct (siteBlock_length timestamp s b H) as (k & Lk & Hk).
        exists (k + n)%nat. split; [lia|]. rewrite length_app, Hk, IH. lia. }
    destruct L as (n & Ln & L). exists n. split; [exact Ln|].
    rewrite length_app, L. simpl. lia.
Qed.


(** X17. The discovery record of a site never carries an empty device
    identifier: its device and struct identifiers are the site's
    struct_pk when that is neither empty nor 0 and otherwise the
    identifier [collectAllData] works with, which is the device's own
    or, when that could not be had, the word default; the raw struct_pk
    is published next to them unchanged. *)
Theorem discovery_device_id_never_empty (st : State) (site : Site) :
  let deviceID := deviceIDOf env st in
  let record := discoveryRecord deviceID site in
  let id := siteDeviceID deviceID site in
  id <> EmptyString
  /\ record !! "{#DEVICE_ID}" = Some id
  /\ record !! "{#STRUCT_ID}" = Some id
  /\ record !! "{#STRUCT_PK}" = Some (StructID site)
  /\ ((getDeviceID env (login env st).2).1 = EmptyString -> deviceID = "default")
  /\ (StructID site = "0" \/ StructID site = EmptyString -> id = deviceID)
  /\ (StructID site <> "0" -> StructID site <> EmptyString -> id = StructID site).
Proof.
  cbv zeta.
  assert (D : deviceIDOf env st <> EmptyString).
  { unfold deviceIDOf. cbv zeta.
    destruct (String.eqb _ EmptyString) eqn:D; [discriminate | now apply String.eqb_neq]. }
  assert (L : forall deviceID key,
             key = "{#DEVICE_ID}" \/ key = "{#STRUCT_ID}" ->
             discoveryRecord deviceID site !! key = Some (siteDeviceID deviceID site)).
  { intros deviceID key K. destruct site as [id name en sid].
    destruct K as [-> | ->]; vm_compute; reflexivity. }
  assert (P : forall deviceID,
             discoveryRecord deviceID site !! "{#STRUCT_PK}" = Some (StructID site)).
  { intros deviceID. destruct site as [id name en sid]. vm_compute. reflexivity. }
  split; [|split; [|split; [|split; [|split; [|split]]]]].
  - unfold siteDeviceID.
    destruct (String.eqb (StructID site) "0"); [exact D|].
    destruct (String.eqb (StructID site) EmptyString) eqn:E; [exact D|].
    now apply String.eqb_neq.
  - apply L. now left.
  - apply L. now right.
  - apply P.
  - intros E. unfold deviceIDOf. cbv zeta. now rewrite E.
  - unfold siteDeviceID. intros [-> | ->]; [reflexivity|].
    now destruct (String.eqb EmptyString "0").
  - intros N0 NE. unfold siteDeviceID.
    apply String.eqb_neq in N0, NE. now rewrite N0, NE.
Qed.

Lemma siteKey_bracket (metric siteName : string) : has_byte "[" (siteKey metric siteName).
Proof.
  unfold siteKey. apply has_byte_app. right. apply has_byte_app. right.
  apply has_byte_app. left. unfold has_byte. simpl. now left.
Qed.

(** X18. An enabled and a disabled site publish the same ten item
    keys, in the same order: waf.site.<metric>[<name>] for the ten
    metric names.  The items of a sample carry its ten metrics as
    floating-point values and its timestamp as clock.  Each of these
    keys, and the key of the status item, holds an opening bracket and
    is therefore written between double quotes in the sender's input. *)
Theorem site_item_keys (site : Site) (sample : TrafficData) (timestamp : Z) :
  let keys := map (fun metric => siteKey metric (Name site)) zeroKeys in
  map Key (trafficPoints w (Name site) sample) = keys
  /\ map Key (zeroPoints w (Name site) timestamp) = keys
  /\ map Value (trafficPoints w (Name site) sample) = map FloatV (metricsOf sample)
  /\ Forall (fun item => Clock item = Timestamp sample) (trafficPoints w (Name site) sample)
  /\ Forall (fun key => encode_key key = quoted key)
       (Key (statusPoint w timestamp site) :: keys).
Proof.
  cbv zeta. split; [reflexivity|]. split; [reflexivity|]. split; [reflexivity|].
  split; [unfold trafficPoints; repeat constructor|].
  constructor.
  - apply encode_key_quoted_iff. right. cbn [statusPoint Key].
    change ("waf.site.status[" +:+ Name site +:+ "]")
      with ("waf.site.status" +:+ ("[" +:+ (Name site +:+ "]"))).
    apply has_byte_app. right. apply has_byte_app. left. unfold has_byte. simpl. now left.
  - apply Forall_forall. intros key I. apply list_elem_of_In, in_map_iff in I as (metric & <- & _).
    apply encode_key_quoted_iff. right. apply siteKey_bracket.
Qed.

End CollectFacts.

(** ** The sender *)

Section SenderFacts.
Variable env : Env.
Variable w : Config.

Lemma writeLines_trace (lines : list string) (st : State) :
  exists evs,
    trace (writeLines env lines st).2 = evs ++ trace st
    /\ existsb is_run_sender evs = false
    /\ ((writeLines env lines st).1 = true -> evs = rev (map EvWriteTemp lines)).
Proof.
  revert st. induction lines as [|l lines IH]; intros st; simpl.
  - exists []. split; [reflexivity|]. split; reflexivity.
  - rewrite bind_eq. unfold emit. cbn [fst snd].
    destruct (negb (env_io_ok env (length (trace st)))).
    + exists [EvWriteTemp l]. split; [reflexivity|]. split; [reflexivity|]. simpl. discriminate.
    + destruct (IH (push (EvWriteTemp l) st)) as (evs & T & N & H).
      exists (evs ++ [EvWriteTemp l]). split; [|split].
      * rewrite T. cbn [push trace]. now rewrite <- app_assoc.
      * rewrite existsb_app, N. reflexivity.
      * intros Ok. now rewrite (H Ok).
Qed.


Lemma sendToZabbix_true (data : list ZabbixData) (st : State) :
  (sendToZabbix env w data st).1 = true ->
  data <> []
  /\ trace (sendToZabbix env w data st).2
     = senderActions (zabbixServer w) (map (encode_line (fmt_float env)) data) ++ trace st.
Proof.
  unfold sendToZabbix.
  destruct data as [|d data]; [discriminate|].
  set (lines := map (encode_line (fmt_float env)) (d :: data)).
  cbn [length Nat.eqb]. rewrite bind_eq. unfold emit. cbn [fst snd].
  destruct (negb (env_io_ok env (length (trace st)))); [discriminate|].
  rewrite bind_eq.
  destruct (writeLines_trace lines (push EvCreateTemp st)) as (e1 & T1 & N1 & H1).
  destruct (writeLines env lines (push EvCreateTemp st)).1 eqn:Ok; cbn [negb]; [|discriminate].
  specialize (H1 eq_refl). subst e1.
  rewrite bind_eq. unfold emit. cbn [fst snd].
  destruct (negb (env_lookpath env _)); [discriminate|].
  rewrite bind_eq. unfold emit. cbn [fst snd ret]. intros _. split; [discriminate|].
  unfold senderActions. cbn [push trace]. rewrite T1. cbn [push trace]. list_eq.
Qed.

End SenderFacts.

Lemma has_byte_quoted (c : ascii) (x : string) : has_byte c x -> has_byte c (quoted x).
Proof.
  intros H. unfold quoted.
  change (String dquote (x +:+ str1 dquote)) with (str1 dquote +:+ (x +:+ str1 dquote)).
  apply has_byte_app. right. apply has_byte_app. now left.
Qed.

Lemma quoted_inj (x y : string) : quoted x = quoted y -> x = y.
Proof. unfold quoted. intros [= H]. now apply append_inv_r in H. Qed.

Lemma encode_key_plain (key : string) :
  ~ (has_byte " " key \/ has_byte "[" key) -> encode_key key = key.
Proof.
  intros H. unfold encode_key.
  assert (E : Contains key " " || Contains key "[" = false).
  { apply orb_false_iff. split; apply (Contains_byte_false _ key); tauto. }
  now rewrite E.
Qed.

(** X20. The encoder loses nothing: two string values with the same
    encoded text are equal, and so are two keys with the same encoded
    text.  (A quoted text starts with a double quote, which no unquoted
    one holds; and the escaped form of a value determines the value.) *)
Theorem encoder_injective (fmt_float : float -> string) :
  (forall a b, encode_value fmt_float (StringV a) = encode_value fmt_float (StringV b) -> a = b)
  /\ (forall a b, encode_key a = encode_key b -> a = b).
Proof.
  split.
  - intros a b.
    assert (D : forall s, special_value s \/ ~ special_value s).
    { intros s. unfold special_value.
      destruct (has_byte_dec " " s), (has_byte_dec dquote s), (has_byte_dec newline s); tauto. }
    assert (QD : forall s, has_byte dquote (quoted s)).
    { intros s. unfold quoted, has_byte. simpl. now left. }
    destruct (D a) as [Sa|Pa], (D b) as [Sb|Pb].
    + rewrite !encode_value_special by assumption. intros H. apply quoted_inj in H.
      rewrite <- (unescape_escaped a), <- (unescape_escaped b). now rewrite H.
    + rewrite encode_value_special, encode_value_plain by assumption. intros H.
      exfalso. apply Pb. right; left. rewrite <- H. apply QD.
    + rewrite encode_value_plain, encode_value_special by assumption. intros H.
      exfalso. apply Pa. right; left. rewrite H. apply QD.
    + now rewrite !encode_value_plain by assumption.
  - intros a b.
    assert (D : forall s, (has_byte " " s \/ has_byte "[" s)
                          \/ ~ (has_byte " " s \/ has_byte "[" s)).
    { intros s. destruct (has_byte_dec " " s), (has_byte_dec "[" s); tauto. }
    destruct (D a) as [Sa|Pa], (D b) as [Sb|Pb].
    + rewrite (proj2 (encode_key_quoted_iff a) Sa), (proj2 (encode_key_quoted_iff b) Sb).
      apply quoted_inj.
    + rewrite (proj2 (encode_key_quoted_iff a) Sa), (encode_key_plain b Pb). intros H.
      exfalso. apply Pb. rewrite <- H. destruct Sa; [left | right]; now apply has_byte_quoted.
    + rewrite (encode_key_plain a Pa), (proj2 (encode_key_quoted_iff b) Sb). intros H.
      exfalso. apply Pa. rewrite H. destruct Sb; [left | right]; now apply has_byte_quoted.
    + now rewrite (encode_key_plain a Pa), (encode_key_plain b Pb).
Qed.

(** ** The outcome of a run *)

Section RunOutcomes.
Variable env : Env.
Variable w : Config.

Lemma sendCollectorStatus_run (status : Z) (st : State) :
  let k := length (trace st) in
  let clock := env_clock env k / 1000000000 in
  let line := statusLine w status clock in
  (sendCollectorStatus env w status st).2
  = (sendToZabbix env w [mkZabbixData (zabbixHost w) "waf.collector.status" (IntV status) clock]
       (push EvNow st)).2
  /\ encode_line (fmt_float env)
       (mkZabbixData (zabbixHost w) "waf.collector.status" (IntV status) clock) = line
  /\ (env_io_ok env (S k) = true -> env_io_ok env (S (S k)) = true ->
      env_lookpath env (S (S (S k))) = true ->
      trace (sendCollectorStatus env w status st).2
      = senderActions (zabbixServer w) [line] ++ EvNow :: trace st).
Proof.
  cbv zeta. split; [|split].
  - unfold sendCollectorStatus, now. unbind. unfold emit, ret. cbn [fst snd]. reflexivity.
  - reflexivity.
  - intros I1 I2 L.
    unfold sendCollectorStatus, now, sendToZabbix, writeLines, bind, emit, ret.
    cbn [fst snd push trace length negb map Nat.eqb].
    rewrite I1. cbn [fst snd push trace length negb].
    rewrite I2. cbn [fst snd push trace length negb].
    rewrite L. cbn [fst snd push trace length negb].
    reflexivity.
Qed.

(** X21. What a successful run delivers is what it collected: when
    [run] returns true the collected data were not empty, the sender was
    run once on one line per collected item, in the order of the items,
    and the only action after it is the write of the state file. *)
Theorem delivered_lines (st : State) :
  (run env w st).1 = true ->
  let c := collectAllData env w (push EvNow st) in
  let lines := map (encode_line (fmt_float env)) c.1 in
  c.1 <> []
  /\ length lines = length c.1
  /\ exists data,
       trace (run env w st).2
       = EvWriteFile (lastRunFile w) data
         :: senderActions (zabbixServer w) lines ++ trace c.2.
Proof.
  rewrite run_unfold. cbv zeta.
  set (c := collectAllData env w (push EvNow st)).
  destruct (Nat.ltb 0 (length c.1)); [|discriminate].
  destruct (sendToZabbix env w c.1 c.2).1 eqn:Ok; [|discriminate]. intros _.
  destruct (sendToZabbix_true env w c.1 c.2 Ok) as [N T].
  split; [exact N|]. split; [apply length_map|].
  destruct (saveLastRunTime_run env w (mkTime (env_clock env (length (trace st))) Local)
              (sendToZabbix env w c.1 c.2).2) as (T' & _).
  cbv zeta in T'. cbn [fst snd]. rewrite T', T. eauto.
Qed.

(** X22. A run that returns false ends by reporting itself: after the
    collection (and the failed delivery, if it got that far) it calls
    [sendCollectorStatus 0], and the state file is as it was before the
    run.  If the temporary file can be created and written and the
    sender is found, the last actions of the run are a clock reading and
    the sender run on the single line
    <host> waf.collector.status <clock> 0. *)
Theorem failed_run_reports_status_0 (st : State) :
  (run env w st).1 = false ->
  exists st1,
    later st1 st /\ files st1 = files st
    /\ (run env w st).2 = (sendCollectorStatus env w 0 st1).2
    /\ files (run env w st).2 = files st
    /\ let k := length (trace st1) in
       let line := statusLine w 0 (env_clock env k / 1000000000) in
       env_io_ok env (S k) = true -> env_io_ok env (S (S k)) = true ->
       env_lookpath env (S (S (S k))) = true ->
       trace (run env w st).2 = senderActions (zabbixServer w) [line] ++ EvNow :: trace st1.
Proof.
  rewrite run_unfold. cbv zeta.
  destruct (collectAllData_accesses env w (push EvNow st)) as (Fc & ec & Tc & _).
  set (c := collectAllData env w (push EvNow st)) in *.
  assert (Lc : later c.2 st).
  { exists (ec ++ [EvNow]). rewrite Tc. cbn [push trace]. list_eq. }
  assert (K : forall st1, later st1 st -> files st1 = files st ->
            later st1 st /\ files st1 = files st
            /\ (sendCollectorStatus env w 0 st1).2 = (sendCollectorStatus env w 0 st1).2
            /\ files (sendCollectorStatus env w 0 st1).2 = files st
            /\ (env_io_ok env (S (length (trace st1))) = true ->
                env_io_ok env (S (S (length (trace st1)))) = true ->
                env_lookpath env (S (S (S (length (trace st1))))) = true ->
                trace (sendCollectorStatus env w 0 st1).2
                = senderActions (zabbixServer w)
                    [statusLine w 0 (env_clock env (length (trace st1)) / 1000000000)]
                  ++ EvNow :: trace st1)).
  { intros st1 L F. split; [exact L|]. split; [exact F|]. split; [reflexivity|].
    split.
    - destruct (quiet_sendCollectorStatus env w 0 st1) as (F' & _). congruence.
    - apply (sendCollectorStatus_run 0 st1). }
  destruct (Nat.ltb 0 (length c.1)).
  - destruct (quiet_sendToZabbix env w c.1 c.2) as (Fs & _ & es & Ts & _).
    destruct (sendToZabbix env w c.1 c.2).1; [discriminate|]. intros _. cbn [fst snd].
    exists (sendToZabbix env w c.1 c.2).2. apply K.
    + apply (later_trans _ c.2); [now exists es | exact Lc].
    + simpl in Fc. congruence.
  - intros _. cbn [fst snd]. exists c.2. apply K; [exact Lc | exact Fc].
Qed.

End RunOutcomes.

Lemma delivered_lines_witness :
  (collectAllData (env_up true true) cfg_demo (push EvNow (startState ∅))).1 <> [].
Proof.
  assert (H : (run (env_up true true) cfg_demo (startState ∅)).1 = true)
    by (vm_compute; reflexivity).
  exact (proj1 (delivered_lines (env_up true true) cfg_demo (startState ∅) H)).
Defined.

Lemma failed_run_reports_status_0_witness :
  files (run (env_up true false) cfg_demo (startState ∅)).2 = ∅.
Proof.
  assert (H : (run (env_up true false) cfg_demo (startState ∅)).1 = false)
    by (vm_compute; reflexivity).
  destruct (failed_run_reports_status_0 (env_up true false) cfg_demo (startState ∅) H)
    as (st1 & _ & _ & _ & F & _).
  exact F.
Defined.

(** X23. The state file is read back without regard to who wrote it:
    what a collector saves, another collector for the same Zabbix host
    loads as the time of its own last run, whatever the data types (and
    WAF addresses, tokens and servers) of the two are, although the file
    records the data type of the writer.  Stated for a time whose wall
    clock lies in the years 0000 to 9999, at an offset of whole minutes
    within a day, and for a write and a read that succeed. *)
Theorem state_file_ignores_data_type (env : Env)
    (wafHost1 token1 server1 dataType1 wafHost2 token2 server2 dataType2 host : string)
    (t : Time) (st : State) :
  wall_ok (env_tz env) t ->
  zone_ok (zone_offset (env_tz env) (loc t) (Unix t)) ->
  env_io_ok env (length (trace st)) = true ->
  env_io_ok env (S (length (trace st))) = true ->
  let w1 := NewWAFCollector wafHost1 token1 server1 host dataType1 in
  let w2 := NewWAFCollector wafHost2 token2 server2 host dataType2 in
  let tz := env_tz env in
  let off := zone_offset tz (loc t) (Unix t) in
  (getLastRunTime env w2 (saveLastRunTime env w1 t st).2).1
  = Some (mkTime (Unix t * 1000000000) (parsedLoc tz off (Unix t)))
  /\ (decode_LastRunInfo <$> (files (saveLastRunTime env w1 t st).2 !! lastRunFile w2))
     = Some (Some (mkLastRunInfo (Format tz t RFC3339) dataType1 host)).
Proof.
  intros W Z Io1 Io2. cbv zeta.
  set (w1 := NewWAFCollector wafHost1 token1 server1 host dataType1).
  set (w2 := NewWAFCollector wafHost2 token2 server2 host dataType2).
  assert (P : lastRunFile w2 = lastRunFile w1) by reflexivity.
  destruct (saveLastRunTime_run env w1 t st) as (T & _ & F). cbv zeta in *.
  rewrite Io1 in F.
  destruct (parseLastRunTime_formats (env_tz env) t W) as (C1 & _).
  split.
  - rewrite getLastRunTime_run. cbn [fst].
    rewrite F, T, P, lookup_insert_eq. cbn [length]. rewrite Io2.
    unfold storedLastRun. cbn [negb]. rewrite decode_marshal_LastRunInfo.
    cbn [LastRunTime]. exact (C1 Z).
  - rewrite F, P, lookup_insert_eq. cbn [fmap option_fmap option_map].
    now rewrite decode_marshal_LastRunInfo.
Qed.


Lemma state_file_ignores_data_type_witness :
  let t := mkTime 1718000000123456789 Local in
  let w1 := NewWAFCollector "https://waf.example/" "secret" "zabbix.example" "waf-01" "mins" in
  let w2 := NewWAFCollector "https://waf.example/" "secret" "zabbix.example" "waf-01" "hours" in
  (getLastRunTime (env_up true true) w2
     (saveLastRunTime (env_up true true) w1 t (startState ∅)).2).1
  = Some (mkTime 1718000000000000000 Local).
Proof.
  intros t w1 w2.
  assert (W : wall_ok (env_tz (env_up true true)) t)
    by (vm_compute; split; [discriminate | reflexivity]).
  assert (Z : zone_ok (zone_offset (env_tz (env_up true true)) (loc t) (Unix t)))
    by (vm_compute; repeat split; discriminate).
  exact (proj1 (state_file_ignores_data_type (env_up true true)
                  "https://waf.example/" "secret" "zabbix.example" "mins"
                  "https://waf.example/" "secret" "zabbix.example" "hours" "waf-01"
                  t (startState ∅) W Z eq_refl eq_refl)).
Defined.

(** ** [main] *)

Section MainFacts.

Variable env : Env.

(** X24. [main] shows the usage and exits with status 1, without any
    request, file access or sender call, when the WAF address, the
    token, the Zabbix server or the Zabbix host is empty (an empty data
    type is accepted).  Otherwise it runs a fresh collector once, prints
    0 and exits with 0 when the delivery succeeded, and prints 1 and
    exits with 1 when not.  The exit status is thus 0 or 1; with 0 the
    last action was the write of the state file, with 1 the files are as
    they were. *)
Theorem main_exit_status (f : Flags) (fs : gmap string FileData) :
  let r := main env f fs in
  let w := NewWAFCollector (flag_waf_host f) (flag_token f) (flag_zabbix_server f)
             (flag_zabbix_host f) (flag_data_type f) in
  (flag_waf_host f = EmptyString \/ flag_token f = EmptyString
   \/ flag_zabbix_server f = EmptyString \/ flag_zabbix_host f = EmptyString ->
   r = ((None, 1), startState fs))
  /\ (flag_waf_host f <> EmptyString -> flag_token f <> EmptyString ->
      flag_zabbix_server f <> EmptyString -> flag_zabbix_host f <> EmptyString ->
      r.2 = (run env w (startState fs)).2
      /\ r.1 = (if delivered env w (startState fs) then (Some "0", 0) else (Some "1", 1)))
  /\ (r.1.2 = 0 \/ r.1.2 = 1)
  /\ (r.1.2 = 0 -> exists data evs, trace r.2 = EvWriteFile (lastRunFile w) data :: evs)
  /\ (r.1.2 = 1 -> files r.2 = fs).
Proof.
  cbv zeta. unfold main.
  set (w := NewWAFCollector _ _ _ _ _).
  destruct (String.eqb (flag_waf_host f) EmptyString) eqn:E1;
    [apply String.eqb_eq in E1|apply String.eqb_neq in E1];
  (destruct (String.eqb (flag_token f) EmptyString) eqn:E2;
    [apply String.eqb_eq in E2|apply String.eqb_neq in E2]);
  (destruct (String.eqb (flag_zabbix_server f) EmptyString) eqn:E3;
    [apply String.eqb_eq in E3|apply String.eqb_neq in E3]);
  (destruct (String.eqb (flag_zabbix_host f) EmptyString) eqn:E4;
    [apply String.eqb_eq in E4|apply String.eqb_neq in E4]);
  cbn [orb];
  try (split; [reflexivity|]; split; [intros; contradiction|];
       split; [now right|]; split; [discriminate | reflexivity]).
  destruct (run_accesses env w (startState fs)) as (R & _ & evs & _ & _ & H).
  cbv zeta in R, H.
  destruct (run env w (startState fs)) as [success st] eqn:Run. cbn [fst snd] in R, H.
  rewrite <- R in H |- *.
  destruct success; cbn [fst snd].
  - split; [intros [?|[?|[?|?]]]; contradiction|]. split; [now split|].
    split; [now left|]. split; [|discriminate]. intros _. destruct H as [T _]. eauto.
  - split; [intros [?|[?|[?|?]]]; contradiction|]. split; [now split|].
    split; [now right|]. split; [discriminate|]. intros _. now destruct H as [_ F].
Qed.

End MainFacts.

(** ** What the collection does, and how the windows of two runs meet *)

Lemma later_length (a b : State) : later a b -> (length (trace b) <= length (trace a))%nat.
Proof. intros [evs ->]. rewrite length_app. lia. Qed.

Section GapFacts.

Variable env : Env.
Variable w : Config.

(** X25. Consecutive runs leave no gap between their query windows,
    given a clock that does not go backwards.  The time a run saves is
    the reading taken by its first action, which the state file keeps to
    the second; every window queried by a call of [getTrafficData]
    during the run ends at a reading taken later.  A window that starts
    at the saved time therefore starts no later than that window ended;
    the only other start [getTrafficData] chooses with a saved time is
    the ceiling of the granularity before the new end. *)
Theorem windows_leave_no_gap (st s : State) (appID deviceID : string) (l : Location)
    (end2 : Time) :
  (forall i j, (i <= j)%nat -> env_clock env i <= env_clock env j) ->
  later s (push EvNow st) ->
  let started := mkTime (env_clock env (length (trace st))) Local in
  let saved := mkTime (Unix started * 1000000000) l in
  let end1 := (windowOf env w appID deviceID s).1.1.2 in
  let start2 := windowStart w (Some saved) end2 in
  unixNano saved <= unixNano started <= unixNano end1
  /\ (unixNano start2 <= unixNano end1 \/ start2 = Add end2 (- ceilingOf (dataType w))).
Proof.
  intros Mono L. cbv zeta.
  pose proof (windowOf_run env w appID deviceID s) as Q. cbv zeta in Q. rewrite Q.
  cbn [fst snd unixNano].
  pose proof (quiet_later _ _ s (quiet_findWorkingDeviceID env appID deviceID)) as L1.
  apply later_length in L1. apply later_length in L. cbn [push trace length] in L.
  assert (M : env_clock env (length (trace st))
              <= env_clock env (length (trace (findWorkingDeviceID env appID deviceID s).2))).
  { apply Mono. lia. }
  assert (F : Unix (mkTime (env_clock env (length (trace st))) Local) * 1000000000
              <= env_clock env (length (trace st))).
  { unfold Unix. cbn [unixNano]. Z.to_euclidean_division_equations. lia. }
  split; [lia|].
  destruct (windowStart_clipped w
              (mkTime (Unix (mkTime (env_clock env (length (trace st))) Local) * 1000000000) l)
              end2) as (E & _). cbv zeta in E. rewrite E. cbn [unixNano].
  destruct (Z.ltb_spec (Unix (mkTime (env_clock env (length (trace st))) Local) * 1000000000)
              (unixNano end2 - ceilingOf (dataType w))).
  - now right.
  - left. cbn [unixNano]. lia.
Qed.

Let ce := all_events (collect_event (lastRunFile w)).
Let ce_closed : closed ce := closed_all (collect_event (lastRunFile w)).

Lemma api_ce (evs : list Event) : all_events api_event evs -> ce evs.
Proof.
  unfold ce, all_events, collect_event. induction evs as [|e evs IH]; simpl; [auto|].
  intros H. apply andb_true_iff in H as [-> H]. simpl. now apply IH.
Qed.

Lemma one_read_ce (evs : list Event) : one_read w evs -> ce evs.
Proof.
  intros (a & b & -> & A & B). apply ce_closed.
  - change (ce ([EvReadFile (lastRunFile w)] ++ b)). apply ce_closed; [now apply api_ce|].
    unfold ce, all_events, collect_event. simpl. now rewrite String.eqb_refl.
  - now apply api_ce.
Qed.

Lemma ce_collectSites deviceID timestamp sites :
  quiet (collectSites env w deviceID timestamp sites) ce.
Proof.
  induction sites as [|s sites IH]; simpl; [apply quiet_ret, ce_closed|].
  apply quiet_bind_closed; [exact ce_closed | |].
  - unfold collectSite. destruct (Enabled s); [|apply quiet_ret, ce_closed].
    apply quiet_bind_closed; [exact ce_closed | |].
    + apply (quiet_weaken _ _ _ (quiet_getTrafficData env w (ID s) _)). apply one_read_ce.
    + intros tdp. apply quiet_ret, ce_closed.
  - intros pts. apply quiet_bind_closed; [exact ce_closed | exact IH |].
    intros more. apply quiet_ret, ce_closed.
Qed.

Lemma ce_Forall (evs : list Event) :
  ce evs ->
  Forall (fun e => e = EvNow
                   \/ (exists method path params, e = EvRequest method path params)
                   \/ e = EvReadFile (lastRunFile w)) evs.
Proof.
  unfold ce, all_events. intros H. apply Forall_forall. intros e I.
  apply list_elem_of_In in I. rewrite forallb_forall in H. specialize (H e I).
  unfold collect_event in H. destruct e; simpl in H; try discriminate; eauto.
  - right; left. eauto.
  - right; right. apply String.eqb_eq in H. now subst.
Qed.

(** X26. [collectAllData] only asks and reads: it leaves the files as
    they are, and every one of its actions is a clock reading, an HTTP
    request or a read of the state file.  It never creates or writes a
    file and never looks up or runs the sender. *)
Theorem collectAllData_only_asks_and_reads (st : State) :
  files (collectAllData env w st).2 = files st
  /\ exists evs,
       trace (collectAllData env w st).2 = evs ++ trace st
       /\ Forall (fun e => e = EvNow
                           \/ (exists method path params, e = EvRequest method path params)
                           \/ e = EvReadFile (lastRunFile w)) evs.
Proof.
  destruct (collectAllData_accesses env w st) as (F & _). split; [exact F|].
  rewrite collectAllData_unfold. cbv zeta.
  destruct (quiet_login env st) as (_ & _ & e1 & T1 & A1).
  destruct (negb (login env st).1).
  { exists e1. split; [exact T1 | now apply ce_Forall, api_ce]. }
  destruct (quiet_getDeviceID env (login env st).2) as (_ & _ & e2 & T2 & A2).
  destruct (getSites_run env (getDeviceID env (login env st).2).2) as (_ & (e3 & T3 & A3) & _).
  assert (C123 : ce (e3 ++ e2 ++ e1)).
  { apply ce_closed; [|now apply api_ce]. apply ce_closed; now apply api_ce. }
  assert (T123 : trace (getSites env (getDeviceID env (login env st).2).2).2
                 = (e3 ++ e2 ++ e1) ++ trace st).
  { rewrite T3, T2, T1. now rewrite <- !app_assoc. }
  destruct (Nat.eqb _ 0).
  { exists (e3 ++ e2 ++ e1). split; [exact T123 | now apply ce_Forall]. }
  cbn [fst snd].
  match goal with
  | |- context [collectSites env w ?d ?t ?l ?s] =>
      destruct (ce_collectSites d t l s) as (_ & _ & e4 & T4 & A4)
  end.
  exists (e4 ++ [EvNow] ++ e3 ++ e2 ++ e1). split.
  - rewrite T4. cbn [push trace]. rewrite T123. list_eq.
  - apply ce_Forall. apply ce_closed; [|exact A4].
    apply ce_closed; [exact C123 | reflexivity].
Qed.

End GapFacts.

Lemma windows_leave_no_gap_witness :
  let end1 := (windowOf (env_up true true) cfg_demo "s3" EmptyString
                 (push EvNow (startState ∅))).1.1.2 in
  1718000000000000000 <= 1718000000123456789 <= unixNano end1.
Proof.
  intros end1.
  assert (Mono : forall i j, (i <= j)%nat ->
                   env_clock (env_up true true) i <= env_clock (env_up true true) j)
    by (intros i j H; simpl; lia).
  assert (L : later (push EvNow (startState ∅)) (push EvNow (startState ∅)))
    by (exists []; reflexivity).
  exact (proj1 (windows_leave_no_gap (env_up true true) cfg_demo (startState ∅)
                  (push EvNow (startState ∅)) "s3" EmptyString Local
                  (mkTime 1718000100000000000 Local) Mono L)).
Defined.
